(** * Event discovery pipeline of brief-mvp: a shallow embedding

    The development follows the grounded variant of the [fetch-events-ai]
    edge function (time window, search queries, grounding sets, validator,
    response parsing, handler) and the two formatters of [send-digest].

    A JavaScript string is modelled by its UTF-8 encoding, one [ascii] per
    byte (a surrogate without its partner keeps the three bytes of its
    code).  White space is the white space of ECMAScript, recognised in
    that encoding; lengths and cuts that the code makes in UTF-16 code
    units are counted in those units.  [toLowerCase] changes the letters A
    to Z only: it is exact on texts whose cased letters are ASCII.  The
    parts of the JavaScript runtime that the code calls but does not define
    ([new URL], [Date.parse], [JSON.parse], the local time zone) are the
    fields of the class [Runtime]; every property of the validator is
    proved for all runtimes.  A small reference runtime is given to
    evaluate concrete runs. *)

From Stdlib Require Import ZArith String Ascii List Lia Bool DecimalString DecimalNat.
From stdpp Require Import base gmap sets list strings.

Local Open Scope string_scope.
Local Set Warnings "-register-all,-clear-no-such-hyp".

(** ** String primitives of the runtime *)

Module JSString.

Definition byteOf (c : ascii) : N := N_of_ascii c.

(** The white space and line terminator code points of ECMAScript, which
    [String.prototype.trim] removes and the class [\s] matches, by the
    bytes of their encoding: U+0009 to U+000D and U+0020 (one byte);
    U+00A0 (C2 A0); U+1680 (E1 9A 80), U+2000 to U+200A (E2 80 80 to 8A),
    U+2028 and U+2029 (E2 80 A8 and A9), U+202F (E2 80 AF), U+205F
    (E2 81 9F), U+3000 (E3 80 80) and U+FEFF (EF BB BF). *)
Definition isSpace1 (b1 : N) : bool :=
  ((9 <=? b1) && (b1 <=? 13) || (b1 =? 32))%N.

Definition isSpace2 (b1 b2 : N) : bool := ((b1 =? 194) && (b2 =? 160))%N.

Definition isSpace3 (b1 b2 b3 : N) : bool :=
  ((b1 =? 225) && (b2 =? 154) && (b3 =? 128)
   || (b1 =? 226) && (b2 =? 128)
      && ((128 <=? b3) && (b3 <=? 138) || (b3 =? 168) || (b3 =? 169) || (b3 =? 175))
   || (b1 =? 226) && (b2 =? 129) && (b3 =? 159)
   || (b1 =? 227) && (b2 =? 128) && (b3 =? 128)
   || (b1 =? 239) && (b2 =? 187) && (b3 =? 191))%N.

(** The number of bytes of the white space character at the start of
    [s]; 0 when [s] starts with none. *)
Definition spaceLen (s : string) : nat :=
  match s with
  | EmptyString => 0
  | String c1 s1 =>
      if isSpace1 (byteOf c1) then 1
      else if (byteOf c1 <? 128)%N then 0
      else
        match s1 with
        | EmptyString => 0
        | String c2 s2 =>
            if isSpace2 (byteOf c1) (byteOf c2) then 2
            else
              match s2 with
              | EmptyString => 0
              | String c3 _ =>
                  if isSpace3 (byteOf c1) (byteOf c2) (byteOf c3) then 3 else 0
              end
        end
  end.

(** [Boolean(s)] for a string: the empty string is the only falsy one. *)
Definition truthy (s : string) : bool :=
  match s with EmptyString => false | String _ _ => true end.

Fixpoint trimStart (s : string) : string :=
  match s with
  | EmptyString => EmptyString
  | String _ s1 =>
      match spaceLen s with
      | 0 => s
      | 1 => trimStart s1
      | 2 => match s1 with
             | String _ s2 => trimStart s2
             | EmptyString => EmptyString
             end
      | _ => match s1 with
             | String _ (String _ s3) => trimStart s3
             | _ => EmptyString
             end
      end
  end.

(** A text made of white space only. *)
Definition allSpace (s : string) : bool := negb (truthy (trimStart s)).

(** The text up to the white space that ends it. *)
Fixpoint trimEnd (s : string) : string :=
  match s with
  | EmptyString => EmptyString
  | String c s' => if allSpace s then EmptyString else String c (trimEnd s')
  end.

Definition trim (s : string) : string := trimEnd (trimStart s).

Definition lowerChar (c : ascii) : ascii :=
  let n := N_of_ascii c in
  if ((65 <=? n) && (n <=? 90))%N then ascii_of_N (n + 32) else c.

Fixpoint toLowerCase (s : string) : string :=
  match s with
  | EmptyString => EmptyString
  | String c s' => String (lowerChar c) (toLowerCase s')
  end.

Definition startsWith (s p : string) : bool := String.prefix p s.

(** [s.slice(n)], [s.slice(0, n)] and [s.slice(0, -k)] where the part cut
    off is ASCII, so that its bytes are its code units. *)
Fixpoint sliceFrom (n : nat) (s : string) : string :=
  match n, s with
  | O, _ => s
  | S n', String _ s' => sliceFrom n' s'
  | S _, EmptyString => EmptyString
  end.

Fixpoint sliceTo (n : nat) (s : string) : string :=
  match n, s with
  | O, _ => EmptyString
  | S n', String c s' => String c (sliceTo n' s')
  | S _, EmptyString => EmptyString
  end.

Definition sliceDropLast (k : nat) (s : string) : string :=
  sliceTo (String.length s - k) s.

Definition endsWith (s p : string) : bool :=
  (String.length p <=? String.length s)%nat
  && String.eqb (sliceFrom (String.length s - String.length p) s) p.

(** The number of UTF-16 code units of the character that the byte [c]
    starts: a byte that continues a character counts for nothing, the
    first of the four bytes of a character beyond U+FFFF for two, any
    other first byte for one. *)
Definition unitsOf (c : ascii) : nat :=
  let b := byteOf c in
  if (b <? 128)%N then 1
  else if (b <? 192)%N then 0
  else if (b <? 240)%N then 1
  else 2.

(** [s.length]. *)
Fixpoint length16 (s : string) : nat :=
  match s with
  | EmptyString => 0
  | String c s' => unitsOf c + length16 s'
  end.

(** The first code unit of the character of four bytes [c], [rest]: its
    high surrogate, in the three bytes of its code. *)
Definition highSurrogate (c : ascii) (rest : string) : string :=
  match rest with
  | String c2 (String c3 (String c4 _)) =>
      let cp := ((byteOf c mod 8) * 262144 + (byteOf c2 mod 64) * 4096
                 + (byteOf c3 mod 64) * 64 + byteOf c4 mod 64)%N in
      let hi := (55296 + (cp - 65536) / 1024)%N in
      String "237"%char
        (String (ascii_of_N (128 + (hi / 64) mod 64))
           (String (ascii_of_N (128 + hi mod 64)) EmptyString))
  | _ => EmptyString
  end.

(** [s.slice(0, n)] for [0 <= n], counted in code units: a cut inside a
    character beyond U+FFFF leaves its high surrogate. *)
Fixpoint sliceTo16 (n : nat) (s : string) : string :=
  match s with
  | EmptyString => EmptyString
  | String c s' =>
      match unitsOf c, n with
      | 0, _ => String c (sliceTo16 n s')
      | _, 0 => EmptyString
      | 1, S n' => String c (sliceTo16 n' s')
      | _, 1 => highSurrogate c s'
      | _, S (S n') => String c (sliceTo16 n' s')
      end
  end.

(** [xs.join(sep)]. *)
Fixpoint join (sep : string) (xs : list string) : string :=
  match xs with
  | [] => EmptyString
  | [x] => x
  | x :: rest => x +:+ sep +:+ join sep rest
  end.

(** Decimal rendering of a non-negative integer, as in a template literal. *)
Definition ofNat (n : nat) : string := NilEmpty.string_of_uint (Nat.to_uint n).

(** Replace every occurrence of one character; used to write literals
    that contain the double quote character. *)
Fixpoint replaceChar (from to : ascii) (s : string) : string :=
  match s with
  | EmptyString => EmptyString
  | String c s' =>
      String (if Ascii.eqb c from then to else c) (replaceChar from to s')
  end.

Definition dquote : ascii := "034"%char.

End JSString.

Import JSString.

(** ** JSON values, as produced by [JSON.parse] *)

(** Numbers keep their lexeme: the pipeline only ever asks for their type.
    An object keeps its members in source order; a later member with the same
    key overrides an earlier one, as [JSON.parse] does. *)
Inductive JSON : Type :=
| JNull
| JBool (b : bool)
| JNum (lexeme : string)
| JStr (s : string)
| JArr (items : list JSON)
| JObj (members : list (string * JSON)).

Fixpoint lookupLast (key : string) (members : list (string * JSON)) : option JSON :=
  match members with
  | [] => None
  | (k, v) :: rest =>
      match lookupLast key rest with
      | Some v' => Some v'
      | None => if String.eqb k key then Some v else None
      end
  end.

(** [v[key]] for a non-index key: [None] is [undefined]. *)
Definition getProp (v : JSON) (key : string) : option JSON :=
  match v with
  | JObj members => lookupLast key members
  | _ => None
  end.

(** [!item || typeof item !== "object"]: [null] is falsy, arrays are objects. *)
Definition notAnObject (item : JSON) : bool :=
  match item with
  | JObj _ | JArr _ => false
  | _ => true
  end.

(** [typeof v === "string" ? v.trim() : ""]. *)
Definition stringField (v : option JSON) : string :=
  match v with
  | Some (JStr s) => trim s
  | _ => EmptyString
  end.

Definition onlyStrings (xs : list JSON) : list string :=
  omap (fun x => match x with JStr s => Some s | _ => None end) xs.

(** [Array.isArray(v) ? v.filter(string).map(trim).filter(Boolean) : []]. *)
Definition stringArrayField (v : option JSON) : list string :=
  match v with
  | Some (JArr xs) => List.filter truthy (List.map trim (onlyStrings xs))
  | _ => []
  end.

(** ** Data model *)

Record Brief : Type := mkBrief {
  artists : option (list string);
  genres : option (list string);
  venues : option (list string);
  eventWindow : option string   (* [brief.schedule?.eventWindow] *)
}.

Record Event : Type := mkEvent {
  event_name : string;
  ev_artists : list string;
  ev_genres : list string;
  date : string;
  venue : string;
  event_url : string
}.

Record SourceDoc : Type := mkSourceDoc {
  url : string;
  title : option string;
  markdown : string
}.

(** A [Date] object: its time value in milliseconds since the epoch, or
    [None] for an invalid date (time value [NaN]). *)
Definition JSDate : Type := option Z.

(** Relational comparison of two dates: any comparison with [NaN] is false. *)
Definition date_lt (a b : JSDate) : bool :=
  match a, b with
  | Some x, Some y => (x <? y)%Z
  | _, _ => false
  end.

Definition date_gt (a b : JSDate) : bool := date_lt b a.

Definition isNaN (d : JSDate) : bool :=
  match d with None => true | Some _ => false end.

(** ** The runtime interface *)

Class Runtime : Type := {
  (** [new URL(s).host]; [None] when the constructor throws. *)
  URL_host : string -> option string;
  (** [new Date(s).getTime()]; [None] is [NaN]. *)
  Date_parse : string -> JSDate;
  (** [JSON.parse(s)]; [None] when it throws. *)
  JSON_parse : string -> option JSON;
  (** The offset of the local time zone at the time value [t], in
      milliseconds: local time is [t + LocalTZA t]. *)
  LocalTZA : Z -> Z
}.

(** ** Insertion-ordered de-duplication

    [xs.filter(x => seen.has(key(x)) ? false : (seen.add(key(x)), true))],
    which is also the order in which a [Set] or a [Map] filled from [xs]
    enumerates its keys: the first occurrence of a key wins. *)
Fixpoint uniqueBy {A : Type} (key : A -> string) (seen : gset string) (xs : list A)
  : list A :=
  match xs with
  | [] => []
  | x :: rest =>
      if bool_decide (key x ∈ seen) then uniqueBy key seen rest
      else x :: uniqueBy key ({[ key x ]} ∪ seen) rest
  end.

(** ** Genre vocabulary and the all-genres sentinel *)

Definition KNOWN_GENRES : list string :=
  [ "Indie Rock"; "Jazz"; "Electronic"; "Hip Hop"; "Classical"; "World Music";
    "Pop"; "R&B"; "Alternative"; "Folk"; "Punk"; "Metal" ].

Definition isAllGenresSelection (genres : option (list string)) : bool :=
  match genres with
  | None => false
  | Some [] => false
  | Some gs =>
      let selected : gset string := list_to_set (List.filter truthy (List.map trim gs)) in
      forallb (fun g => bool_decide (g ∈ selected)) KNOWN_GENRES
  end.

(** ** Validator *)

Record ValidateOpts : Type := mkOpts {
  brief : Brief;
  allowedUrls : gset string;
  allowedHosts : gset string;
  start : JSDate;
  end_ : JSDate
}.

Definition preferredGenresOf (b : Brief) : gset string :=
  list_to_set
    (List.filter truthy
       (List.map (fun g => trim (toLowerCase g)) (default [] (genres b)))).

Definition applyGenreFilterOf (b : Brief) : bool :=
  (0 <? size (preferredGenresOf b))%nat && negb (isAllGenresSelection (genres b)).

Section Validator.
Context `{Runtime}.

(** The body of the [for] loop: [None] is a [continue], [Some e] an
    [out.push(e)]. *)
Definition validateCandidate (opts : ValidateOpts) (item : JSON) : option Event :=
  if notAnObject item then None else
  let event_name := stringField (getProp item "event_name") in
  let venue := stringField (getProp item "venue") in
  let date := stringField (getProp item "date") in
  let event_url := stringField (getProp item "event_url") in
  let artists := stringArrayField (getProp item "artists") in
  let genres := stringArrayField (getProp item "genres") in
  if negb (truthy event_name) || negb (truthy date)
     || negb (truthy venue) || negb (truthy event_url) then None else
  let parsed := Date_parse date in
  if isNaN parsed then None else
  if date_lt parsed (start opts) || date_gt parsed (end_ opts) then None else
  match URL_host event_url with
  | None => None
  | Some host =>
      let urlOk :=
        bool_decide (event_url ∈ allowedUrls opts)
        || (truthy host && bool_decide (host ∈ allowedHosts opts)) in
      if negb urlOk then None else
      let preferredGenres := preferredGenresOf (brief opts) in
      if applyGenreFilterOf (brief opts)
         && negb (existsb
                    (fun g => bool_decide (trim (toLowerCase g) ∈ preferredGenres))
                    genres)
      then None
      else Some (mkEvent event_name artists genres date venue event_url)
  end.

(** The loop itself, pushing survivors at the end of [out]. *)
Definition collect (opts : ValidateOpts) (items : list JSON) : list Event :=
  fold_left
    (fun out item =>
       match validateCandidate opts item with
       | Some e => (out ++ [e])%list
       | None => out
       end)
    items [].

Definition validateAndFilterEvents (raw : JSON) (opts : ValidateOpts) : list Event :=
  match raw with
  | JArr items => take 10 (uniqueBy event_url ∅ (collect opts items))
  | _ => []
  end.

End Validator.

(** ** Time values, after the ECMAScript date abstractions *)

Module JSTime.
Local Open Scope Z_scope.

Definition msPerDay : Z := 86400000.
Definition maxTime : Z := 8640000000000000.

Definition Day (t : Z) : Z := t / msPerDay.
Definition TimeWithinDay (t : Z) : Z := t mod msPerDay.
Definition WeekDay (t : Z) : Z := (Day t + 4) mod 7.

Definition DaysInYear (y : Z) : Z :=
  if negb (y mod 4 =? 0) then 365
  else if negb (y mod 100 =? 0) then 366
  else if negb (y mod 400 =? 0) then 365
  else 366.

Definition DayFromYear (y : Z) : Z :=
  365 * (y - 1970) + (y - 1969) / 4 - (y - 1901) / 100 + (y - 1601) / 400.

(** The largest [y] with [DayFromYear y <= d], found from an estimate
    that is off by at most one. *)
Definition yearOfDay (d : Z) : Z :=
  let y0 := 1970 + d * 400 / 146097 in
  if d <? DayFromYear y0 then y0 - 1
  else if DayFromYear (y0 + 1) <=? d then y0 + 1
  else y0.

Definition YearFromTime (t : Z) : Z := yearOfDay (Day t).
Definition DayWithinYear (t : Z) : Z := Day t - DayFromYear (YearFromTime t).
Definition InLeapYear (t : Z) : Z :=
  if DaysInYear (YearFromTime t) =? 366 then 1 else 0.

(** Number of days of the year that precede month [m] (0 = January);
    [monthStart 12] is the length of the year. *)
Definition monthStart (m leap : Z) : Z :=
  match m with
  | 0 => 0
  | 1 => 31
  | 2 => 59 + leap
  | 3 => 90 + leap
  | 4 => 120 + leap
  | 5 => 151 + leap
  | 6 => 181 + leap
  | 7 => 212 + leap
  | 8 => 243 + leap
  | 9 => 273 + leap
  | 10 => 304 + leap
  | 11 => 334 + leap
  | _ => 365 + leap
  end.

Definition monthOfDayInYear (dwy leap : Z) : Z :=
  if dwy <? 31 then 0
  else if dwy <? 59 + leap then 1
  else if dwy <? 90 + leap then 2
  else if dwy <? 120 + leap then 3
  else if dwy <? 151 + leap then 4
  else if dwy <? 181 + leap then 5
  else if dwy <? 212 + leap then 6
  else if dwy <? 243 + leap then 7
  else if dwy <? 273 + leap then 8
  else if dwy <? 304 + leap then 9
  else if dwy <? 334 + leap then 10
  else 11.

Definition MonthFromTime (t : Z) : Z :=
  monthOfDayInYear (DayWithinYear t) (InLeapYear t).

Definition DateFromTime (t : Z) : Z :=
  DayWithinYear t - monthStart (MonthFromTime t) (InLeapYear t) + 1.

Definition MakeTime (hour min sec ms : Z) : Z :=
  hour * 3600000 + min * 60000 + sec * 1000 + ms.

(** [MakeDay]: the day number of the first of month [month] of [year]
    (months beyond the year carry into it), plus [date - 1]. *)
Definition MakeDay (year month date : Z) : Z :=
  let ym := year + month / 12 in
  let mn := month mod 12 in
  let leap := if DaysInYear ym =? 366 then 1 else 0 in
  DayFromYear ym + monthStart mn leap + date - 1.

Definition MakeDate (day time : Z) : Z := day * msPerDay + time.

Definition TimeClip (t : Z) : JSDate :=
  if Z.abs t <=? maxTime then Some t else None.

(** [Date.UTC]: a year from 0 to 99 means 1900 + year. *)
Definition Date_UTC (year month date hours minutes seconds ms : Z) : JSDate :=
  let yr := if (0 <=? year) && (year <=? 99) then 1900 + year else year in
  TimeClip (MakeDate (MakeDay yr month date) (MakeTime hours minutes seconds ms)).

Definition setUTCDate (d : JSDate) (dt : Z) : JSDate :=
  match d with
  | None => None
  | Some t =>
      TimeClip (MakeDate (MakeDay (YearFromTime t) (MonthFromTime t) dt)
                  (TimeWithinDay t))
  end.

Definition setUTCHours (d : JSDate) (hour min sec ms : Z) : JSDate :=
  match d with
  | None => None
  | Some t => TimeClip (MakeDate (Day t) (MakeTime hour min sec ms))
  end.

Definition digitChar (n : Z) : ascii := ascii_of_N (48 + Z.to_N (n mod 10)).

(** The last [width] decimal digits of a non-negative number, zero padded. *)
Fixpoint padDigits (width : nat) (n : Z) : string :=
  match width with
  | O => EmptyString
  | S w => (padDigits w (n / 10) +:+ String (digitChar n) EmptyString)%string
  end.

(** [new Date(t).toISOString().split("T")[0]] for a valid time value. *)
Definition isoDate (t : Z) : string :=
  let y := YearFromTime t in
  let year :=
    if (0 <=? y) && (y <=? 9999) then padDigits 4 y
    else let sign := if y <? 0 then "-"%string else "+"%string in
         (sign +:+ padDigits 6 (Z.abs y))%string in
  (year +:+ "-" +:+ padDigits 2 (MonthFromTime t + 1)
     +:+ "-" +:+ padDigits 2 (DateFromTime t))%string.

(** Decimal rendering of an integer, as in a template literal. *)
Definition ofZ (n : Z) : string :=
  let sign := if n <? 0 then "-"%string else EmptyString in
  (sign +:+ ofNat (Z.to_nat (Z.abs n)))%string.

End JSTime.

Import JSTime.

(** ** Time Window Resolver *)

Record TimeWindow : Type := mkWindow {
  tw_start : JSDate;
  tw_end : JSDate;
  description : string
}.

(** The [switch] over the normalised window: the end date it computes
    from the time value [now] of [new Date()]. *)
Definition windowEnd (now : Z) (normalized : string) : JSDate :=
  let end0 : JSDate := Some now in
  if String.eqb normalized "This weekend" then
    let daysUntilSunday := Z.rem (7 - WeekDay now) 7 in
    let e := setUTCDate end0 (DateFromTime now + daysUntilSunday) in
    setUTCHours e 23 59 59 999
  else if String.eqb normalized "Next 7 days" then
    setUTCDate end0 (DateFromTime now + 7)
  else if String.eqb normalized "Next 2 weeks" then
    setUTCDate end0 (DateFromTime now + 14)
  else
    let y := YearFromTime now in
    let m := MonthFromTime now in
    Date_UTC y (m + 1) 0 23 59 59 999.

(** [now] is the time value of [new Date()].  The result is [None] when
    [toISOString] throws a [RangeError] on an invalid end date. *)
Definition getTimeWindowRange (now : Z) (eventWindow : string) : option TimeWindow :=
  let start : JSDate := Some now in
  let normalized := if truthy eventWindow then eventWindow else "This month" in
  let end1 := windowEnd now normalized in
  match end1 with
  | None => None
  | Some e =>
      Some (mkWindow start end1 (isoDate now +:+ " to " +:+ isoDate e))
  end.

(** ** Source Gatherer: query construction *)

(** Insertion order is the order of [Object.keys]. *)
Definition VENUE_DOMAINS : list (string * list string) :=
  [ ("barby", ["barby.co.il"]);
    ("teder", ["teder.fm"]);
    ("levontin7", ["levontin7.com"]);
    ("kuli-alma", ["facebook.com"; "instagram.com"]);
    ("ozen-bar", ["ozen.co.il"]);
    ("suzanne-dellal", ["suzannedellal.org.il"]);
    ("artport", ["artport.art"]);
    ("secret-telaviv", ["secrettelaviv.com"]);
    ("go-out", ["go-out.co"]);
    ("eventim", ["eventim.co.il"]);
    ("ticketmaster", ["ticketmaster.co.il"]);
    ("tlv-municipality", ["tel-aviv.gov.il"]) ].

Definition VENUE_MAP : list (string * string) :=
  [ ("barby", "barby");
    ("teder", "teder.fm");
    ("levontin7", "levontin 7");
    ("kuli-alma", "kuli alma");
    ("ozen-bar", "ozentelaviv");
    ("suzanne-dellal", "suzanne dellal");
    ("secret-telaviv", "secret tel aviv");
    ("go-out", "go out");
    ("eventim", "eventim");
    ("ticketmaster", "ticketmaster");
    ("artport", "artport");
    ("tlv-municipality", "tel aviv municipality") ].

(** Lookup in a table with distinct keys. *)
Fixpoint assoc {V : Type} (key : string) (table : list (string * V)) : option V :=
  match table with
  | [] => None
  | (k, v) :: rest => if String.eqb k key then Some v else assoc key rest
  end.

(** [(VENUE_DOMAINS[venueId] || [])[0]], kept only when truthy.  A key that
    the table lacks gives no domain (the members that a JavaScript object
    inherits have no element 0 either). *)
Definition primaryDomain (venueId : string) : option string :=
  match assoc venueId VENUE_DOMAINS with
  | Some (d :: _) => if truthy d then Some d else None
  | _ => None
  end.

Definition queryFor (domain : string) (year : Z) : string :=
  "site:" +:+ domain +:+ " Tel Aviv events " +:+ ofZ year.

(** [brief.venues?.length ? brief.venues : Object.keys(VENUE_DOMAINS)]. *)
Definition venueIdsOf (b : Brief) : list string :=
  match venues b with
  | Some (v :: vs) => v :: vs
  | _ => List.map fst VENUE_DOMAINS
  end.

(** The [for] loop over the venue identifiers: an identifier without a
    domain is passed over, any other pushes its query. *)
Definition queriesOf (year : Z) (venueIds : list string) : list string :=
  fold_left
    (fun queries venueId =>
       match primaryDomain venueId with
       | None => queries
       | Some domain => (queries ++ [queryFor domain year])%list
       end)
    venueIds [].

(** ** Grounding Index *)

(** The character at the start of [s] may continue a URL match: it is
    anything but white space, a closing parenthesis, bracket, brace or
    angle, and the two quote characters. *)
Definition urlCharAt (s : string) : bool :=
  match s with
  | EmptyString => false
  | String c _ =>
      negb ((0 <? spaceLen s)%nat
            || Ascii.eqb c ")" || Ascii.eqb c "]" || Ascii.eqb c "}"
            || Ascii.eqb c ">" || Ascii.eqb c dquote || Ascii.eqb c "'")
  end.

Fixpoint takeUrlChars (s : string) : string :=
  match s with
  | EmptyString => EmptyString
  | String c s' => if urlCharAt s then String c (takeUrlChars s') else EmptyString
  end.

(** A match of the URL pattern anchored at the start of [s]: the scheme
    http or https, then the two slashes, then one or more URL characters. *)
Definition matchUrlAt (s : string) : option string :=
  if startsWith s "https://" then
    match takeUrlChars (sliceFrom 8 s) with
    | EmptyString => None
    | body => Some ("https://" +:+ body)
    end
  else if startsWith s "http://" then
    match takeUrlChars (sliceFrom 7 s) with
    | EmptyString => None
    | body => Some ("http://" +:+ body)
    end
  else None.

(** All matches from left to right; [skip] counts the characters of the
    current match that are still to be passed over. *)
Fixpoint scanUrls (skip : nat) (s : string) : list string :=
  match s with
  | EmptyString => []
  | String _ s' =>
      match skip with
      | S k => scanUrls k s'
      | O =>
          match matchUrlAt s with
          | Some m => m :: scanUrls (String.length m - 1) s'
          | None => scanUrls 0 s'
          end
      end
  end.

Definition extractUrls (text : string) : list string :=
  uniqueBy (fun u => u) ∅ (scanUrls 0 text).

Record AllowList : Type := mkAllow {
  urls : gset string;
  hosts : gset string
}.

Section Grounding.
Context `{Runtime}.

Definition addHost (hosts : gset string) (u : string) : gset string :=
  match URL_host u with
  | Some h => {[ h ]} ∪ hosts
  | None => hosts
  end.

Definition buildAllowedUrlSets (sources : list SourceDoc) : AllowList :=
  fold_left
    (fun acc s =>
       let acc1 := mkAllow ({[ url s ]} ∪ urls acc) (addHost (hosts acc) (url s)) in
       fold_left
         (fun a u => mkAllow ({[ u ]} ∪ urls a) (addHost (hosts a) u))
         (extractUrls (markdown s)) acc1)
    sources (mkAllow ∅ ∅).

End Grounding.

(** ** Prompt Builder *)

Definition nl : string := String "010"%char EmptyString.

(** A template written line by line. *)
Definition lines (ls : list string) : string := join nl ls.

(** A literal in which the back quote stands for the double quote. *)
Definition q (s : string) : string := replaceChar "`"%char dquote s.

Definition truncate (text : string) (maxChars : nat) : string :=
  if (maxChars <? length16 text)%nat
  then sliceTo16 maxChars text +:+ nl +:+ "â€¦(truncated)"
  else text.

Definition nonEmptyList {A : Type} (l : option (list A)) : bool :=
  match l with Some (_ :: _) => true | _ => false end.

(** [VENUE_MAP[v] || v]. *)
Definition venueName (v : string) : string :=
  match assoc v VENUE_MAP with
  | Some n => if truthy n then n else v
  | None => v
  end.

Definition promptPreferredArtists (b : Brief) : string :=
  if nonEmptyList (artists b) then join ", " (default [] (artists b))
  else "none specified".

Definition promptPreferredGenres (b : Brief) : string :=
  let allGenres := isAllGenresSelection (genres b) in
  if negb (nonEmptyList (genres b)) || allGenres then "any genre"
  else join ", " (default [] (genres b)).

Definition promptAllowedVenues (b : Brief) : string :=
  if nonEmptyList (venues b) then join ", " (List.map venueName (default [] (venues b)))
  else "any venue in Tel Aviv".

Definition promptGenreRule (b : Brief) : string :=
  if isAllGenresSelection (genres b) || negb (nonEmptyList (genres b))
  then "- genre: no filtering required." +:+ nl
  else "- genre MUST include at least one of preferred_genres." +:+ nl.

Fixpoint sourceEntries (idx : nat) (sources : list SourceDoc) : list string :=
  match sources with
  | [] => []
  | s :: rest =>
      ("SOURCE_" +:+ ofNat (idx + 1) +:+ nl +:+ "url: " +:+ url s +:+ nl
         +:+ "content:" +:+ nl +:+ truncate (markdown s) 4000)
        :: sourceEntries (S idx) rest
  end.

Definition promptSourceBlock (sources : list SourceDoc) : string :=
  match sources with
  | [] => "NO_SOURCES_AVAILABLE"
  | _ => join (nl +:+ nl) (sourceEntries 0 sources)
  end.

(** [brief.schedule?.eventWindow || "This month"]. *)
Definition windowOf (b : Brief) : string :=
  match eventWindow b with
  | Some w => if truthy w then w else "This month"
  | None => "This month"
  end.

(** [None] when [getTimeWindowRange] throws. *)
Definition buildPrompt (now : Z) (b : Brief) (sources : list SourceDoc) : option string :=
  match getTimeWindowRange now (windowOf b) with
  | None => None
  | Some window =>
      Some (lines
        [ "You are a fact-grounded event extraction engine.";
          "";
          "You are given a set of web sources (URL + scraped content). You MUST only extract events that are explicitly present in the sources.";
          "Do NOT use outside knowledge. Do NOT invent events, dates, venues, artists, genres, or URLs.";
          "";
          "User preferences";
          "preferred_artists: " +:+ promptPreferredArtists b;
          "preferred_genres: " +:+ promptPreferredGenres b;
          "time_window: " +:+ description window;
          "allowed_venues: " +:+ promptAllowedVenues b;
          "location: Tel Aviv";
          "";
          "Output Rules";
          "- Output ONLY a valid JSON array (no markdown, no commentary)";
          "- Return at most 10 events";
          "- If no matching events are explicitly present in sources, return []";
          "";
          "Output Schema (per event)";
          "{";
          q "  `event_name`: `string`,";
          q "  `artists`: [`string`],";
          q "  `genres`: [`string`],";
          q "  `date`: `ISO-8601 string`,";
          q "  `venue`: `string`,";
          q "  `event_url`: `string`";
          "}";
          "";
          "Hard Requirements";
          "- event_url MUST be a valid public URL that appears in the sources content OR, if none is present for that event, use the SOURCE url where the event is mentioned.";
          "- date MUST be within the given time_window.";
          promptGenreRule b;
          "";
          "Sources";
          promptSourceBlock sources ])
  end.

(** ** Response parsing *)

Inductive Outcome (A : Type) : Type :=
| Returned (a : A)
| Thrown (message : string).
Arguments Returned {A} a.
Arguments Thrown {A} message.

(** Removal of a Markdown code fence around the model output. *)
Definition cleanContent (content : string) : string :=
  let c0 := trim content in
  let c1 :=
    if startsWith c0 "```json" then sliceFrom 7 c0
    else if startsWith c0 "```" then sliceFrom 3 c0
    else c0 in
  let c2 := if endsWith c1 "```" then sliceDropLast 3 c1 else c1 in
  trim c2.

Section Parsing.
Context `{Runtime}.

(** The body of the [try] block. *)
Definition parseAndValidate (content : string) (opts : ValidateOpts)
  : Outcome (list Event) :=
  match JSON_parse (cleanContent content) with
  | None => Thrown "SyntaxError"
  | Some parsed => Returned (validateAndFilterEvents parsed opts)
  end.

(** The [try] block with its [catch], which resets [events] to []. *)
Definition eventsFromContent (content : string) (opts : ValidateOpts) : list Event :=
  match parseAndValidate content opts with
  | Returned validated => validated
  | Thrown _ => []
  end.

End Parsing.

(** ** The handler and its effects *)

Record RawItem : Type := mkRawItem {
  it_url : option string;
  it_title : option string;
  it_markdown : option string;
  it_content : option string
}.

(** Reply of the search provider: the call rejects (or its body is not
    JSON), or it answers with a status and the [data] member of its body. *)
Inductive SearchReply : Type :=
| SearchThrows
| SearchHttp (status : nat) (data : option (list RawItem)).

(** Reply of the model gateway: the call rejects (or its body is not
    JSON), or it answers with a status and, from its body,
    [choices[0].message.content] and [choices[0].finish_reason]. *)
Inductive AiReply : Type :=
| AiThrows (message : string)
| AiHttp (status : nat) (content : option string) (finish_reason : option string).

Inductive Prog (A : Type) : Type :=
| Ret (a : A)
| GetEnv (name : string) (k : option string -> Prog A)
| GetClock (k : Z -> Prog A)
| SearchFetch (query : string) (k : SearchReply -> Prog A)
| AiFetch (prompt : string) (k : AiReply -> Prog A).
Arguments Ret {A} a.
Arguments GetEnv {A} name k.
Arguments GetClock {A} k.
Arguments SearchFetch {A} query k.
Arguments AiFetch {A} prompt k.

Fixpoint bind {A B : Type} (p : Prog A) (f : A -> Prog B) : Prog B :=
  match p with
  | Ret a => f a
  | GetEnv name k => GetEnv name (fun v => bind (k v) f)
  | GetClock k => GetClock (fun t => bind (k t) f)
  | SearchFetch query k => SearchFetch query (fun r => bind (k r) f)
  | AiFetch prompt k => AiFetch prompt (fun r => bind (k r) f)
  end.

Notation "x <- p ;; f" := (bind p (fun x => f))
  (at level 62, p at next level, right associativity).

Fixpoint mapProg {A B : Type} (f : A -> Prog B) (xs : list A) : Prog (list B) :=
  match xs with
  | [] => Ret []
  | x :: rest =>
      y <- f x ;;
      ys <- mapProg f rest ;;
      Ret (y :: ys)
  end.

(** [resp.ok]. *)
Definition statusOk (status : nat) : bool :=
  (200 <=? status)%nat && (status <=? 299)%nat.

(** [Boolean(v)] for an optional string. *)
Definition truthyOpt (v : option string) : bool :=
  match v with Some s => truthy s | None => false end.

Definition toSourceDoc (it : RawItem) : option SourceDoc :=
  let url := default EmptyString (it_url it) in
  let markdown :=
    trim (match it_markdown it with
          | Some m => m
          | None => default EmptyString (it_content it)
          end) in
  if negb (truthy url) || negb (truthy markdown) then None
  else Some (mkSourceDoc url (it_title it) markdown).

(** One query, with the [try]/[catch] that [gatherSources] puts around it. *)
Definition firecrawlSearch (query : string) : Prog (list SourceDoc) :=
  key <- GetEnv "FIRECRAWL_API_KEY" (fun v => Ret v) ;;
  if negb (truthyOpt key) then Ret []
  else
    reply <- SearchFetch query (fun r => Ret r) ;;
    match reply with
    | SearchThrows => Ret []
    | SearchHttp status data =>
        if negb (statusOk status) then Ret []
        else Ret (omap toSourceDoc (default [] data))
    end.

Section Gatherer.
Context `{Runtime}.

(** [new Date(t).getFullYear()]: the year of [t] in local time. *)
Definition getFullYear (t : Z) : Z := YearFromTime (t + LocalTZA t).

Definition buildSearchQueries (b : Brief) : Prog (list string) :=
  let venueIds := venueIdsOf b in
  now <- GetClock (fun t => Ret t) ;;
  let year := getFullYear now in
  Ret (take 6 (uniqueBy (fun q => q) ∅ (queriesOf year venueIds))).

Definition gatherSources (b : Brief) : Prog (list SourceDoc) :=
  queries <- buildSearchQueries b ;;
  match queries with
  | [] => Ret []
  | _ =>
      results <- mapProg firecrawlSearch queries ;;
      Ret (take 8 (uniqueBy url ∅ (concat results)))
  end.

End Gatherer.

Record BriefParams : Type := mkParams {
  bp_artists : list string;
  bp_genres : list string;
  bp_venues : list string;
  bp_eventWindow : string
}.

Record Diagnostics : Type := mkDiag {
  sourceCount : nat;
  aiFinishReason : option string
}.

Inductive Body : Type :=
| Preflight
| ErrorBody (error : string) (traceId : option string)
| EventsBody (events : list Event) (traceId : option string) (discoveredAt : Z)
    (briefParams : BriefParams) (diagnostics : Diagnostics).

Record Response : Type := mkResponse {
  status : nat;
  body : Body
}.

Record RequestBody : Type := mkRequestBody {
  rb_brief : option Brief;
  rb_traceId : option string
}.

(** [json] is the outcome of [req.json()]. *)
Record Request : Type := mkRequest {
  method : string;
  headerTraceId : option string;
  json : Outcome RequestBody
}.

Definition briefParamsOf (b : Brief) : BriefParams :=
  mkParams (default [] (artists b)) (default [] (genres b)) (default [] (venues b))
    (match eventWindow b with
     | Some w => if truthy w then w else "default"
     | None => "default"
     end).

(** [a || b] on optional strings. *)
Definition orElse (a b : option string) : option string :=
  if truthyOpt a then a else b.

Section Handler.
Context `{Runtime}.

(** What the handler does with the gateway's reply.  An exception that
    reaches the outer [catch] is answered with status 500 and the trace
    identifier of the request header. *)
Definition afterAi (headerId traceId : option string) (b : Brief)
    (sources : list SourceDoc) (window : TimeWindow) (reply : AiReply)
  : Prog Response :=
  match reply with
  | AiThrows message => Ret (mkResponse 500 (ErrorBody message headerId))
  | AiHttp st content finish_reason =>
      if negb (statusOk st) then
        if (st =? 429)%nat then
          Ret (mkResponse 429 (ErrorBody "Rate limit exceeded, please try again later" traceId))
        else if (st =? 402)%nat then
          Ret (mkResponse 402 (ErrorBody "AI credits exhausted" traceId))
        else Ret (mkResponse 500 (ErrorBody "AI service error" traceId))
      else
        let content := if truthyOpt content then default EmptyString content else "[]" in
        let allow := buildAllowedUrlSets sources in
        let opts := mkOpts b (urls allow) (hosts allow) (tw_start window) (tw_end window) in
        let events := eventsFromContent content opts in
        discoveredAt <- GetClock (fun t => Ret t) ;;
        Ret (mkResponse 200
               (EventsBody events traceId discoveredAt (briefParamsOf b)
                  (mkDiag (List.length sources) finish_reason)))
  end.

(** What the handler does with the gathered sources. *)
Definition afterGather (headerId traceId : option string) (b : Brief)
    (sources : list SourceDoc) : Prog Response :=
  match sources with
  | [] =>
      discoveredAt <- GetClock (fun t => Ret t) ;;
      Ret (mkResponse 200
             (EventsBody [] traceId discoveredAt (briefParamsOf b) (mkDiag 0 None)))
  | _ =>
      now1 <- GetClock (fun t => Ret t) ;;
      match buildPrompt now1 b sources with
      | None => Ret (mkResponse 500 (ErrorBody "Invalid time value" headerId))
      | Some prompt =>
          now2 <- GetClock (fun t => Ret t) ;;
          match getTimeWindowRange now2 (windowOf b) with
          | None => Ret (mkResponse 500 (ErrorBody "Invalid time value" headerId))
          | Some window =>
              reply <- AiFetch prompt (fun r => Ret r) ;;
              afterAi headerId traceId b sources window reply
          end
      end
  end.

Definition handler (req : Request) : Prog Response :=
  if String.eqb (method req) "OPTIONS" then Ret (mkResponse 200 Preflight)
  else
    match json req with
    | Thrown message => Ret (mkResponse 500 (ErrorBody message (headerTraceId req)))
    | Returned rb =>
        let traceId := orElse (headerTraceId req) (rb_traceId rb) in
        match rb_brief rb with
        | None => Ret (mkResponse 400 (ErrorBody "Brief is required" traceId))
        | Some b =>
            lovableApiKey <- GetEnv "LOVABLE_API_KEY" (fun v => Ret v) ;;
            if negb (truthyOpt lovableApiKey) then
              Ret (mkResponse 500 (ErrorBody "AI service not configured" traceId))
            else
              sources <- gatherSources b ;;
              afterGather (headerTraceId req) traceId b sources
        end
    end.

End Handler.

(** ** Running a program against a world *)

Inductive Effect : Type :=
| EEnv (name : string)
| EClock
| ESearch (query : string)
| EAi (prompt : string).

Record World : Type := mkWorld {
  env : string -> option string;
  clock : nat -> Z;                 (* the n-th reading of the clock *)
  search : string -> SearchReply;
  ai : string -> AiReply
}.

(** The result of a program and the effects it performed, in order;
    [tick] counts the clock readings made so far. *)
Fixpoint run {A : Type} (w : World) (tick : nat) (p : Prog A) : A * list Effect :=
  match p with
  | Ret a => (a, [])
  | GetEnv name k =>
      let '(a, tr) := run w tick (k (env w name)) in (a, EEnv name :: tr)
  | GetClock k =>
      let '(a, tr) := run w (S tick) (k (clock w tick)) in (a, EClock :: tr)
  | SearchFetch query k =>
      let '(a, tr) := run w tick (k (search w query)) in (a, ESearch query :: tr)
  | AiFetch prompt k =>
      let '(a, tr) := run w tick (k (ai w prompt)) in (a, EAi prompt :: tr)
  end.

Definition isAiCall (e : Effect) : bool :=
  match e with EAi _ => true | _ => false end.

(** ** Digest Composer *)

Record DigestEvent : Type := mkDigestEvent {
  de_id : string;
  de_title : string;
  de_venue : string;
  de_date : string;
  de_time : option string;
  de_artists : option (list string);
  de_genres : option (list string);
  de_url : option string;
  de_description : option string
}.

Definition plural (n : nat) : string := if (1 <? n)%nat then "s" else EmptyString.

(** The indicator of the events beyond the display cap. *)
Definition moreEvents (n : nat) : string :=
  "... and " +:+ ofNat n +:+ " more events!".

(** One numbered entry of the chat message, [index] counting from 0. *)
Definition whatsAppEntry (index : nat) (event : DigestEvent) : string :=
  ofNat (index + 1) +:+ ". *" +:+ de_title event +:+ "*" +:+ nl
  +:+ "   📍 " +:+ de_venue event +:+ nl
  +:+ "   📅 " +:+ de_date event
  +:+ (if truthyOpt (de_time event) then " at " +:+ default EmptyString (de_time event)
       else EmptyString)
  +:+ nl
  +:+ (if nonEmptyList (de_genres event)
       then "   🎸 " +:+ join ", " (default [] (de_genres event)) +:+ nl
       else EmptyString)
  +:+ (if truthyOpt (de_url event)
       then "   🔗 " +:+ default EmptyString (de_url event) +:+ nl
       else EmptyString)
  +:+ nl.

(** [xs.forEach((x, index) => { message += entry(index, x) })]: the message
    built so far and the next index. *)
Definition appendEntries (message : string) (xs : list DigestEvent) : string * nat :=
  fold_left
    (fun '(message, index) event => (message +:+ whatsAppEntry index event, S index))
    xs (message, 0%nat).

Definition whatsAppEmpty (briefName : string) : string :=
  "📭 *" +:+ briefName +:+ "*" +:+ nl +:+ nl
  +:+ "No matching events found for your preferences this time. We'll keep looking!".

Definition whatsAppHeader (briefName : string) (n : nat) : string :=
  ("🎵 *" +:+ briefName +:+ "*" +:+ nl +:+ nl)
  +:+ "Found " +:+ ofNat n +:+ " event" +:+ plural n
  +:+ " matching your preferences:" +:+ nl +:+ nl.

Definition formatWhatsAppMessage (briefName : string) (events : list DigestEvent) : string :=
  match events with
  | [] => whatsAppEmpty briefName
  | _ =>
      let n := List.length events in
      let message := whatsAppHeader briefName n in
      let message := fst (appendEntries message (take 10 events)) in
      if (10 <? n)%nat then message +:+ nl +:+ moreEvents (n - 10) else message
  end.

Definition emailCard (event : DigestEvent) : string :=
  lines
    [ "";
      q "    <div style=`background: #f8fafc; border-radius: 8px; padding: 16px; margin-bottom: 12px;`>";
      q "      <h3 style=`margin: 0 0 8px; color: #1e293b;`>" +:+ de_title event +:+ "</h3>";
      q "      <p style=`margin: 4px 0; color: #64748b;`>📍 " +:+ de_venue event +:+ "</p>";
      q "      <p style=`margin: 4px 0; color: #64748b;`>📅 " +:+ de_date event
        +:+ (if truthyOpt (de_time event)
             then " at " +:+ default EmptyString (de_time event) else EmptyString)
        +:+ "</p>";
      "      "
        +:+ (if nonEmptyList (de_genres event)
             then q "<p style=`margin: 4px 0; color: #f97316;`>🎸 "
                  +:+ join ", " (default [] (de_genres event)) +:+ "</p>"
             else EmptyString);
      "      "
        +:+ (if truthyOpt (de_url event)
             then q "<a href=`" +:+ default EmptyString (de_url event)
                  +:+ q "` style=`color: #f97316; text-decoration: none;`>View Details →</a>"
             else EmptyString);
      "    </div>";
      "  " ].

Definition emailCards (events : list DigestEvent) : list string :=
  List.map emailCard (take 15 events).

Definition emailMoreLine (n : nat) : string :=
  if (15 <? n)%nat
  then q "<p style=`color: #64748b; text-align: center;`>"
       +:+ moreEvents (n - 15) +:+ "</p>"
  else EmptyString.

Definition emailEmpty (briefName : string) : string :=
  lines
    [ "";
      q "      <div style=`font-family: Arial, sans-serif; max-width: 600px; margin: 0 auto;`>";
      q "        <h1 style=`color: #f97316;`>📭 " +:+ briefName +:+ "</h1>";
      "        <p>No matching events found for your preferences this time. We'll keep looking!</p>";
      "      </div>";
      "    " ].

(** The mail around the event cards and the indicator. *)
Definition emailFrame (briefName : string) (n : nat) (eventCards more : string) : string :=
  lines
    [ "";
      q "    <div style=`font-family: Arial, sans-serif; max-width: 600px; margin: 0 auto; padding: 20px;`>";
      q "      <h1 style=`color: #f97316; margin-bottom: 4px;`>🎵 " +:+ briefName +:+ "</h1>";
      q "      <p style=`color: #64748b; margin-top: 0;`>Found " +:+ ofNat n
        +:+ " event" +:+ plural n +:+ " matching your preferences</p>";
      "      ";
      "      " +:+ eventCards;
      "      ";
      "      " +:+ more;
      "      ";
      q "      <hr style=`border: none; border-top: 1px solid #e2e8f0; margin: 24px 0;`>";
      q "      <p style=`color: #94a3b8; font-size: 12px; text-align: center;`>";
      "        You're receiving this because you subscribed to Brief AI digests.<br>";
      "        Manage your preferences in the app.";
      "      </p>";
      "    </div>";
      "  " ].

Definition formatEmailHtml (briefName : string) (events : list DigestEvent) : string :=
  match events with
  | [] => emailEmpty briefName
  | _ =>
      let n := List.length events in
      let eventCards := join EmptyString (emailCards events) in
      emailFrame briefName n eventCards (emailMoreLine n)
  end.

(** ** A reference runtime

    An executable runtime for concrete runs.  It reads JSON texts (a
    unicode escape is decoded only below 0x80), URLs of the form
    scheme://authority/..., and the ISO date forms YYYY-MM-DD and
    YYYY-MM-DDTHH:mm:ss(.sss)Z; a real runtime accepts more date forms. *)

Module RefRuntime.

Definition isDigit (c : ascii) : bool :=
  let n := N_of_ascii c in ((48 <=? n) && (n <=? 57))%N.

Definition isAlpha (c : ascii) : bool :=
  let n := N_of_ascii (lowerChar c) in ((97 <=? n) && (n <=? 122))%N.

Definition digitVal (c : ascii) : Z := Z.of_N (N_of_ascii c) - 48.

(** *** JSON *)

Fixpoint skipWs (s : string) : string :=
  match s with
  | String c s' =>
      if Ascii.eqb c " " || Ascii.eqb c "009" || Ascii.eqb c "010" || Ascii.eqb c "013"
      then skipWs s' else s
  | EmptyString => EmptyString
  end.

Fixpoint takeDigits (s : string) : string * string :=
  match s with
  | String c s' =>
      if isDigit c then let '(d, r) := takeDigits s' in (String c d, r)
      else (EmptyString, s)
  | EmptyString => (EmptyString, EmptyString)
  end.

Definition hexVal (c : ascii) : option N :=
  let n := N_of_ascii (lowerChar c) in
  if isDigit c then Some (n - 48)%N
  else if ((97 <=? n) && (n <=? 102))%N then Some (n - 87)%N
  else None.

Definition unicodeEscape (s : string) : option (ascii * string) :=
  match s with
  | String a (String b (String c (String d rest))) =>
      match hexVal a, hexVal b, hexVal c, hexVal d with
      | Some x, Some y, Some z, Some w =>
          let v := (((x * 16 + y) * 16 + z) * 16 + w)%N in
          if (v <? 128)%N then Some (ascii_of_N v, rest) else None
      | _, _, _, _ => None
      end
  | _ => None
  end.

(** The characters of a string literal after its opening quote. *)
Fixpoint stringBody (fuel : nat) (s : string) : option (string * string) :=
  match fuel with
  | O => None
  | S fuel' =>
      match s with
      | EmptyString => None
      | String c s' =>
          if Ascii.eqb c dquote then Some (EmptyString, s')
          else if (N_of_ascii c <? 32)%N then None
          else if Ascii.eqb c "\" then
            match s' with
            | EmptyString => None
            | String e s'' =>
                let continue_ (ch : ascii) (rest : string) :=
                  match stringBody fuel' rest with
                  | Some (t, r) => Some (String ch t, r)
                  | None => None
                  end in
                if Ascii.eqb e dquote then continue_ dquote s''
                else if Ascii.eqb e "\" then continue_ "\"%char s''
                else if Ascii.eqb e "/" then continue_ "/"%char s''
                else if Ascii.eqb e "b" then continue_ "008"%char s''
                else if Ascii.eqb e "f" then continue_ "012"%char s''
                else if Ascii.eqb e "n" then continue_ "010"%char s''
                else if Ascii.eqb e "r" then continue_ "013"%char s''
                else if Ascii.eqb e "t" then continue_ "009"%char s''
                else if Ascii.eqb e "u" then
                  match unicodeEscape s'' with
                  | Some (ch, rest) => continue_ ch rest
                  | None => None
                  end
                else None
            end
          else
            match stringBody fuel' s' with
            | Some (t, r) => Some (String c t, r)
            | None => None
            end
      end
  end.

(** A number token: sign, integer part without a leading zero, then an
    optional fraction and an optional exponent. *)
Definition numberToken (s : string) : option (string * string) :=
  let '(sign, s1) :=
    match s with
    | String "-" r => ("-", r)
    | _ => (EmptyString, s)
    end in
  let '(int, s2) := takeDigits s1 in
  match int with
  | EmptyString => None
  | String "0" (String _ _) => None
  | _ =>
      let '(frac, s3) :=
        match s2 with
        | String "." r =>
            let '(d, r') := takeDigits r in
            (match d with EmptyString => None | _ => Some ("." +:+ d) end, r')
        | _ => (Some EmptyString, s2)
        end in
      match frac with
      | None => None
      | Some frac =>
          match s3 with
          | String e r =>
              if Ascii.eqb (lowerChar e) "e" then
                let '(esign, r1) :=
                  match r with
                  | String "+" r' => ("+", r')
                  | String "-" r' => ("-", r')
                  | _ => (EmptyString, r)
                  end in
                let '(d, r2) := takeDigits r1 in
                match d with
                | EmptyString => None
                | _ => Some (sign +:+ int +:+ frac +:+ String e esign +:+ d, r2)
                end
              else Some (sign +:+ int +:+ frac, s3)
          | EmptyString => Some (sign +:+ int +:+ frac, s3)
          end
      end
  end.

Fixpoint value (fuel : nat) (s : string) : option (JSON * string) :=
  match fuel with
  | O => None
  | S fuel' =>
      let s := skipWs s in
      if startsWith s "null" then Some (JNull, sliceFrom 4 s)
      else if startsWith s "true" then Some (JBool true, sliceFrom 4 s)
      else if startsWith s "false" then Some (JBool false, sliceFrom 5 s)
      else
        match s with
        | EmptyString => None
        | String c rest =>
            if Ascii.eqb c dquote then
              match stringBody (String.length rest + 1) rest with
              | Some (t, r) => Some (JStr t, r)
              | None => None
              end
            else if Ascii.eqb c "[" then
              match skipWs rest with
              | String "]" r => Some (JArr [], r)
              | _ =>
                  match elements fuel' rest with
                  | Some (items, r) => Some (JArr items, r)
                  | None => None
                  end
              end
            else if Ascii.eqb c "{" then
              match skipWs rest with
              | String "}" r => Some (JObj [], r)
              | _ =>
                  match members fuel' rest with
                  | Some (ms, r) => Some (JObj ms, r)
                  | None => None
                  end
              end
            else
              match numberToken s with
              | Some (lexeme, r) => Some (JNum lexeme, r)
              | None => None
              end
        end
  end
with elements (fuel : nat) (s : string) : option (list JSON * string) :=
  match fuel with
  | O => None
  | S fuel' =>
      match value fuel' s with
      | None => None
      | Some (v, r) =>
          match skipWs r with
          | String "," r' =>
              match elements fuel' r' with
              | Some (vs, r'') => Some (v :: vs, r'')
              | None => None
              end
          | String "]" r' => Some ([v], r')
          | _ => None
          end
      end
  end
with members (fuel : nat) (s : string) : option (list (string * JSON) * string) :=
  match fuel with
  | O => None
  | S fuel' =>
      match skipWs s with
      | String c rest =>
          if Ascii.eqb c dquote then
            match stringBody (String.length rest + 1) rest with
            | None => None
            | Some (key, r) =>
                match skipWs r with
                | String ":" r1 =>
                    match value fuel' r1 with
                    | None => None
                    | Some (v, r2) =>
                        match skipWs r2 with
                        | String "," r3 =>
                            match members fuel' r3 with
                            | Some (ms, r4) => Some ((key, v) :: ms, r4)
                            | None => None
                            end
                        | String "}" r3 => Some ([(key, v)], r3)
                        | _ => None
                        end
                    end
                | _ => None
                end
            end
          else None
      | EmptyString => None
      end
  end.

Definition parseJSON (s : string) : option JSON :=
  match value (2 * String.length s + 2) s with
  | Some (v, r) =>
      match skipWs r with
      | EmptyString => Some v
      | _ => None
      end
  | None => None
  end.

(** *** URL hosts *)

Definition schemeChar (c : ascii) : bool :=
  isAlpha c || isDigit c || Ascii.eqb c "+" || Ascii.eqb c "-" || Ascii.eqb c ".".

(** The scheme, lower-cased, and what follows its colon. *)
Fixpoint splitScheme (s : string) : option (string * string) :=
  match s with
  | EmptyString => None
  | String c s' =>
      if Ascii.eqb c ":" then Some (EmptyString, s')
      else if schemeChar c then
        match splitScheme s' with
        | Some (sch, r) => Some (String (lowerChar c) sch, r)
        | None => None
        end
      else None
  end.

Fixpoint takeAuthority (s : string) : string :=
  match s with
  | EmptyString => EmptyString
  | String c s' =>
      if Ascii.eqb c "/" || Ascii.eqb c "?" || Ascii.eqb c "#" then EmptyString
      else String c (takeAuthority s')
  end.

(** What follows the last at sign, or the whole string. *)
Fixpoint dropUserInfo (s : string) : string :=
  match s with
  | EmptyString => EmptyString
  | String c s' =>
      let r := dropUserInfo s' in
      if Ascii.eqb c "@" && (String.length r =? String.length s')%nat then s'
      else if (String.length r =? String.length s')%nat then s
      else r
  end.

Definition hostOf (s : string) : option string :=
  match s with
  | EmptyString => None
  | String c _ =>
      if negb (isAlpha c) then None
      else
        match splitScheme s with
        | None => None
        | Some (scheme, rest) =>
            let special := String.eqb scheme "http" || String.eqb scheme "https" in
            if startsWith rest "//" then
              let host := toLowerCase (dropUserInfo (takeAuthority (sliceFrom 2 rest))) in
              if special && negb (truthy host) then None else Some host
            else if special then None
            else Some EmptyString
        end
  end.

(** *** ISO dates *)

Fixpoint number (width : nat) (acc : Z) (s : string) : option (Z * string) :=
  match width with
  | O => Some (acc, s)
  | S w =>
      match s with
      | String c s' =>
          if isDigit c then number w (acc * 10 + digitVal c)%Z s' else None
      | EmptyString => None
      end
  end.

Definition expect (c : ascii) (s : string) : option string :=
  match s with
  | String c' s' => if Ascii.eqb c c' then Some s' else None
  | EmptyString => None
  end.

Definition parseDate (s : string) : JSDate :=
  '(y, s) ← number 4 0%Z s;
  s ← expect "-" s;
  '(m, s) ← number 2 0%Z s;
  s ← expect "-" s;
  '(d, s) ← number 2 0%Z s;
  if negb ((1 <=? m)%Z && (m <=? 12)%Z && (1 <=? d)%Z && (d <=? 31)%Z) then None
  else
    match s with
    | EmptyString => TimeClip (MakeDate (MakeDay y (m - 1) d) 0)
    | _ =>
        s ← expect "T" s;
        '(hh, s) ← number 2 0%Z s;
        s ← expect ":" s;
        '(mi, s) ← number 2 0%Z s;
        s ← expect ":" s;
        '(ss, s) ← number 2 0%Z s;
        '(ms, s) ← (match s with
                    | String "." r => number 3 0%Z r
                    | _ => Some (0%Z, s)
                    end);
        if negb ((hh <=? 23)%Z && (mi <=? 59)%Z && (ss <=? 59)%Z) then None
        else
          match s with
          | String "Z" EmptyString =>
              TimeClip (MakeDate (MakeDay y (m - 1) d) (MakeTime hh mi ss ms))
          | _ => None
          end
    end.

(** The local time zone of the reference runtime is UTC. *)
Definition runtime : Runtime := {|
  URL_host := hostOf;
  Date_parse := parseDate;
  JSON_parse := parseJSON;
  LocalTZA := fun _ => 0%Z
|}.

End RefRuntime.

(** ** The validator's checks, one predicate per step

    These name the steps of the validator so that statements can refer to
    them; [validateCandidate_steps] below shows that the loop body is their
    conjunction. *)

Definition eventOf (item : JSON) : Event :=
  mkEvent
    (stringField (getProp item "event_name"))
    (stringArrayField (getProp item "artists"))
    (stringArrayField (getProp item "genres"))
    (stringField (getProp item "date"))
    (stringField (getProp item "venue"))
    (stringField (getProp item "event_url")).

(** Steps 3 to 5: an object whose four required fields are non-empty. *)
Definition fieldsPresent (item : JSON) : bool :=
  negb (notAnObject item)
  && truthy (event_name (eventOf item)) && truthy (date (eventOf item))
  && truthy (venue (eventOf item)) && truthy (event_url (eventOf item)).



Section Steps.
Context `{Runtime}.

(** Step 6. *)
Definition dateInWindow (opts : ValidateOpts) (item : JSON) : bool :=
  let parsed := Date_parse (date (eventOf item)) in
  negb (isNaN parsed)
  && negb (date_lt parsed (start opts) || date_gt parsed (end_ opts)).

(** Steps 7 and 8. *)
Definition grounded (opts : ValidateOpts) (item : JSON) : bool :=
  match URL_host (event_url (eventOf item)) with
  | None => false
  | Some host =>
      bool_decide (event_url (eventOf item) ∈ allowedUrls opts)
      || (truthy host && bool_decide (host ∈ allowedHosts opts))
  end.

(** Step 9. *)
Definition genreAccepted (opts : ValidateOpts) (item : JSON) : bool :=
  negb (applyGenreFilterOf (brief opts))
  || existsb
       (fun g => bool_decide (trim (toLowerCase g) ∈ preferredGenresOf (brief opts)))
       (ev_genres (eventOf item)).

Definition accepted (opts : ValidateOpts) (item : JSON) : bool :=
  fieldsPresent item && dateInWindow opts item
  && grounded opts item && genreAccepted opts item.

End Steps.

(** ** What the specification says about code fences

    Modelled on the wording of the specification: a leading triple back
    quote, optionally followed by a language tag (a run of letters and
    digits), and a trailing triple back quote are removed, and the rest is
    trimmed. *)




(** A string that does not start with white space. *)
Definition noLeadingSpace (s : string) : Prop := spaceLen s = 0%nat.


(** ** Sample data

    The scenario of the specification: a subscriber who prefers Jazz at
    Barby over the next seven days, one gathered page of the venue, and
    candidates as the model could return them.  JSON texts are written with
    the apostrophe standing for the double quote. *)

Module Samples.

Definition j (s : string) : string := replaceChar "'"%char dquote s.

(** 2026-11-02T12:00:00.000Z, a Monday. *)
Definition now : Z := 1793620800000.

Definition weekLater : Z := now + 7 * msPerDay.

Definition doc : SourceDoc :=
  mkSourceDoc "https://barby.co.il/events" None
    "Jazz Night, 5 November, tickets: https://barby.co.il/events/jazz-night (doors 21:00)".

Definition jazzBrief : Brief :=
  mkBrief None (Some ["Jazz"]) (Some ["barby"]) (Some "Next 7 days").


Definition allow : AllowList := buildAllowedUrlSets (H := RefRuntime.runtime) [doc].

(** Every known genre, padded with blanks, and two labels the vocabulary
    does not have. *)
Definition supersetBrief : Brief :=
  mkBrief None
    (Some ("Klezmer" :: List.map (fun g => " " +:+ g +:+ "  ") KNOWN_GENRES
             ++ ["Ska"])%list)
    (Some ["barby"]) (Some "Next 7 days").

(** A selection of one venue that the domain table lacks. *)
Definition unlistedVenue : Brief :=
  mkBrief None None (Some ["liebling-haus"]) None.

(** Barby twice, the venue without a domain, and Teder. *)
Definition mixedVenues : Brief :=
  mkBrief None None (Some ["barby"; "liebling-haus"; "teder"; "barby"]) None.

(** No venue selected. *)
Definition anyVenue : Brief := mkBrief None None (Some []) None.

Definition optsFor (b : Brief) : ValidateOpts :=
  mkOpts b (urls allow) (hosts allow) (Some now) (Some weekLater).

Definition opts : ValidateOpts := optsFor jazzBrief.

Definition candidate (name genre date url : string) : JSON :=
  JObj [ ("event_name", JStr name);
         ("artists", JArr [JStr "The Quartet"]);
         ("genres", JArr [JStr genre]);
         ("date", JStr date);
         ("venue", JStr "Barby");
         ("event_url", JStr url) ].

Definition jazzNight : JSON :=
  candidate "Jazz Night" " JAZZ " "2026-11-05" "https://barby.co.il/events/jazz-night".

(** Same address as [jazzNight], other fields differ. *)
Definition jazzNightAgain : JSON :=
  candidate "Jazz Night (late show)" "jazz" "2026-11-06T21:00:00Z"
    "https://barby.co.il/events/jazz-night".

(** Matches every preference, but its address is nowhere in the sources. *)
Definition fabricated : JSON :=
  candidate "Jazz Night" "Jazz" "2026-11-05" "https://tickets.example.org/jazz-night".

Definition notAUrl : JSON :=
  candidate "Jazz Night" "Jazz" "2026-11-05" "barby.co.il/events/jazz-night".

Definition metalNight : JSON :=
  candidate "Metal Night" "Metal" "2026-11-05" "https://barby.co.il/events/metal-night".

Definition tooLate : JSON :=
  candidate "Jazz Night" "Jazz" "2026-11-10" "https://barby.co.il/events/jazz-night".

Definition noDate : JSON :=
  candidate "Jazz Night" "Jazz" "next Thursday" "https://barby.co.il/events/jazz-night".

(** A candidate dated at the instant given. *)
Definition atInstant (iso : string) : JSON :=
  candidate "Jazz Night" "Jazz" iso "https://barby.co.il/events/jazz-night".

Definition numbered (n : nat) : JSON :=
  candidate ("Jazz Night " +:+ ofNat n) "Jazz" "2026-11-05"
    ("https://barby.co.il/events/" +:+ ofNat n).

Definition twentyFive : list JSON := List.map numbered (seq 1 25).

End Samples.

(** ** Sample model outputs and worlds *)

Module SampleRuns.
Import Samples.

(** The model's answer for the sample page, as a JSON text. *)
Definition payload : string :=
  j "[{'event_name': 'Jazz Night', 'artists': ['The Quartet'], 'genres': [' JAZZ '], 'date': '2026-11-05', 'venue': 'Barby', 'event_url': 'https://barby.co.il/events/jazz-night'}]".



(** A deployment with the model gateway configured and no search
    provider key, so that every query yields no document. *)
Definition quietWorld : World :=
  mkWorld
    (fun name => if String.eqb name "LOVABLE_API_KEY" then Some "secret" else None)
    (fun n => (now + Z.of_nat n)%Z)
    (fun _ => SearchThrows)
    (fun _ => AiHttp 200 (Some payload) (Some "stop")).

Definition request : Request :=
  mkRequest "POST" (Some "trace-1") (Returned (mkRequestBody (Some jazzBrief) None)).

End SampleRuns.

(** The number of clock readings in a trace. *)
Definition ticksOf (trace : list Effect) : nat :=
  List.length (List.filter (fun e => match e with EClock => true | _ => false end) trace).

Definition noAiCall (trace : list Effect) : bool :=
  forallb (fun e => negb (isAiCall e)) trace.

(** A trace of searches only: no clock reading, no model call. *)
Definition searchOnly (trace : list Effect) : Prop :=
  ticksOf trace = 0%nat /\ noAiCall trace = true.

(** The set of the keys of a list. *)
Definition keysOf {A : Type} (key : A -> string) (xs : list A) : gset string :=
  list_to_set (List.map key xs).

(** The queries of a brief in a year: one for each venue identifier with
    a domain, without repetitions, at most 6. *)
Definition queriesIn (year : Z) (b : Brief) : list string :=
  take 6 (uniqueBy (fun q => q) ∅ (queriesOf year (venueIdsOf b))).

(** The query of a venue identifier, when it has a domain. *)
Definition queryOfVenue (year : Z) (venueId : string) : option string :=
  match primaryDomain venueId with
  | Some domain => Some ("site:" +:+ domain +:+ " Tel Aviv events " +:+ ofZ year)
  | None => None
  end.

(** A venue identifier of the domain table. *)
Definition knownVenue (venueId : string) : Prop :=
  In venueId (List.map fst VENUE_DOMAINS).


(** Sample digests. *)
Module SampleDigests.

Definition card (n : nat) : DigestEvent :=
  mkDigestEvent ("ai-" +:+ ofNat n) ("Jazz Night " +:+ ofNat n) "Barby" "2026-11-05"
    None (Some ["The Quartet"]) (Some ["Jazz"])
    (Some ("https://barby.co.il/events/" +:+ ofNat n)) None.

Definition cards (n : nat) : list DigestEvent := List.map card (seq 1 n).

End SampleDigests.

(** 1 for a leap year, 0 otherwise. *)
Definition leapOf (y : Z) : Z := if (DaysInYear y =? 366)%Z then 1%Z else 0%Z.

(** The last instant of a day. *)
Definition endOfDay : Z := MakeTime 23 59 59 999.

(** The range of the function's clock: from the epoch to 31 days before
    the last time value that a date can hold. *)
Definition clockRange (now : Z) : Prop :=
  (0 <= now <= maxTime - 31 * msPerDay)%Z.

(** ** Notions used by the further properties *)

(** Every character of [s] may continue a URL match: [s] holds no white
    space and none of the closing and quote characters. *)
Fixpoint allUrlChars (s : string) : bool :=
  match s with
  | EmptyString => true
  | String _ s' => urlCharAt s && allUrlChars s'
  end.

(** A string that cannot continue a URL match: empty, or starting with a
    character outside the class. *)
Definition stopsUrl (s : string) : bool := negb (urlCharAt s).

(** The object that the validator pushes for an event, as the JSON value
    a caller reads back from the response. *)
Definition eventToJSON (e : Event) : JSON :=
  JObj [ ("event_name", JStr (event_name e));
         ("artists", JArr (List.map JStr (ev_artists e)));
         ("genres", JArr (List.map JStr (ev_genres e)));
         ("date", JStr (date e));
         ("venue", JStr (venue e));
         ("event_url", JStr (event_url e)) ].

(** A non-empty string without surrounding white space. *)
Definition cleanString (s : string) : Prop :=
  truthy s = true /\ trim s = s.

(** The guarantees of a validated event. *)
Definition wellFormedEvent (e : Event) : Prop :=
  cleanString (event_name e) /\ cleanString (date e)
  /\ cleanString (venue e) /\ cleanString (event_url e)
  /\ Forall cleanString (ev_artists e) /\ Forall cleanString (ev_genres e).

(** ** Notions used by the properties of the handler *)

Definition isSearchCall (e : Effect) : bool :=
  match e with ESearch _ => true | _ => false end.

(** What one query yields in a world, and the effects of asking it. *)
Definition searchDocs (w : World) (query : string) : list SourceDoc :=
  if negb (truthyOpt (env w "FIRECRAWL_API_KEY")) then []
  else
    match search w query with
    | SearchThrows => []
    | SearchHttp status data =>
        if negb (statusOk status) then [] else omap toSourceDoc (default [] data)
    end.

Definition searchTrace (w : World) (query : string) : list Effect :=
  EEnv "FIRECRAWL_API_KEY"
  :: (if negb (truthyOpt (env w "FIRECRAWL_API_KEY")) then [] else [ESearch query]).

(** The search provider answered [query] successfully with a result that
    the search stage turns into the document [s]. *)
Definition fromProvider (w : World) (query : string) (s : SourceDoc) : Prop :=
  exists st items it,
    search w query = SearchHttp st (Some items) /\ statusOk st = true
    /\ In it items /\ toSourceDoc it = Some s.

(** The address [u] is the address of the document or occurs in its text. *)
Definition mentionedBy (s : SourceDoc) (u : string) : Prop :=
  u = url s \/ In u (extractUrls (markdown s)).

(** The status that the handler derives from the reply of the model
    gateway. *)
Definition statusOfReply (reply : AiReply) : nat :=
  match reply with
  | AiThrows _ => 500
  | AiHttp st _ _ =>
      if statusOk st then 200
      else if (st =? 429)%nat then 429
      else if (st =? 402)%nat then 402
      else 500
  end%nat.

(** A deployment with both keys, a search provider that answers every
    query with the sample page, and a model that answers with the sample
    payload; and the same deployment with a rate-limited model gateway. *)
Module SamplePipeline.
Import Samples SampleRuns.

Definition result : RawItem :=
  mkRawItem (Some (url doc)) (Some "Barby") (Some ("  " +:+ markdown doc +:+ nl)) None.

Definition keys (name : string) : option string :=
  if String.eqb name "LOVABLE_API_KEY" || String.eqb name "FIRECRAWL_API_KEY"
  then Some "secret" else None.

Definition liveWorld : World :=
  mkWorld keys (fun n => (now + Z.of_nat n)%Z)
    (fun _ => SearchHttp 200 (Some [result]))
    (fun _ => AiHttp 200 (Some payload) (Some "stop")).

Definition busyWorld : World :=
  mkWorld keys (fun n => (now + Z.of_nat n)%Z)
    (fun _ => SearchHttp 200 (Some [result]))
    (fun _ => AiHttp 429 None None).

End SamplePipeline.

(** The event of the sample payload, the document gathered in the sample
    deployment, and the prompt built from it. *)
Module SampleAnswers.
Import Samples.

Definition jazzEvent : Event :=
  mkEvent "Jazz Night" ["The Quartet"] ["JAZZ"] "2026-11-05" "Barby"
    "https://barby.co.il/events/jazz-night".

Definition gathered : SourceDoc :=
  mkSourceDoc (url doc) (Some "Barby") (markdown doc).

Definition prompt : string :=
  default EmptyString (buildPrompt now jazzBrief [gathered]).

End SampleAnswers.

(** ** Digest delivery

    The handler of the digest function and its two senders.  The request
    body is the typed [DigestRequest] of the source; [json] is the outcome
    of reading it. *)

Module SendDigest.

Record DigestRequest : Type := mkDigestRequest {
  traceId : option string;
  deliveryMethod : string;
  deliveryContact : string;
  briefName : string;
  events : list DigestEvent
}.

Record SendResult : Type := mkResult {
  success : bool;
  error : option string
}.

(** Reply of the messaging provider: the call rejects, or it answers with
    a status and a body; reading the body as JSON and taking its members
    throws, or gives its [message] member, if any. *)
Inductive TwilioReply : Type :=
| TwilioThrows (message : string)
| TwilioHttp (status : nat) (data : Outcome (option string)).

(** Reply of the mail provider: the call throws, or it returns an object
    whose [error] member is absent or an error with an optional message. *)
Inductive ResendReply : Type :=
| ResendThrows (message : string)
| ResendResult (error : option (option string)).

Inductive Delivery (A : Type) : Type :=
| Done (a : A)
| ReadEnv (name : string) (k : option string -> Delivery A)
| TwilioPost (accountSid authToken from to body : string) (k : TwilioReply -> Delivery A)
| ResendSend (apiKey to subject html : string) (k : ResendReply -> Delivery A).
Arguments Done {A} a.
Arguments ReadEnv {A} name k.
Arguments TwilioPost {A} accountSid authToken from to body k.
Arguments ResendSend {A} apiKey to subject html k.

Fixpoint andThen {A B : Type} (p : Delivery A) (f : A -> Delivery B) : Delivery B :=
  match p with
  | Done a => f a
  | ReadEnv name k => ReadEnv name (fun v => andThen (k v) f)
  | TwilioPost accountSid authToken from to body k =>
      TwilioPost accountSid authToken from to body (fun r => andThen (k r) f)
  | ResendSend apiKey to subject html k =>
      ResendSend apiKey to subject html (fun r => andThen (k r) f)
  end.

Notation "x <~ p ;; f" := (andThen p (fun x => f))
  (at level 62, p at next level, right associativity).

Definition failed (message : string) : SendResult := mkResult false (Some message).

(** [n.startsWith(prefix) ? n : prefix + n] with the prefix of the
    messaging channel. *)
Definition toWhatsApp (number : string) : string :=
  if startsWith number "whatsapp:" then number else "whatsapp:" +:+ number.

Definition sendWhatsApp (to message : string) : Delivery SendResult :=
  accountSid <~ ReadEnv "TWILIO_ACCOUNT_SID" (fun v => Done v) ;;
  authToken <~ ReadEnv "TWILIO_AUTH_TOKEN" (fun v => Done v) ;;
  fromNumber <~ ReadEnv "TWILIO_WHATSAPP_FROM" (fun v => Done v) ;;
  if negb (truthyOpt accountSid) || negb (truthyOpt authToken)
     || negb (truthyOpt fromNumber)
  then Done (failed "Twilio credentials not configured")
  else
    reply <~ TwilioPost (default EmptyString accountSid) (default EmptyString authToken)
               (toWhatsApp (default EmptyString fromNumber)) (toWhatsApp to) message
               (fun r => Done r) ;;
    match reply with
    | TwilioThrows message => Done (failed message)
    | TwilioHttp status data =>
        match data with
        | Thrown message => Done (failed message)
        | Returned errorMessage =>
            if negb (statusOk status) then
              Done (mkResult false
                      (if truthyOpt errorMessage then errorMessage
                       else Some "Failed to send WhatsApp message"))
            else Done (mkResult true None)
        end
    end.

Definition sendEmail (to subject html : string) : Delivery SendResult :=
  resendApiKey <~ ReadEnv "RESEND_API_KEY" (fun v => Done v) ;;
  if negb (truthyOpt resendApiKey)
  then Done (failed "Resend API key not configured")
  else
    reply <~ ResendSend (default EmptyString resendApiKey) to subject html
               (fun r => Done r) ;;
    match reply with
    | ResendThrows message => Done (failed message)
    | ResendResult (Some message) => Done (mkResult false message)
    | ResendResult None => Done (mkResult true None)
    end.

Record Request : Type := mkRequest {
  method : string;
  headerTraceId : option string;
  json : Outcome DigestRequest
}.

Inductive Body : Type :=
| Preflight
| ErrorBody (error : option string) (traceId : option string)
| SentBody (deliveryMethod : string) (eventsCount : nat) (traceId : option string).

Record Response : Type := mkResponse {
  status : nat;
  body : Body
}.

Definition subjectOf (briefName : string) (n : nat) : string :=
  "🎵 " +:+ briefName +:+ ": " +:+ ofNat n +:+ " new event"
  +:+ (if (n =? 1)%nat then EmptyString else "s").

Definition handler (req : Request) : Delivery Response :=
  if String.eqb (method req) "OPTIONS" then Done (mkResponse 200 Preflight)
  else
    match json req with
    | Thrown message =>
        Done (mkResponse 500 (ErrorBody (Some message) (headerTraceId req)))
    | Returned dr =>
        let traceId := orElse (headerTraceId req) (traceId dr) in
        result <~
          (if String.eqb (deliveryMethod dr) "whatsapp" then
             sendWhatsApp (deliveryContact dr)
               (formatWhatsAppMessage (briefName dr) (events dr))
           else
             sendEmail (deliveryContact dr)
               (subjectOf (briefName dr) (List.length (events dr)))
               (formatEmailHtml (briefName dr) (events dr))) ;;
        if negb (success result) then
          Done (mkResponse 500 (ErrorBody (error result) traceId))
        else
          Done (mkResponse 200
                  (SentBody (deliveryMethod dr) (List.length (events dr)) traceId))
    end.

(** *** Running a delivery *)

Inductive Effect : Type :=
| EEnv (name : string)
| ETwilio (accountSid authToken from to body : string)
| EResend (apiKey to subject html : string).

Record World : Type := mkWorld {
  env : string -> option string;
  twilio : string -> string -> string -> string -> string -> TwilioReply;
  resend : string -> string -> string -> string -> ResendReply
}.

Fixpoint run {A : Type} (w : World) (p : Delivery A) : A * list Effect :=
  match p with
  | Done a => (a, [])
  | ReadEnv name k =>
      let '(a, tr) := run w (k (env w name)) in (a, EEnv name :: tr)
  | TwilioPost accountSid authToken from to body k =>
      let '(a, tr) := run w (k (twilio w accountSid authToken from to body)) in
      (a, ETwilio accountSid authToken from to body :: tr)
  | ResendSend apiKey to subject html k =>
      let '(a, tr) := run w (k (resend w apiKey to subject html)) in
      (a, EResend apiKey to subject html :: tr)
  end.

Definition isNetworkCall (e : Effect) : bool :=
  match e with EEnv _ => false | _ => true end.

(** The messaging channel is configured. *)
Definition twilioConfigured (w : World) : bool :=
  truthyOpt (env w "TWILIO_ACCOUNT_SID") && truthyOpt (env w "TWILIO_AUTH_TOKEN")
  && truthyOpt (env w "TWILIO_WHATSAPP_FROM").



(** The provider of the request's channel accepts the digest. *)
Definition accepts (w : World) (dr : DigestRequest) : Prop :=
  if String.eqb (deliveryMethod dr) "whatsapp" then
    twilioConfigured w = true
    /\ exists st data,
        twilio w (default EmptyString (env w "TWILIO_ACCOUNT_SID"))
          (default EmptyString (env w "TWILIO_AUTH_TOKEN"))
          (toWhatsApp (default EmptyString (env w "TWILIO_WHATSAPP_FROM")))
          (toWhatsApp (deliveryContact dr))
          (formatWhatsAppMessage (briefName dr) (events dr))
        = TwilioHttp st (Returned data)
        /\ statusOk st = true
  else
    truthyOpt (env w "RESEND_API_KEY") = true
    /\ resend w (default EmptyString (env w "RESEND_API_KEY")) (deliveryContact dr)
         (subjectOf (briefName dr) (List.length (events dr)))
         (formatEmailHtml (briefName dr) (events dr))
       = ResendResult None.

End SendDigest.

(** A deployment of the digest function whose messaging channel is
    configured and accepts every message, without a key for the mail
    channel; and two requests for the same digest, one per channel. *)
Module SampleDelivery.

Definition world : SendDigest.World :=
  SendDigest.mkWorld
    (fun name =>
       if String.eqb name "TWILIO_ACCOUNT_SID" then Some "AC123"
       else if String.eqb name "TWILIO_AUTH_TOKEN" then Some "token"
       else if String.eqb name "TWILIO_WHATSAPP_FROM" then Some "+14155238886"
       else None)
    (fun _ _ _ _ _ => SendDigest.TwilioHttp 201 (Returned None))
    (fun _ _ _ _ => SendDigest.ResendResult None).

Definition digest (method : string) : SendDigest.DigestRequest :=
  SendDigest.mkDigestRequest None method "+972501234567" "Weekend jazz"
    (SampleDigests.cards 2).

Definition request (method : string) : SendDigest.Request :=
  SendDigest.mkRequest "POST" (Some "trace-1") (Returned (digest method)).

End SampleDelivery.

(** ** Orchestration of a brief

    The manual trigger and the scheduled run call the discovery function
    and the digest function over HTTP.  [Flow] holds what the two handlers
    share: the stored brief, the calls, and the steps that both sources
    repeat word for word (discovery, the mapping of the discovered events,
    the digest call). *)

Module Flow.

Record Schedule : Type := mkSchedule {
  dayOfWeek : string;
  time : string;
  sc_eventWindow : string
}.

Record StoredBrief : Type := mkStoredBrief {
  id : string;
  user_id : string;
  name : string;
  sb_artists : list string;
  sb_genres : list string;
  sb_venues : list string;
  schedule : Schedule;
  delivery_method : string;
  delivery_contact : string;
  is_active : bool
}.

(** The [brief] member of the body sent to the discovery function. *)
Record DiscoveryBrief : Type := mkDiscoveryBrief {
  db_venues : list string;
  db_genres : list string;
  db_artists : list string;
  db_schedule : Schedule
}.

(** The [Event] of the two handlers. *)
Record BriefEvent : Type := mkBriefEvent {
  be_id : string;
  be_title : string;
  be_venue : string;
  be_venueId : string;
  be_date : string;
  be_artists : list string;
  be_genres : list string;
  be_url : string
}.

(** [auth.getClaims(token)]: the call throws, or gives an error flag and
    the [sub] of the claims, when there are claims. *)
Inductive ClaimsReply : Type :=
| ClaimsThrows (message : string)
| ClaimsResult (claimsError : bool) (claims : option string).

(** The query for one brief of one user. *)
Inductive SelectReply : Type :=
| SelectThrows (message : string)
| SelectResult (briefError : bool) (brief : option StoredBrief).

(** The query for the active briefs; the error, if any, with its message. *)
Inductive ActiveReply : Type :=
| ActiveThrows (message : string)
| ActiveResult (briefsError : option string) (briefs : option (list StoredBrief)).

(** Reply of the discovery function: the call rejects, or it answers with
    a status; [text] is the outcome of reading the body as text, [events]
    of reading it as JSON and taking its [events]. *)
Inductive DiscoveryReply : Type :=
| DiscoveryThrows (message : string)
| DiscoveryHttp (status : nat) (text : Outcome string) (events : Outcome (list Event)).

Inductive DigestReply : Type :=
| DigestThrows (message : string)
| DigestHttp (status : nat) (text : Outcome string) (data : Outcome unit).

(** [getDay()], [getHours()] and [getMinutes()] of the wall clock that
    [getIsraelTime] returns. *)
Record WallClock : Type := mkWallClock {
  getDay : nat;
  getHours : nat;
  getMinutes : nat
}.

Inductive Flow (A : Type) : Type :=
| Ret (a : A)
| GenerateTraceId (k : string -> Flow A)
| GetEnv (name : string) (k : option string -> Flow A)
| CreateClient (supabaseUrl key : option string) (k : Outcome unit -> Flow A)
| GetClaims (token : string) (k : ClaimsReply -> Flow A)
| SelectBrief (briefId userId : string) (k : SelectReply -> Flow A)
| SelectActive (k : ActiveReply -> Flow A)
| GetIsraelTime (k : WallClock -> Flow A)
| DateNow (k : Z -> Flow A)
| Discover (endpoint bearer traceId : string) (payload : DiscoveryBrief)
    (k : DiscoveryReply -> Flow A)
| SendDigest (endpoint bearer traceId deliveryMethod deliveryContact briefName : string)
    (events : list BriefEvent) (k : DigestReply -> Flow A).
Arguments Ret {A} a.
Arguments GenerateTraceId {A} k.
Arguments GetEnv {A} name k.
Arguments CreateClient {A} supabaseUrl key k.
Arguments GetClaims {A} token k.
Arguments SelectBrief {A} briefId userId k.
Arguments SelectActive {A} k.
Arguments GetIsraelTime {A} k.
Arguments DateNow {A} k.
Arguments Discover {A} endpoint bearer traceId payload k.
Arguments SendDigest {A} endpoint bearer traceId deliveryMethod deliveryContact
  briefName events k.

Fixpoint andThen {A B : Type} (p : Flow A) (f : A -> Flow B) : Flow B :=
  match p with
  | Ret a => f a
  | GenerateTraceId k => GenerateTraceId (fun v => andThen (k v) f)
  | GetEnv name k => GetEnv name (fun v => andThen (k v) f)
  | CreateClient supabaseUrl key k =>
      CreateClient supabaseUrl key (fun v => andThen (k v) f)
  | GetClaims token k => GetClaims token (fun v => andThen (k v) f)
  | SelectBrief briefId userId k => SelectBrief briefId userId (fun v => andThen (k v) f)
  | SelectActive k => SelectActive (fun v => andThen (k v) f)
  | GetIsraelTime k => GetIsraelTime (fun v => andThen (k v) f)
  | DateNow k => DateNow (fun v => andThen (k v) f)
  | Discover endpoint bearer traceId payload k =>
      Discover endpoint bearer traceId payload (fun v => andThen (k v) f)
  | SendDigest endpoint bearer traceId deliveryMethod deliveryContact briefName events k =>
      SendDigest endpoint bearer traceId deliveryMethod deliveryContact briefName events
        (fun v => andThen (k v) f)
  end.

Notation "x <~ p ;; f" := (andThen p (fun x => f))
  (at level 62, p at next level, right associativity).

(** A value inside a template literal: [undefined] prints as such. *)
Definition templ (v : option string) : string := default "undefined" v.

(** The hyphen that starts the replacement of a run of white space. *)
Definition hyphenate (inRun : bool) (rest : string) : string :=
  if inRun then rest else String "-"%char rest.

(** [s.replace(/\s+/g, '-')]: every maximal run of white space becomes one
    hyphen; [inRun] says that the previous character was white space. *)
Fixpoint replaceSpaceRuns (inRun : bool) (s : string) : string :=
  match s with
  | EmptyString => EmptyString
  | String c s1 =>
      match spaceLen s with
      | 0 => String c (replaceSpaceRuns false s1)
      | 1 => hyphenate inRun (replaceSpaceRuns true s1)
      | 2 => match s1 with
             | String _ s2 => hyphenate inRun (replaceSpaceRuns true s2)
             | EmptyString => EmptyString
             end
      | _ => match s1 with
             | String _ (String _ s3) => hyphenate inRun (replaceSpaceRuns true s3)
             | _ => EmptyString
             end
      end
  end.

(** The element of [discoveryResult.events.map((e, idx) => ...)]; [now] is
    its reading of [Date.now()]. *)
Definition toBriefEvent (now : Z) (idx : nat) (e : Event) : BriefEvent :=
  mkBriefEvent
    ("ai-" +:+ ofZ now +:+ "-" +:+ ofNat idx)
    (event_name e)
    (venue e)
    (replaceSpaceRuns false (toLowerCase (venue e)))
    (date e)
    (ev_artists e)
    (ev_genres e)
    (event_url e).

Fixpoint mapEvents (idx : nat) (es : list Event) : Flow (list BriefEvent) :=
  match es with
  | [] => Ret []
  | e :: rest =>
      now <~ DateNow (fun t => Ret t) ;;
      mapped <~ mapEvents (S idx) rest ;;
      Ret (toBriefEvent now idx e :: mapped)
  end.

(** Step 1 of both handlers, up to the mapped events; [Thrown] is an
    exception on its way to the enclosing [catch]. *)
Definition discoverEvents (supabaseUrl supabaseServiceKey : option string)
    (traceId : string) (b : StoredBrief) : Flow (Outcome (list BriefEvent)) :=
  reply <~ Discover (templ supabaseUrl +:+ "/functions/v1/fetch-events-ai")
             ("Bearer " +:+ templ supabaseServiceKey) traceId
             (mkDiscoveryBrief (sb_venues b) (sb_genres b) (sb_artists b) (schedule b))
             (fun r => Ret r) ;;
  match reply with
  | DiscoveryThrows message => Ret (Thrown message)
  | DiscoveryHttp status text events =>
      if negb (statusOk status) then
        match text with
        | Thrown message => Ret (Thrown message)
        | Returned errorText => Ret (Thrown ("Failed to discover events: " +:+ errorText))
        end
      else
        match events with
        | Thrown message => Ret (Thrown message)
        | Returned discovered =>
            mapped <~ mapEvents 0 discovered ;;
            Ret (Returned mapped)
        end
  end.

(** Step 3 of both handlers, up to the check of the reply; the result is
    the outcome of reading the body of a successful reply as JSON. *)
Definition postDigest (supabaseUrl supabaseServiceKey : option string)
    (traceId : string) (b : StoredBrief) (events : list BriefEvent)
  : Flow (Outcome (Outcome unit)) :=
  reply <~ SendDigest (templ supabaseUrl +:+ "/functions/v1/send-digest")
             ("Bearer " +:+ templ supabaseServiceKey) traceId
             (delivery_method b) (delivery_contact b) (name b) events
             (fun r => Ret r) ;;
  match reply with
  | DigestThrows message => Ret (Thrown message)
  | DigestHttp status text data =>
      if negb (statusOk status) then
        match text with
        | Thrown message => Ret (Thrown message)
        | Returned errorText => Ret (Thrown ("Failed to send digest: " +:+ errorText))
        end
      else Ret (Returned data)
  end.

(** *** Running a flow *)

Inductive Effect : Type :=
| ETraceId
| EEnv (name : string)
| EClient (supabaseUrl key : option string)
| EClaims (token : string)
| ESelectBrief (briefId userId : string)
| ESelectActive
| EIsraelTime
| EDateNow
| EDiscover (endpoint bearer traceId : string) (payload : DiscoveryBrief)
| ESendDigest (endpoint bearer traceId deliveryMethod deliveryContact briefName : string)
    (events : list BriefEvent).

(** The wall clock and [Date.now()] answer by the number of readings made
    so far. *)
Record World : Type := mkWorld {
  traceIds : string;
  env : string -> option string;
  client : option string -> option string -> Outcome unit;
  claimsOf : string -> ClaimsReply;
  briefOf : string -> string -> SelectReply;
  activeBriefs : ActiveReply;
  israelTime : nat -> WallClock;
  dateNow : nat -> Z;
  discovery : string -> DiscoveryBrief -> DiscoveryReply;
  digest : string -> string -> string -> string -> list BriefEvent -> DigestReply
}.

(** [walls] and [ticks] count the readings of the wall clock and of
    [Date.now()]; the result carries the counts after the run. *)
Fixpoint run {A : Type} (w : World) (walls ticks : nat) (p : Flow A)
  : A * list Effect * (nat * nat) :=
  match p with
  | Ret a => (a, [], (walls, ticks))
  | GenerateTraceId k =>
      let '(a, tr, n) := run w walls ticks (k (traceIds w)) in (a, ETraceId :: tr, n)
  | GetEnv name k =>
      let '(a, tr, n) := run w walls ticks (k (env w name)) in (a, EEnv name :: tr, n)
  | CreateClient supabaseUrl key k =>
      let '(a, tr, n) := run w walls ticks (k (client w supabaseUrl key)) in
      (a, EClient supabaseUrl key :: tr, n)
  | GetClaims token k =>
      let '(a, tr, n) := run w walls ticks (k (claimsOf w token)) in
      (a, EClaims token :: tr, n)
  | SelectBrief briefId userId k =>
      let '(a, tr, n) := run w walls ticks (k (briefOf w briefId userId)) in
      (a, ESelectBrief briefId userId :: tr, n)
  | SelectActive k =>
      let '(a, tr, n) := run w walls ticks (k (activeBriefs w)) in
      (a, ESelectActive :: tr, n)
  | GetIsraelTime k =>
      let '(a, tr, n) := run w (S walls) ticks (k (israelTime w walls)) in
      (a, EIsraelTime :: tr, n)
  | DateNow k =>
      let '(a, tr, n) := run w walls (S ticks) (k (dateNow w ticks)) in
      (a, EDateNow :: tr, n)
  | Discover endpoint bearer traceId payload k =>
      let '(a, tr, n) := run w walls ticks (k (discovery w traceId payload)) in
      (a, EDiscover endpoint bearer traceId payload :: tr, n)
  | SendDigest endpoint bearer traceId deliveryMethod deliveryContact briefName events k =>
      let '(a, tr, n) :=
        run w walls ticks
          (k (digest w traceId deliveryMethod deliveryContact briefName events)) in
      (a, ESendDigest endpoint bearer traceId deliveryMethod deliveryContact briefName
            events :: tr, n)
  end.

Definition isDiscover (e : Effect) : bool :=
  match e with EDiscover _ _ _ _ => true | _ => false end.

Definition isSendDigest (e : Effect) : bool :=
  match e with ESendDigest _ _ _ _ _ _ _ => true | _ => false end.

(** The effects that reach another service. *)
Definition isRemote (e : Effect) : bool :=
  match e with
  | EClaims _ | ESelectBrief _ _ | ESelectActive | EDiscover _ _ _ _
  | ESendDigest _ _ _ _ _ _ _ => true
  | _ => false
  end.

End Flow.

(** *** The manual trigger *)

Module TriggerBrief.
Import Flow.

Record Request : Type := mkRequest {
  method : string;
  authorization : option string;
  json : Outcome (option string)          (* the [briefId] of the body *)
}.

Inductive Body : Type :=
| Preflight
| ErrorBody (error : string) (traceId : string)
| TriggeredBody (traceId briefId briefName : string) (eventsDiscovered : nat)
    (deliveryMethod : string).

Record Response : Type := mkResponse {
  status : nat;
  body : Body
}.

(** [s.replace(pattern, replacement)] with a string pattern: the first
    occurrence only. *)
Fixpoint replaceFirst (pattern replacement s : string) : string :=
  if String.prefix pattern s then replacement +:+ sliceFrom (String.length pattern) s
  else
    match s with
    | EmptyString => EmptyString
    | String c s' => String c (replaceFirst pattern replacement s')
    end.

(** The handler after the brief was found. *)
Definition afterBrief (supabaseUrl supabaseServiceKey : option string)
    (traceId : string) (typedBrief : StoredBrief) : Flow Response :=
  discovered <~ discoverEvents supabaseUrl supabaseServiceKey traceId typedBrief ;;
  match discovered with
  | Thrown message => Ret (mkResponse 500 (ErrorBody message traceId))
  | Returned events =>
      sent <~ postDigest supabaseUrl supabaseServiceKey traceId typedBrief events ;;
      match sent with
      | Thrown message => Ret (mkResponse 500 (ErrorBody message traceId))
      | Returned _ =>
          Ret (mkResponse 200
                 (TriggeredBody traceId (id typedBrief) (name typedBrief)
                    (List.length events) (delivery_method typedBrief)))
      end
  end.

(** The handler after the caller was identified. *)
Definition afterClaims (req : Request) (supabaseUrl supabaseServiceKey : option string)
    (traceId userId : string) : Flow Response :=
  match json req with
  | Thrown message => Ret (mkResponse 500 (ErrorBody message traceId))
  | Returned briefId =>
      if negb (truthyOpt briefId) then
        Ret (mkResponse 400 (ErrorBody "Brief ID is required" traceId))
      else
        created <~ CreateClient supabaseUrl supabaseServiceKey (fun r => Ret r) ;;
        match created with
        | Thrown message => Ret (mkResponse 500 (ErrorBody message traceId))
        | Returned _ =>
            found <~ SelectBrief (default EmptyString briefId) userId (fun r => Ret r) ;;
            match found with
            | SelectThrows message => Ret (mkResponse 500 (ErrorBody message traceId))
            | SelectResult briefError brief =>
                match brief with
                | Some typedBrief =>
                    if briefError then
                      Ret (mkResponse 404
                             (ErrorBody "Brief not found or access denied" traceId))
                    else afterBrief supabaseUrl supabaseServiceKey traceId typedBrief
                | None =>
                    Ret (mkResponse 404
                           (ErrorBody "Brief not found or access denied" traceId))
                end
            end
        end
  end.

Definition handler (req : Request) : Flow Response :=
  if String.eqb (method req) "OPTIONS" then Ret (mkResponse 200 Preflight)
  else
    traceId <~ GenerateTraceId (fun v => Ret v) ;;
    supabaseUrl <~ GetEnv "SUPABASE_URL" (fun v => Ret v) ;;
    supabaseAnonKey <~ GetEnv "SUPABASE_ANON_KEY" (fun v => Ret v) ;;
    supabaseServiceKey <~ GetEnv "SUPABASE_SERVICE_ROLE_KEY" (fun v => Ret v) ;;
    match authorization req with
    | None => Ret (mkResponse 401 (ErrorBody "Unauthorized" traceId))
    | Some authHeader =>
        if negb (startsWith authHeader "Bearer ") then
          Ret (mkResponse 401 (ErrorBody "Unauthorized" traceId))
        else
          created <~ CreateClient supabaseUrl supabaseAnonKey (fun r => Ret r) ;;
          match created with
          | Thrown message => Ret (mkResponse 500 (ErrorBody message traceId))
          | Returned _ =>
              let token := replaceFirst "Bearer " EmptyString authHeader in
              reply <~ GetClaims token (fun r => Ret r) ;;
              match reply with
              | ClaimsThrows message => Ret (mkResponse 500 (ErrorBody message traceId))
              | ClaimsResult claimsError claims =>
                  match claims with
                  | Some userId =>
                      if claimsError then
                        Ret (mkResponse 401 (ErrorBody "Unauthorized" traceId))
                      else afterClaims req supabaseUrl supabaseServiceKey traceId userId
                  | None => Ret (mkResponse 401 (ErrorBody "Unauthorized" traceId))
                  end
              end
          end
    end.

End TriggerBrief.

(** The events that [mapEvents] yields in a world, from the given reading
    of [Date.now()] and index on. *)
Fixpoint mappedFrom (w : Flow.World) (ticks idx : nat) (es : list Event)
  : list Flow.BriefEvent :=
  match es with
  | [] => []
  | e :: rest =>
      Flow.toBriefEvent (Flow.dateNow w ticks) idx e :: mappedFrom w (S ticks) (S idx) rest
  end.





(** The two calls of the pipeline of a brief under a trace identifier. *)
Definition discoverCall (supabaseUrl key : option string) (traceId : string)
    (b : Flow.StoredBrief) : Flow.Effect :=
  Flow.EDiscover (Flow.templ supabaseUrl +:+ "/functions/v1/fetch-events-ai")
    ("Bearer " +:+ Flow.templ key) traceId
    (Flow.mkDiscoveryBrief (Flow.sb_venues b) (Flow.sb_genres b) (Flow.sb_artists b)
       (Flow.schedule b)).

Definition digestCall (supabaseUrl key : option string) (traceId : string)
    (b : Flow.StoredBrief) (events : list Flow.BriefEvent) : Flow.Effect :=
  Flow.ESendDigest (Flow.templ supabaseUrl +:+ "/functions/v1/send-digest")
    ("Bearer " +:+ Flow.templ key) traceId (Flow.delivery_method b)
    (Flow.delivery_contact b) (Flow.name b) events.

(** The discovery function answers the brief with these events, and the
    digest function accepts their digest. *)
Definition discovers (w : Flow.World) (traceId : string) (b : Flow.StoredBrief)
    (discovered : list Event) : Prop :=
  exists st text,
    Flow.discovery w traceId
      (Flow.mkDiscoveryBrief (Flow.sb_venues b) (Flow.sb_genres b) (Flow.sb_artists b)
         (Flow.schedule b))
    = Flow.DiscoveryHttp st text (Returned discovered)
    /\ statusOk st = true.

Definition digestAccepted (w : Flow.World) (traceId : string) (b : Flow.StoredBrief)
    (events : list Flow.BriefEvent) : Prop :=
  exists st text data,
    Flow.digest w traceId (Flow.delivery_method b) (Flow.delivery_contact b)
      (Flow.name b) events
    = Flow.DigestHttp st text data
    /\ statusOk st = true.

(** The effects of the manual trigger before it looks at the request. *)
Definition triggerPrelude : list Flow.Effect :=
  [ Flow.ETraceId; Flow.EEnv "SUPABASE_URL"; Flow.EEnv "SUPABASE_ANON_KEY";
    Flow.EEnv "SUPABASE_SERVICE_ROLE_KEY" ].

(** The request comes from an identified caller who owns the brief that it
    names: a bearer token whose claims are valid and name [userId], a
    readable body with a brief identifier, and a stored brief with that
    identifier and that user. *)
Definition ownedBrief (w : Flow.World) (req : TriggerBrief.Request)
    (userId briefId : string) (b : Flow.StoredBrief) : Prop :=
  exists authHeader,
    TriggerBrief.authorization req = Some authHeader
    /\ authHeader = "Bearer " +:+ sliceFrom 7 authHeader
    /\ Flow.client w (Flow.env w "SUPABASE_URL") (Flow.env w "SUPABASE_ANON_KEY")
       = Returned tt
    /\ Flow.claimsOf w (sliceFrom 7 authHeader) = Flow.ClaimsResult false (Some userId)
    /\ TriggerBrief.json req = Returned (Some briefId)
    /\ truthy briefId = true
    /\ Flow.client w (Flow.env w "SUPABASE_URL") (Flow.env w "SUPABASE_SERVICE_ROLE_KEY")
       = Returned tt
    /\ Flow.briefOf w briefId userId = Flow.SelectResult false (Some b).

(** A deployment for the manual trigger: the token tok belongs to user
    u1, who owns brief b1; discovery finds two events, the digest function
    accepts, and the clock counts from 1000. *)
Module SampleTrigger.

Definition stored : Flow.StoredBrief :=
  Flow.mkStoredBrief "b1" "u1" "Weekend jazz" [] ["Jazz"] ["barby"]
    (Flow.mkSchedule "Thursday" "09:30" "Next 7 days") "whatsapp" "+972501234567" true.

Definition second : Event :=
  mkEvent "Late Show" ["The Quartet"] ["Jazz"] "2026-11-06" "Kuli  Alma"
    "https://barby.co.il/events/late-show".

Definition world : Flow.World :=
  Flow.mkWorld "manual_1793620800000_0a1b2c3d"
    (fun name => Some ("value of " +:+ name))
    (fun _ _ => Returned tt)
    (fun token =>
       if String.eqb token "tok" then Flow.ClaimsResult false (Some "u1")
       else Flow.ClaimsResult true None)
    (fun briefId userId =>
       if String.eqb briefId "b1" && String.eqb userId "u1"
       then Flow.SelectResult false (Some stored)
       else Flow.SelectResult true None)
    (Flow.ActiveResult None (Some [stored]))
    (fun _ => Flow.mkWallClock 4 9 30)
    (fun n => (1000 + Z.of_nat n)%Z)
    (fun _ _ =>
       Flow.DiscoveryHttp 200 (Returned EmptyString)
         (Returned [SampleAnswers.jazzEvent; second]))
    (fun _ _ _ _ _ => Flow.DigestHttp 200 (Returned EmptyString) (Returned tt)).

Definition request : TriggerBrief.Request :=
  TriggerBrief.mkRequest "POST" (Some "Bearer tok") (Returned (Some "b1")).

(** The same request without the token. *)
Definition anonymous : TriggerBrief.Request :=
  TriggerBrief.mkRequest "POST" None (Returned (Some "b1")).

End SampleTrigger.

(** *** The scheduled run *)

Module ProcessScheduledBriefs.
Import Flow.

(** JavaScript numbers, as far as the schedule check uses them:
    [Number(s)], the number of an integer literal, [NaN] (what [undefined]
    becomes in arithmetic), [+], [*], [>=] and [<]. *)
Class Numbers : Type := {
  number : Type;
  Number : string -> number;
  lit : Z -> number;
  NaN : number;
  add : number -> number -> number;
  mul : number -> number -> number;
  geb : number -> number -> bool;
  ltb : number -> number -> bool
}.

(** What the properties use of IEEE arithmetic: it is exact on integers
    below 2^53, and a comparison with [NaN] is false. *)
Record ExactNumbers `{Numbers} : Prop := {
  lit_add : forall a b : Z,
    (0 <= a)%Z -> (0 <= b)%Z -> (a + b < 2 ^ 53)%Z -> add (lit a) (lit b) = lit (a + b);
  lit_mul : forall a b : Z,
    (0 <= a)%Z -> (0 <= b)%Z -> (a * b < 2 ^ 53)%Z -> mul (lit a) (lit b) = lit (a * b);
  lit_geb : forall a b : Z,
    (0 <= a < 2 ^ 53)%Z -> (0 <= b < 2 ^ 53)%Z -> geb (lit a) (lit b) = (b <=? a)%Z;
  lit_ltb : forall a b : Z,
    (0 <= a < 2 ^ 53)%Z -> (0 <= b < 2 ^ 53)%Z -> ltb (lit a) (lit b) = (a <? b)%Z;
  add_NaN : forall x, add x NaN = NaN;
  geb_NaN : forall x, geb x NaN = false
}.

Definition DAYS_OF_WEEK : list string :=
  [ "Sunday"; "Monday"; "Tuesday"; "Wednesday"; "Thursday"; "Friday"; "Saturday" ].

(** [s.split(sep)] for a separator of one character. *)
Fixpoint splitOn (sep : ascii) (s : string) : list string :=
  match s with
  | EmptyString => [EmptyString]
  | String c s' =>
      if Ascii.eqb c sep then EmptyString :: splitOn sep s'
      else
        match splitOn sep s' with
        | part :: parts => String c part :: parts
        | [] => [String c EmptyString]
        end
  end.

Section Schedule.
Context `{Numbers}.

(** A destructured array element in arithmetic: a missing one is
    [undefined], hence [NaN]. *)
Definition toNumber (v : option number) : number := default NaN v.

Definition shouldSendBrief (schedule : Schedule) : Flow bool :=
  israelNow <~ GetIsraelTime (fun t => Ret t) ;;
  let currentDay := nth_error DAYS_OF_WEEK (getDay israelNow) in
  let currentHour := lit (Z.of_nat (getHours israelNow)) in
  let currentMinute := lit (Z.of_nat (getMinutes israelNow)) in
  let parts := List.map Number (splitOn ":"%char (time schedule)) in
  let scheduledHour := nth_error parts 0 in
  let scheduledMinute := nth_error parts 1 in
  if negb (bool_decide (Some (dayOfWeek schedule) = currentDay)) then Ret false
  else
    let scheduledTotalMinutes :=
      add (mul (toNumber scheduledHour) (lit 60)) (toNumber scheduledMinute) in
    let currentTotalMinutes := add (mul currentHour (lit 60)) currentMinute in
    Ret (geb currentTotalMinutes scheduledTotalMinutes
         && ltb currentTotalMinutes (add scheduledTotalMinutes (lit 10))).

Inductive BriefStatus : Type := Sent | Skipped | Failed.

Record BriefResult : Type := mkBriefResult {
  br_briefId : string;
  br_briefName : string;
  br_status : BriefStatus;
  br_reason : option string;
  br_eventsCount : option nat;
  br_traceId : string
}.

Inductive Body : Type :=
| Preflight
| ErrorBody (error traceId : string)
| SummaryBody (traceId : string) (processedAt completedAt : Z)
    (totalBriefs sent skipped errors : nat) (results : list BriefResult).

Record Response : Type := mkResponse {
  status : nat;
  body : Body
}.

(** The body of the loop over the briefs: the entry that it pushes. *)
Definition processBrief (supabaseUrl supabaseServiceKey : option string)
    (traceId : string) (brief : StoredBrief) : Flow BriefResult :=
  let briefTraceId := traceId +:+ "_" +:+ sliceTo 8 (id brief) in
  let failed message :=
    mkBriefResult (id brief) (name brief) Failed (Some message) None briefTraceId in
  due <~ shouldSendBrief (schedule brief) ;;
  if negb due then
    Ret (mkBriefResult (id brief) (name brief) Skipped
           (Some "Not scheduled for current time") None briefTraceId)
  else
    discovered <~ discoverEvents supabaseUrl supabaseServiceKey briefTraceId brief ;;
    match discovered with
    | Thrown message => Ret (failed message)
    | Returned events =>
        sent <~ postDigest supabaseUrl supabaseServiceKey briefTraceId brief events ;;
        match sent with
        | Thrown message => Ret (failed message)
        | Returned (Thrown message) => Ret (failed message)
        | Returned (Returned _) =>
            Ret (mkBriefResult (id brief) (name brief) Sent None
                   (Some (List.length events)) briefTraceId)
        end
    end.

Fixpoint processBriefs (supabaseUrl supabaseServiceKey : option string)
    (traceId : string) (briefs : list StoredBrief) : Flow (list BriefResult) :=
  match briefs with
  | [] => Ret []
  | brief :: rest =>
      result <~ processBrief supabaseUrl supabaseServiceKey traceId brief ;;
      results <~ processBriefs supabaseUrl supabaseServiceKey traceId rest ;;
      Ret (result :: results)
  end.

Definition hasStatus (s : BriefStatus) (r : BriefResult) : bool :=
  match s, br_status r with
  | Sent, Sent | Skipped, Skipped | Failed, Failed => true
  | _, _ => false
  end.

(** [Thrown]: the client is created outside the [try], so that its
    exception leaves the handler. *)
Definition handler (method : string) : Flow (Outcome Response) :=
  if String.eqb method "OPTIONS" then Ret (Returned (mkResponse 200 Preflight))
  else
    traceId <~ GenerateTraceId (fun v => Ret v) ;;
    supabaseUrl <~ GetEnv "SUPABASE_URL" (fun v => Ret v) ;;
    supabaseServiceKey <~ GetEnv "SUPABASE_SERVICE_ROLE_KEY" (fun v => Ret v) ;;
    created <~ CreateClient supabaseUrl supabaseServiceKey (fun r => Ret r) ;;
    match created with
    | Thrown message => Ret (Thrown message)
    | Returned _ =>
        processStart <~ DateNow (fun t => Ret t) ;;
        reply <~ SelectActive (fun r => Ret r) ;;
        match reply with
        | ActiveThrows message =>
            Ret (Returned (mkResponse 500 (ErrorBody message traceId)))
        | ActiveResult (Some message) _ =>
            Ret (Returned
                   (mkResponse 500
                      (ErrorBody ("Failed to fetch briefs: " +:+ message) traceId)))
        | ActiveResult None briefs =>
            results <~ processBriefs supabaseUrl supabaseServiceKey traceId
                         (default [] briefs) ;;
            completedAt <~ DateNow (fun t => Ret t) ;;
            Ret (Returned
                   (mkResponse 200
                      (SummaryBody traceId processStart completedAt
                         (List.length (default [] briefs))
                         (List.length (List.filter (hasStatus Sent) results))
                         (List.length (List.filter (hasStatus Skipped) results))
                         (List.length (List.filter (hasStatus Failed) results))
                         results)))
        end
    end.

End Schedule.

(** Numbers for concrete runs: integers, with [None] for [NaN];
    [Number] reads a string of decimal digits, the empty one as 0, and
    gives [NaN] for any other string (a real runtime reads more). *)
Module RefNumbers.

Fixpoint digits (acc : Z) (s : string) : option Z :=
  match s with
  | EmptyString => Some acc
  | String c s' =>
      let n := Z.of_N (N_of_ascii c) in
      if ((48 <=? n) && (n <=? 57))%Z then digits (10 * acc + (n - 48)) s' else None
  end.

Definition lift (f : Z -> Z -> Z) (x y : option Z) : option Z :=
  match x, y with Some a, Some b => Some (f a b) | _, _ => None end.

Definition test (f : Z -> Z -> bool) (x y : option Z) : bool :=
  match x, y with Some a, Some b => f a b | _, _ => false end.

Definition numbers : Numbers :=
  Build_Numbers (option Z) (digits 0) Some None (lift Z.add) (lift Z.mul)
    (test Z.geb) (test Z.ltb).

End RefNumbers.

End ProcessScheduledBriefs.

(** A brief scheduled for Thursday 23:55 and a deployment whose wall
    clock shows Thursday 23:50. *)
Module SampleSchedule.

Definition late : Flow.Schedule := Flow.mkSchedule "Thursday" "23:55" "Next 7 days".

Definition lateWorld : Flow.World :=
  Flow.mkWorld (Flow.traceIds SampleTrigger.world) (Flow.env SampleTrigger.world)
    (Flow.client SampleTrigger.world) (Flow.claimsOf SampleTrigger.world)
    (Flow.briefOf SampleTrigger.world) (Flow.activeBriefs SampleTrigger.world)
    (fun _ => Flow.mkWallClock 4 23 50)
    (Flow.dateNow SampleTrigger.world) (Flow.discovery SampleTrigger.world)
    (Flow.digest SampleTrigger.world).

End SampleSchedule.






(** ** The validator before grounding

    The discovery function without the search stage validates the model
    output by fields and dates only. *)

Module FetchEventsAi.

Record ValidateOpts : Type := mkOpts {
  brief : Brief;
  start : JSDate;
  end_ : JSDate
}.

Section Validator.
Context `{Runtime}.

Definition validateCandidate (opts : ValidateOpts) (item : JSON) : option Event :=
  if notAnObject item then None else
  let event_name := stringField (getProp item "event_name") in
  let venue := stringField (getProp item "venue") in
  let date := stringField (getProp item "date") in
  let event_url := stringField (getProp item "event_url") in
  let artists := stringArrayField (getProp item "artists") in
  let genres := stringArrayField (getProp item "genres") in
  if negb (truthy event_name) || negb (truthy date)
     || negb (truthy venue) || negb (truthy event_url) then None else
  let parsed := Date_parse date in
  if isNaN parsed then None else
  if date_lt parsed (start opts) || date_gt parsed (end_ opts) then None else
  Some (mkEvent event_name artists genres date venue event_url).

Definition collect (opts : ValidateOpts) (items : list JSON) : list Event :=
  fold_left
    (fun out item =>
       match validateCandidate opts item with
       | Some e => (out ++ [e])%list
       | None => out
       end)
    items [].

Definition validateAndFilterEvents (raw : JSON) (opts : ValidateOpts) : list Event :=
  match raw with
  | JArr items => take 10 (uniqueBy event_url ∅ (collect opts items))
  | _ => []
  end.

End Validator.

End FetchEventsAi.

(** * Properties *)

(** ** Strings *)

Section StringFacts.
Local Arguments String.append !_ _ / : simpl nomatch.

Lemma isSpace1_spec (b : N) :
  isSpace1 b = true <-> (9 <= b <= 13 \/ b = 32)%N.
Proof.
  unfold isSpace1. rewrite orb_true_iff, andb_true_iff, !N.leb_le, N.eqb_eq. tauto.
Qed.

Lemma isSpace2_spec (b1 b2 : N) :
  isSpace2 b1 b2 = true <-> (b1 = 194 /\ b2 = 160)%N.
Proof. unfold isSpace2. rewrite andb_true_iff, !N.eqb_eq. tauto. Qed.

Lemma isSpace3_spec (b1 b2 b3 : N) :
  isSpace3 b1 b2 b3 = true <->
  ((b1 = 225 /\ b2 = 154 /\ b3 = 128)
   \/ (b1 = 226 /\ b2 = 128
       /\ (128 <= b3 <= 138 \/ b3 = 168 \/ b3 = 169 \/ b3 = 175))
   \/ (b1 = 226 /\ b2 = 129 /\ b3 = 159)
   \/ (b1 = 227 /\ b2 = 128 /\ b3 = 128)
   \/ (b1 = 239 /\ b2 = 187 /\ b3 = 191))%N.
Proof.
  unfold isSpace3.
  rewrite !orb_true_iff, !andb_true_iff, !orb_true_iff, !andb_true_iff,
    !N.eqb_eq, !N.leb_le.
  tauto.
Qed.

(** Two byte tests agree when they hold for the same bytes. *)
Ltac same_test :=
  apply eq_iff_eq_true;
  rewrite ?isSpace1_spec, ?isSpace2_spec, ?isSpace3_spec, ?N.ltb_lt.


Lemma spaceLen_le (s : string) : (spaceLen s <= String.length s)%nat.
Proof.
  destruct s as [|c1 [|c2 [|c3 s]]]; cbn [spaceLen String.length];
    repeat match goal with |- context [if ?b then _ else _] => destruct b end; lia.
Qed.

Lemma spaceLen_le3 (s : string) : (spaceLen s <= 3)%nat.
Proof.
  destruct s as [|c1 [|c2 [|c3 s]]]; cbn [spaceLen];
    repeat match goal with |- context [if ?b then _ else _] => destruct b end; lia.
Qed.

Lemma trimStart_eq (s : string) :
  trimStart s
  = match spaceLen s with
    | O => s
    | S k => trimStart (sliceFrom (S k) s)
    end.
Proof.
  destruct s as [|c1 s1]; [reflexivity|].
  pose proof (spaceLen_le (String c1 s1)) as Hle.
  pose proof (spaceLen_le3 (String c1 s1)) as Hle3.
  cbn [trimStart]. destruct (spaceLen (String c1 s1)) as [|[|[|[|k]]]] eqn:E;
    cbn [sliceFrom]; try reflexivity.
  - destruct s1 as [|c2 s2]; [cbn in Hle; lia | reflexivity].
  - destruct s1 as [|c2 [|c3 s3]]; try (cbn in Hle; lia). reflexivity.
  - lia.
Qed.

Lemma length_sliceFrom (n : nat) (s : string) :
  String.length (sliceFrom n s) = (String.length s - n)%nat.
Proof.
  revert s. induction n as [|n IH]; intros [|c s]; cbn; try reflexivity. apply IH.
Qed.

(** Induction along the white space at the start of a text. *)
Lemma space_ind (P : string -> Prop) :
  (forall s, spaceLen s = 0%nat -> P s) ->
  (forall s k, spaceLen s = S k -> P (sliceFrom (S k) s) -> P s) ->
  forall s, P s.
Proof.
  intros H0 HS s.
  remember (String.length s) as n eqn:Hn. revert s Hn.
  induction n as [n IH] using lt_wf_ind. intros s ->.
  destruct (spaceLen s) as [|k] eqn:E; [apply H0, E|].
  apply (HS s k E). apply (IH (String.length (sliceFrom (S k) s))); [|reflexivity].
  pose proof (spaceLen_le s) as Hle. rewrite E in Hle.
  rewrite length_sliceFrom. lia.
Qed.

Lemma byteOf_lowerChar (c : ascii) :
  (~ (65 <= byteOf c <= 90)%N /\ byteOf (lowerChar c) = byteOf c)
  \/ ((65 <= byteOf c <= 90)%N /\ byteOf (lowerChar c) = (byteOf c + 32)%N).
Proof.
  unfold lowerChar, byteOf.
  destruct ((65 <=? N_of_ascii c) && (N_of_ascii c <=? 90))%N eqn:E.
  - apply andb_true_iff in E as [E1 E2]. apply N.leb_le in E1. apply N.leb_le in E2.
    right. split; [lia|]. apply N_ascii_embedding. lia.
  - left. split; [|reflexivity].
    apply andb_false_iff in E as [E | E]; apply N.leb_gt in E; lia.
Qed.

(** A byte test on bytes above 122 or below 65 does not see the case. *)
Definition lowered (a a' : N) : Prop :=
  ((~ (65 <= a <= 90) /\ a' = a) \/ ((65 <= a <= 90) /\ a' = a + 32))%N.

Lemma lowered_space1 (a a' : N) : lowered a a' -> isSpace1 a' = isSpace1 a.
Proof. unfold lowered. intros Ha. same_test. lia. Qed.

Lemma lowered_low (a a' : N) : lowered a a' -> (a' <? 128)%N = (a <? 128)%N.
Proof. unfold lowered. intros Ha. same_test. lia. Qed.

Lemma lowered_space2 (a a' b b' : N) :
  lowered a a' -> lowered b b' -> isSpace2 a' b' = isSpace2 a b.
Proof. unfold lowered. intros Ha Hb. same_test. lia. Qed.

Lemma lowered_space3 (a a' b b' c c' : N) :
  lowered a a' -> lowered b b' -> lowered c c' -> isSpace3 a' b' c' = isSpace3 a b c.
Proof.
  unfold lowered. intros Ha Hb Hc. same_test.
  assert (Hab : (a = 225 \/ a = 226 \/ a = 227 \/ a = 239 -> a' = a)%N) by lia.
  assert (Ha'b : (a' = 225 \/ a' = 226 \/ a' = 227 \/ a' = 239 -> a' = a)%N) by lia.
  assert (Hb1 : (128 <= b -> b' = b)%N) by lia.
  assert (Hb2 : (128 <= b' -> b' = b)%N) by lia.
  assert (Hc1 : (128 <= c -> c' = c)%N) by lia.
  assert (Hc2 : (128 <= c' -> c' = c)%N) by lia.
  clear Ha Hb Hc. split; intros H.
  - assert (a' = a) as -> by (apply Ha'b; lia).
    assert (b' = b) as -> by (apply Hb2; lia).
    assert (c' = c) as -> by (apply Hc2; lia). exact H.
  - assert (a' = a) as -> by (apply Hab; lia).
    assert (b' = b) as -> by (apply Hb1; lia).
    assert (c' = c) as -> by (apply Hc1; lia). exact H.
Qed.

Lemma spaceLen_toLowerCase (s : string) : spaceLen (toLowerCase s) = spaceLen s.
Proof.
  pose proof byteOf_lowerChar as L.
  destruct s as [|c1 [|c2 [|c3 s]]]; cbn [toLowerCase spaceLen];
    rewrite ?(lowered_space1 _ _ (L c1)), ?(lowered_low _ _ (L c1)),
      ?(lowered_space2 _ _ _ _ (L c1) (L c2)),
      ?(lowered_space3 _ _ _ _ _ _ (L c1) (L c2) (L c3)); reflexivity.
Qed.

Lemma sliceFrom_toLowerCase (n : nat) (s : string) :
  sliceFrom n (toLowerCase s) = toLowerCase (sliceFrom n s).
Proof.
  revert s. induction n as [|n IH]; intros [|c s]; cbn; try reflexivity. apply IH.
Qed.

Lemma truthy_toLowerCase s : truthy (toLowerCase s) = truthy s.
Proof. destruct s; reflexivity. Qed.

Lemma trimStart_toLowerCase s :
  trimStart (toLowerCase s) = toLowerCase (trimStart s).
Proof.
  induction s as [s E | s k E IH] using space_ind.
  - rewrite (trimStart_eq s), (trimStart_eq (toLowerCase s)), spaceLen_toLowerCase, E.
    reflexivity.
  - rewrite (trimStart_eq s), (trimStart_eq (toLowerCase s)), spaceLen_toLowerCase, E.
    rewrite sliceFrom_toLowerCase. exact IH.
Qed.

Lemma allSpace_toLowerCase s : allSpace (toLowerCase s) = allSpace s.
Proof. unfold allSpace. rewrite trimStart_toLowerCase, truthy_toLowerCase. reflexivity. Qed.

Lemma trimEnd_toLowerCase s :
  trimEnd (toLowerCase s) = toLowerCase (trimEnd s).
Proof.
  induction s as [|c s IH]; [reflexivity|].
  cbn [trimEnd]. change (String (lowerChar c) (toLowerCase s)) with (toLowerCase (String c s)).
  cbn [toLowerCase trimEnd].
  change (String (lowerChar c) (toLowerCase s)) with (toLowerCase (String c s)).
  rewrite allSpace_toLowerCase. destruct (allSpace (String c s)); [reflexivity|].
  cbn [toLowerCase]. rewrite IH. reflexivity.
Qed.

Lemma trim_toLowerCase s : trim (toLowerCase s) = toLowerCase (trim s).
Proof.
  unfold trim. rewrite trimStart_toLowerCase. apply trimEnd_toLowerCase.
Qed.

Lemma trimStart_noLeadingSpace s : noLeadingSpace (trimStart s).
Proof.
  unfold noLeadingSpace.
  induction s as [s E | s k E IH] using space_ind; rewrite trimStart_eq, E; assumption.
Qed.

Lemma trimStart_fixed s : noLeadingSpace s -> trimStart s = s.
Proof. unfold noLeadingSpace. intros E. rewrite trimStart_eq, E. reflexivity. Qed.

Lemma append_assoc (a b c : string) : (a +:+ b) +:+ c = a +:+ (b +:+ c).
Proof. induction a as [|x a IH]; simpl; [reflexivity | f_equal; exact IH]. Qed.



(** The white space at the start of a text is decided by the bytes it
    covers. *)
Lemma spaceLen_append (p r : string) (k : nat) :
  spaceLen p = S k -> spaceLen (p +:+ r) = S k.
Proof.
  destruct p as [|c1 [|c2 [|c3 p]]]; cbn [spaceLen String.append]; try discriminate;
    repeat match goal with |- context [if ?b then _ else _] => destruct b end;
    try discriminate; try (intros; assumption).
Qed.


Lemma sliceFrom_append_le (n : nat) (p r : string) :
  (n <= String.length p)%nat -> sliceFrom n (p +:+ r) = sliceFrom n p +:+ r.
Proof.
  revert p. induction n as [|n IH]; intros p Hn; [reflexivity|].
  destruct p as [|c p]; [cbn in Hn; lia|]. cbn [String.append sliceFrom].
  apply IH. cbn in Hn. lia.
Qed.

Lemma allSpace_empty (s : string) : allSpace s = true <-> trimStart s = EmptyString.
Proof.
  unfold allSpace. destruct (trimStart s); cbn; split; congruence.
Qed.

Lemma trimStart_append_space (ws s : string) :
  allSpace ws = true -> trimStart (ws +:+ s) = trimStart s.
Proof.
  induction ws as [ws E | ws k E IH] using space_ind; intros Hws.
  - apply allSpace_empty in Hws. rewrite trimStart_eq, E in Hws. subst ws. reflexivity.
  - rewrite (trimStart_eq (ws +:+ s)), (spaceLen_append ws s k E).
    pose proof (spaceLen_le ws) as Hle. rewrite E in Hle.
    rewrite sliceFrom_append_le by exact Hle. apply IH.
    apply allSpace_empty. apply allSpace_empty in Hws.
    rewrite trimStart_eq, E in Hws. exact Hws.
Qed.

Lemma allSpace_append (a b : string) :
  allSpace a = true -> allSpace b = true -> allSpace (a +:+ b) = true.
Proof.
  intros Ha Hb. apply allSpace_empty. rewrite trimStart_append_space by exact Ha.
  apply allSpace_empty, Hb.
Qed.


(** What [trimEnd] removes is white space. *)
Lemma trimEnd_split (s : string) :
  exists ws, s = trimEnd s +:+ ws /\ allSpace ws = true.
Proof.
  induction s as [|c s (ws & Hs & Hws)].
  - exists EmptyString. split; reflexivity.
  - cbn [trimEnd]. destruct (allSpace (String c s)) eqn:E.
    + exists (String c s). split; [reflexivity | exact E].
    + exists ws. split; [cbn [String.append]; f_equal; exact Hs | exact Hws].
Qed.

Lemma trimEnd_noLeadingSpace s : noLeadingSpace s -> noLeadingSpace (trimEnd s).
Proof.
  unfold noLeadingSpace. intros E.
  destruct (trimEnd_split s) as (ws & Hs & _).
  destruct (spaceLen (trimEnd s)) as [|k] eqn:Ek; [reflexivity|].
  rewrite Hs, (spaceLen_append _ ws k Ek) in E. discriminate E.
Qed.

Lemma trimEnd_idempotent s : trimEnd (trimEnd s) = trimEnd s.
Proof.
  induction s as [|c s IH]; [reflexivity|].
  cbn [trimEnd]. destruct (allSpace (String c s)) eqn:E; [reflexivity|].
  cbn [trimEnd]. rewrite IH.
  destruct (allSpace (String c (trimEnd s))) eqn:E'; [|reflexivity].
  exfalso. destruct (trimEnd_split s) as (ws & Hs & Hws).
  pose proof (allSpace_append _ _ E' Hws) as Hall.
  cbn [String.append] in Hall. rewrite <- Hs in Hall. congruence.
Qed.

Lemma trim_idempotent s : trim (trim s) = trim s.
Proof.
  unfold trim.
  rewrite (trimStart_fixed (trimEnd (trimStart s))).
  - apply trimEnd_idempotent.
  - apply trimEnd_noLeadingSpace, trimStart_noLeadingSpace.
Qed.






End StringFacts.

(** ** De-duplication *)

Section UniqueFacts.
Context {A : Type} (key : A -> string).

Lemma uniqueBy_sublist seen (xs : list A) : sublist (uniqueBy key seen xs) xs.
Proof.
  revert seen. induction xs as [|x xs IH]; intros seen; simpl.
  - constructor.
  - case_bool_decide.
    + apply sublist_cons, IH.
    + apply sublist_skip, IH.
Qed.

Lemma uniqueBy_fresh seen (xs : list A) x :
  x ∈ uniqueBy key seen xs -> key x ∉ seen.
Proof.
  revert seen. induction xs as [|y xs IH]; intros seen; simpl.
  - intros Hin. inversion Hin.
  - case_bool_decide as Hy.
    + apply IH.
    + intros [-> | Hin]%elem_of_cons; [exact Hy|].
      apply IH in Hin. set_solver.
Qed.

Lemma uniqueBy_NoDup seen (xs : list A) :
  NoDup (List.map key (uniqueBy key seen xs)).
Proof.
  revert seen. induction xs as [|y xs IH]; intros seen; simpl.
  - constructor.
  - case_bool_decide as Hy; [apply IH|].
    simpl. constructor; [|apply IH].
    intros (z & Hz & Hin)%list_elem_of_In%in_map_iff.
    apply list_elem_of_In, uniqueBy_fresh in Hin. set_solver.
Qed.

(** The first occurrence wins: a survivor is preceded by no element with
    its key. *)
Lemma uniqueBy_first (xs : list A) x :
  x ∈ uniqueBy key ∅ xs ->
  exists l1 l2, xs = (l1 ++ x :: l2)%list /\ forall y, y ∈ l1 -> key y <> key x.
Proof.
  intros Hin.
  assert (Hgen : forall seen (l : list A),
             x ∈ uniqueBy key seen l ->
             exists l1 l2, l = (l1 ++ x :: l2)%list
                           /\ forall y, y ∈ l1 -> key y <> key x).
  { clear. intros seen l. revert seen.
    induction l as [|y l IH]; intros seen; simpl.
    - intros Hin. inversion Hin.
    - case_bool_decide as Hy.
      + intros Hin. destruct (IH _ Hin) as (l1 & l2 & -> & Hl1).
        destruct (decide (key y = key x)) as [E|NE].
        * apply uniqueBy_fresh in Hin. rewrite <- E in Hin. contradiction.
        * exists (y :: l1), l2. split; [reflexivity|].
          intros z [-> | Hz]%elem_of_cons; auto.
      + intros [-> | Hin]%elem_of_cons.
        * exists [], l. split; [reflexivity|]. intros z Hz. inversion Hz.
        * pose proof (uniqueBy_fresh _ _ _ Hin) as Hfresh.
          destruct (IH _ Hin) as (l1 & l2 & -> & Hl1).
          exists (y :: l1), l2. split; [reflexivity|].
          intros z [-> | Hz]%elem_of_cons; [set_solver | auto]. }
  exact (Hgen ∅ xs Hin).
Qed.

(** Nothing is dropped from a list whose keys are distinct and unseen. *)
Lemma uniqueBy_distinct seen (xs : list A) :
  NoDup (List.map key xs) ->
  (forall x, x ∈ xs -> key x ∉ seen) ->
  uniqueBy key seen xs = xs.
Proof.
  revert seen. induction xs as [|x xs IH]; intros seen Hnd Hseen; simpl.
  - reflexivity.
  - simpl in Hnd. apply NoDup_cons in Hnd as [Hx Hnd].
    case_bool_decide as Hin.
    + exfalso. apply (Hseen x); [left | exact Hin].
    + f_equal. apply IH; [exact Hnd|].
      intros y Hy [E%elem_of_singleton | Hs]%elem_of_union.
      * apply Hx, list_elem_of_In, in_map_iff. exists y.
        split; [exact E | apply list_elem_of_In, Hy].
      * apply (Hseen y); [right; exact Hy | exact Hs].
Qed.

Lemma uniqueBy_lookup seen (xs : list A) (i : nat) (x : A) :
  uniqueBy key seen xs !! i = Some x
  <-> exists l1 l2,
        xs = (l1 ++ x :: l2)%list
        /\ (key x ∉ seen)
        /\ (forall y, y ∈ l1 -> key y <> key x)
        /\ size (keysOf key l1 ∖ seen) = i.
Proof.
  revert seen i. induction xs as [|y xs IH]; intros seen i.
  - split.
    + intros Hl. inversion Hl.
    + intros (l1 & l2 & E & _). destruct l1; discriminate E.
  - cbn [uniqueBy]. case_bool_decide as Hy.
    + rewrite IH. split.
      * intros (l1 & l2 & -> & Hx & Hl1 & Hsz).
        exists (y :: l1), l2. split; [reflexivity|]. split; [exact Hx|].
        split.
        { intros z [-> | Hz]%elem_of_cons; [|auto]. intros E. rewrite E in Hy. auto. }
        rewrite <- Hsz. f_equal. unfold keysOf. cbn [List.map list_to_set].
        apply leibniz_equiv. set_solver.
      * intros (l1 & l2 & E & Hx & Hl1 & Hsz).
        destruct l1 as [|z l1]; cbn in E; injection E as E1 E2;
          [subst y xs; contradiction | subst z xs].
        exists l1, l2. split; [reflexivity|]. split; [exact Hx|].
        split; [intros u Hu; apply Hl1; right; exact Hu|].
        rewrite <- Hsz. f_equal. unfold keysOf. cbn [List.map list_to_set].
        apply leibniz_equiv. set_solver.
    + destruct i as [|i].
      * cbn [lookup list_lookup]. split.
        { intros [= ->]. exists [], xs. split; [reflexivity|]. split; [exact Hy|].
          split; [intros z Hz; inversion Hz|].
          unfold keysOf. cbn. apply size_empty_iff. set_solver. }
        intros (l1 & l2 & E & Hx & Hl1 & Hsz).
        destruct l1 as [|z l1]; cbn in E; injection E as E1 E2;
          [subst y xs; reflexivity | subst z xs].
        exfalso. apply size_empty_iff in Hsz.
        unfold keysOf in Hsz. cbn [List.map list_to_set] in Hsz. set_solver.
      * change ((y :: uniqueBy key ({[key y]} ∪ seen) xs) !! S i)
          with (uniqueBy key ({[key y]} ∪ seen) xs !! i).
        rewrite IH.
        assert (Hsize : forall l1 : list A,
                   size (keysOf key (y :: l1) ∖ seen)
                   = S (size (keysOf key l1 ∖ ({[key y]} ∪ seen)))).
        { intros l1. unfold keysOf. cbn [List.map list_to_set].
          replace (({[key y]} ∪ list_to_set (List.map key l1)) ∖ seen)
            with ({[key y]} ∪ (list_to_set (List.map key l1) ∖ ({[key y]} ∪ seen)) : gset string).
          - rewrite size_union by set_solver. rewrite size_singleton. reflexivity.
          - apply leibniz_equiv. intros k. split.
            + set_solver.
            + destruct (decide (k = key y)) as [->|NE]; set_solver. }
        split.
        { intros (l1 & l2 & -> & Hx & Hl1 & Hsz).
          exists (y :: l1), l2. split; [reflexivity|].
          split; [set_solver|].
          split; [intros z [-> | Hz]%elem_of_cons; [set_solver | auto]|].
          rewrite Hsize, Hsz. reflexivity. }
        intros (l1 & l2 & E & Hx & Hl1 & Hsz).
        destruct l1 as [|z l1]; cbn in E; injection E as E1 E2; [subst y xs | subst z xs].
        { exfalso. unfold keysOf in Hsz. cbn in Hsz.
          rewrite difference_disjoint_L in Hsz by set_solver.
          rewrite size_empty in Hsz. discriminate. }
        exists l1, l2. split; [reflexivity|].
        split.
        { intros [Hk%elem_of_singleton | Hk]%elem_of_union; [|auto].
          apply (Hl1 y); [left | congruence]. }
        split; [intros u Hu; apply Hl1; right; exact Hu|].
        rewrite Hsize in Hsz. congruence.
Qed.

(** The element at index [i] of the result cut after [n] entries is the
    first occurrence that exactly [i] distinct keys precede. *)
Lemma uniqueBy_take_lookup (n : nat) (xs : list A) (i : nat) (x : A) :
  take n (uniqueBy key ∅ xs) !! i = Some x
  <-> (i < n)%nat
      /\ exists l1 l2,
           xs = (l1 ++ x :: l2)%list
           /\ (forall y, y ∈ l1 -> key y <> key x)
           /\ size (keysOf key l1) = i.
Proof.
  rewrite lookup_take_Some, uniqueBy_lookup.
  split.
  - intros [(l1 & l2 & E & _ & Hl1 & Hsz) Hi]. split; [exact Hi|].
    exists l1, l2. rewrite difference_empty_L in Hsz. auto.
  - intros [Hi (l1 & l2 & E & Hl1 & Hsz)]. split; [|exact Hi].
    exists l1, l2. rewrite difference_empty_L. repeat split; auto. set_solver.
Qed.

Lemma uniqueBy_pair_same (x y : A) :
  key x = key y -> uniqueBy key ∅ [x; y] = [x].
Proof.
  intros E. simpl.
  rewrite bool_decide_eq_false_2 by set_solver.
  rewrite bool_decide_eq_true_2 by (rewrite E; set_solver).
  reflexivity.
Qed.

End UniqueFacts.

(** ** Validator *)

Section ValidatorFacts.
Context `{Runtime}.

(** The loop body accepts exactly the candidates that pass the four
    checks, and emits the trimmed fields. *)
Lemma validateCandidate_steps opts item :
  validateCandidate opts item
  = if accepted opts item then Some (eventOf item) else None.
Proof.
  unfold validateCandidate, accepted, fieldsPresent, dateInWindow, grounded,
    genreAccepted, eventOf; simpl.
  destruct (notAnObject item); simpl; [reflexivity|].
  destruct (truthy (stringField (getProp item "event_name"))); simpl; [|reflexivity].
  destruct (truthy (stringField (getProp item "date"))); simpl; [|reflexivity].
  destruct (truthy (stringField (getProp item "venue"))); simpl; [|reflexivity].
  destruct (truthy (stringField (getProp item "event_url"))); simpl; [|reflexivity].
  destruct (isNaN (Date_parse (stringField (getProp item "date")))); simpl;
    [reflexivity|].
  destruct (date_lt _ (start opts) || date_gt _ (end_ opts)); simpl; [reflexivity|].
  destruct (URL_host (stringField (getProp item "event_url"))) as [host|]; simpl;
    [|reflexivity].
  destruct (bool_decide _ || _); simpl; [|reflexivity].
  destruct (applyGenreFilterOf (brief opts)); simpl; [|reflexivity].
  destruct (existsb _ _); reflexivity.
Qed.

Lemma validateCandidate_Some opts item e :
  validateCandidate opts item = Some e <->
  accepted opts item = true /\ e = eventOf item.
Proof.
  rewrite validateCandidate_steps.
  destruct (accepted opts item); split.
  - intros [= <-]. auto.
  - intros [_ ->]. reflexivity.
  - discriminate.
  - intros [[=] _].
Qed.

Lemma validateCandidate_None opts item :
  validateCandidate opts item = None <-> accepted opts item = false.
Proof.
  rewrite validateCandidate_steps.
  destruct (accepted opts item); split; congruence.
Qed.

Lemma collect_from opts items (out : list Event) :
  fold_left
    (fun out item =>
       match validateCandidate opts item with
       | Some e => (out ++ [e])%list
       | None => out
       end)
    items out
  = (out ++ omap (validateCandidate opts) items)%list.
Proof.
  revert out. induction items as [|item items IH]; intros out; simpl.
  - rewrite app_nil_r. reflexivity.
  - rewrite IH. destruct (validateCandidate opts item); simpl.
    + rewrite <- app_assoc. reflexivity.
    + reflexivity.
Qed.

(** The loop keeps the accepted candidates, in their order. *)
Lemma collect_omap opts items :
  collect opts items = omap (validateCandidate opts) items.
Proof. unfold collect. rewrite collect_from. reflexivity. Qed.

Lemma validate_unfold opts items :
  validateAndFilterEvents (JArr items) opts
  = take 10 (uniqueBy event_url ∅ (omap (validateCandidate opts) items)).
Proof. simpl. rewrite collect_omap. reflexivity. Qed.

(** Every event of the result comes from an accepted candidate. *)
Lemma validate_origin opts items e :
  e ∈ validateAndFilterEvents (JArr items) opts ->
  exists item, item ∈ items /\ accepted opts item = true /\ e = eventOf item.
Proof.
  rewrite validate_unfold. intros Hin.
  apply (fun h => elem_of_sublist _ _ _ h (sublist_take _ _)) in Hin.
  apply (fun h => elem_of_sublist _ _ _ h (uniqueBy_sublist _ _ _)) in Hin.
  apply list_elem_of_omap in Hin as (item & Hitem & Hsome).
  exists item. split; [exact Hitem|].
  apply validateCandidate_Some. exact Hsome.
Qed.

Lemma omap_all_accepted opts items :
  Forall (fun item => accepted opts item = true) items ->
  omap (validateCandidate opts) items = List.map eventOf items.
Proof.
  induction 1 as [|item items Hacc _ IH]; simpl; [reflexivity|].
  rewrite validateCandidate_steps, Hacc. simpl. f_equal. exact IH.
Qed.

Lemma grounded_true opts item :
  grounded opts item = true ->
  exists host,
    URL_host (event_url (eventOf item)) = Some host
    /\ (event_url (eventOf item) ∈ allowedUrls opts \/ host ∈ allowedHosts opts).
Proof.
  unfold grounded.
  destruct (URL_host (event_url (eventOf item))) as [host|]; [|discriminate].
  intros Hok. exists host. split; [reflexivity|].
  apply orb_true_iff in Hok as [Hu | Hh].
  - left. apply bool_decide_eq_true in Hu. exact Hu.
  - right. apply andb_true_iff in Hh as [_ Hh].
    apply bool_decide_eq_true in Hh. exact Hh.
Qed.

Lemma dateInWindow_true opts item s e :
  start opts = Some s -> end_ opts = Some e ->
  dateInWindow opts item = true <->
  exists t, Date_parse (date (eventOf item)) = Some t /\ (s <= t <= e)%Z.
Proof.
  intros Hs He. unfold dateInWindow. rewrite Hs, He.
  destruct (Date_parse (date (eventOf item))) as [t|]; simpl.
  - unfold date_gt, date_lt. split.
    + intros Hw. exists t. split; [reflexivity|].
      apply negb_true_iff, orb_false_iff in Hw as [H1 H2].
      apply Z.ltb_ge in H1. apply Z.ltb_ge in H2. lia.
    + intros (t' & [= <-] & Hle).
      apply negb_true_iff, orb_false_iff. split; apply Z.ltb_ge; lia.
  - split; [discriminate|]. intros (t & [=] & _).
Qed.

End ValidatorFacts.

Section ValidatorClaims.
Context `{Runtime}.

(** C1.  Grounding enforcement.  A candidate whose (trimmed) [event_url]
    does not parse as an absolute URL is rejected, and so is a candidate
    whose [event_url] is not in the allow-list's URL set and whose parsed
    host is not in its host set, whatever its other fields, the
    subscriber's preferences and the window are.  Hence every event that
    the validator returns stems from a candidate of the input, has an
    [event_url] that parses, and has that exact string in the URL set or
    its host in the host set. *)
Theorem grounding_enforced (opts : ValidateOpts) :
  (forall item,
      let u := stringField (getProp item "event_url") in
      (URL_host u = None
       \/ ((u ∉ allowedUrls opts)
           /\ forall h, URL_host u = Some h -> h ∉ allowedHosts opts)) ->
      validateCandidate opts item = None)
  /\ (forall raw e,
        e ∈ validateAndFilterEvents raw opts ->
        exists items item host,
          raw = JArr items /\ item ∈ items /\ e = eventOf item
          /\ URL_host (event_url e) = Some host
          /\ (event_url e ∈ allowedUrls opts \/ host ∈ allowedHosts opts)).
Proof.
  split.
  - intros item u Hbad. apply validateCandidate_None.
    unfold accepted.
    destruct (grounded opts item) eqn:G;
      [|rewrite andb_false_r; reflexivity].
    exfalso. apply grounded_true in G as (host & Hhost & Hin).
    change (event_url (eventOf item)) with u in Hhost, Hin.
    destruct Hbad as [Hnone | [Hu Hh]]; [congruence|].
    destruct Hin as [Hin | Hin]; [exact (Hu Hin) | exact (Hh host Hhost Hin)].
  - intros raw e Hin.
    destruct raw as [| | | |items|]; simpl in Hin; try (inversion Hin; fail).
    change (e ∈ validateAndFilterEvents (JArr items) opts) in Hin.
    apply validate_origin in Hin as (item & Hitem & Hacc & ->).
    unfold accepted in Hacc.
    apply andb_true_iff in Hacc as [Hacc _].
    apply andb_true_iff in Hacc as [_ G].
    apply grounded_true in G as (host & Hhost & Hok).
    exists items, item, host. auto.
Qed.

(** C3.  Date window enforcement, for a window with valid bounds [s] and
    [e].  A candidate whose (trimmed) [date] does not parse is rejected;
    one whose parsed date is strictly before [s] or strictly after [e] is
    rejected; for a parsed date within [s, e], both bounds included, the
    date check passes and the outcome is decided by the other checks
    alone.  Every returned event has a date that parses within [s, e]. *)
Theorem date_window_enforced (opts : ValidateOpts) (s e : Z) :
  start opts = Some s -> end_ opts = Some e ->
  (forall item,
      Date_parse (date (eventOf item)) = None ->
      validateCandidate opts item = None)
  /\ (forall item t,
        Date_parse (date (eventOf item)) = Some t ->
        (t < s \/ e < t)%Z ->
        validateCandidate opts item = None)
  /\ (forall item t,
        Date_parse (date (eventOf item)) = Some t ->
        (s <= t <= e)%Z ->
        validateCandidate opts item
        = if fieldsPresent item && grounded opts item && genreAccepted opts item
          then Some (eventOf item) else None)
  /\ (forall raw ev,
        ev ∈ validateAndFilterEvents raw opts ->
        exists t, Date_parse (date ev) = Some t /\ (s <= t <= e)%Z).
Proof.
  intros Hs He.
  assert (Hout : forall item,
             dateInWindow opts item = false -> validateCandidate opts item = None).
  { intros item Hw. apply validateCandidate_None. unfold accepted.
    rewrite Hw, andb_false_r. reflexivity. }
  repeat split.
  - intros item Hnone. apply Hout.
    unfold dateInWindow. rewrite Hnone. reflexivity.
  - intros item t Ht Hlt. apply Hout.
    destruct (dateInWindow opts item) eqn:Hw; [|reflexivity].
    apply (dateInWindow_true opts item s e Hs He) in Hw as (t' & Ht' & Hle).
    rewrite Ht in Ht'. injection Ht' as <-. lia.
  - intros item t Ht Hle.
    rewrite validateCandidate_steps. unfold accepted.
    assert (Hw : dateInWindow opts item = true).
    { apply (dateInWindow_true opts item s e Hs He). eauto. }
    rewrite Hw, andb_true_r. reflexivity.
  - intros raw ev Hin.
    destruct raw as [| | | |items|]; simpl in Hin; try (inversion Hin; fail).
    change (ev ∈ validateAndFilterEvents (JArr items) opts) in Hin.
    apply validate_origin in Hin as (item & _ & Hacc & ->).
    unfold accepted in Hacc.
    apply andb_true_iff in Hacc as [Hacc _].
    apply andb_true_iff in Hacc as [Hacc _].
    apply andb_true_iff in Hacc as [_ Hw].
    apply (dateInWindow_true opts item s e Hs He). exact Hw.
Qed.

(** C4.  De-duplication, then the cap.  The result is the list of
    accepted candidates, in their order, with every later occurrence of an
    [event_url] dropped, cut after 10 entries.  So it has at most 10
    events with pairwise distinct addresses, it is a subsequence of the
    accepted candidates, and each of its events is the first accepted
    candidate with its address.  Position by position: the event at index
    i of the result, for i below 10, is the accepted candidate that no
    accepted candidate with its address precedes and that exactly i
    distinct addresses precede, and there is an event at index i whenever
    such a candidate exists; so the first occurrence of every address is
    kept, up to the cap, and nothing after a duplicate is lost.  Two
    accepted candidates with the same [event_url] yield the first one
    only, and 25 accepted candidates with pairwise distinct addresses
    yield the first 10 of them. *)
Theorem dedupe_then_cap (opts : ValidateOpts) (items : list JSON) :
  let survivors := omap (validateCandidate opts) items in
  let out := validateAndFilterEvents (JArr items) opts in
  out = take 10 (uniqueBy event_url ∅ survivors)
  /\ (List.length out <= 10)%nat
  /\ NoDup (List.map event_url out)
  /\ sublist out survivors
  /\ (forall e, e ∈ out ->
       exists before after,
         survivors = (before ++ e :: after)%list
         /\ forall e', e' ∈ before -> event_url e' <> event_url e)
  /\ (forall i e,
        out !! i = Some e
        <-> (i < 10)%nat
            /\ exists before after,
                 survivors = (before ++ e :: after)%list
                 /\ (forall e', e' ∈ before -> event_url e' <> event_url e)
                 /\ size (keysOf event_url before) = i)
  /\ (forall a b,
        items = [a; b] ->
        accepted opts a = true -> accepted opts b = true ->
        event_url (eventOf a) = event_url (eventOf b) ->
        out = [eventOf a])
  /\ (List.length items = 25%nat ->
      forallb (accepted opts) items = true ->
      NoDup (List.map (fun item => event_url (eventOf item)) items) ->
      out = List.map eventOf (take 10 items) /\ List.length out = 10%nat).
Proof.
  intros survivors out.
  assert (Hout : out = take 10 (uniqueBy event_url ∅ survivors))
    by apply validate_unfold.
  split; [exact Hout|]. rewrite Hout.
  split; [rewrite length_take; lia|].
  split.
  { rewrite <- firstn_map.
    apply (sublist_NoDup _ (List.map event_url (uniqueBy event_url ∅ survivors)));
      [apply uniqueBy_NoDup | apply sublist_take]. }
  split.
  { etransitivity; [apply sublist_take | apply uniqueBy_sublist]. }
  split.
  { intros e Hin. apply uniqueBy_first.
    apply (elem_of_sublist _ _ _ Hin (sublist_take _ _)). }
  split; [intros i e; apply uniqueBy_take_lookup|].
  split.
  { intros a b -> Ha Hb Hurl.
    assert (Hs : survivors = [eventOf a; eventOf b]).
    { apply (omap_all_accepted opts [a; b]). repeat constructor; assumption. }
    rewrite Hs, uniqueBy_pair_same by exact Hurl. reflexivity. }
  intros Hlen Hacc Hnd.
  assert (Hall : survivors = List.map eventOf items).
  { apply omap_all_accepted. apply Forall_forall. intros item Hitem.
    apply (proj1 (forallb_forall _ _) Hacc). apply list_elem_of_In. exact Hitem. }
  rewrite Hall, uniqueBy_distinct.
  - rewrite firstn_map. split; [reflexivity|].
    rewrite length_map, length_take. lia.
  - rewrite map_map. exact Hnd.
  - intros x _. set_solver.
Qed.

End ValidatorClaims.

(** The sample run: a fabricated address and a relative address are
    rejected under the allow-list built from the gathered page, and the
    event that is returned is grounded in it. *)
Lemma grounding_enforced_witness :
  validateCandidate (H := RefRuntime.runtime) Samples.opts Samples.fabricated = None
  /\ validateCandidate (H := RefRuntime.runtime) Samples.opts Samples.notAUrl = None
  /\ exists items item host,
      JArr [Samples.jazzNight] = JArr items /\ item ∈ items
      /\ eventOf Samples.jazzNight = eventOf item
      /\ URL_host (Runtime := RefRuntime.runtime) (event_url (eventOf Samples.jazzNight)) = Some host
      /\ (event_url (eventOf Samples.jazzNight) ∈ allowedUrls Samples.opts
          \/ host ∈ allowedHosts Samples.opts).
Proof.
  destruct (@grounding_enforced RefRuntime.runtime Samples.opts) as [Hreject Hkept].
  split; [|split].
  - apply Hreject. right. split.
    + vm_compute. discriminate.
    + intros h Hh. vm_compute in Hh. injection Hh as <-. vm_compute. discriminate.
  - apply Hreject. left. vm_compute. reflexivity.
  - apply (Hkept (JArr [Samples.jazzNight]) (eventOf Samples.jazzNight)).
    vm_compute. left.
Defined.

(** The sample run: an unparsable date and a date after the window are
    rejected, dates equal to either bound are kept, and the returned event
    lies within the window. *)
Lemma date_window_enforced_witness :
  validateCandidate (H := RefRuntime.runtime) Samples.opts Samples.noDate = None
  /\ validateCandidate (H := RefRuntime.runtime) Samples.opts Samples.tooLate = None
  /\ validateCandidate (H := RefRuntime.runtime) Samples.opts (Samples.atInstant "2026-11-02T12:00:00.000Z")
     = Some (eventOf (Samples.atInstant "2026-11-02T12:00:00.000Z"))
  /\ validateCandidate (H := RefRuntime.runtime) Samples.opts (Samples.atInstant "2026-11-09T12:00:00.000Z")
     = Some (eventOf (Samples.atInstant "2026-11-09T12:00:00.000Z"))
  /\ exists t,
      Date_parse (Runtime := RefRuntime.runtime) (date (eventOf Samples.jazzNight)) = Some t
      /\ (Samples.now <= t <= Samples.weekLater)%Z.
Proof.
  destruct (@date_window_enforced RefRuntime.runtime Samples.opts Samples.now Samples.weekLater
              eq_refl eq_refl) as (Hnone & Hout & Hin & Hres).
  split; [|split; [|split; [|split]]].
  - apply Hnone. vm_compute. reflexivity.
  - apply (Hout _ 1794268800000%Z); [vm_compute; reflexivity|].
    right. vm_compute. reflexivity.
  - rewrite (Hin _ Samples.now); [vm_compute; reflexivity | vm_compute; reflexivity|].
    split; vm_compute; discriminate.
  - rewrite (Hin _ Samples.weekLater);
      [vm_compute; reflexivity | vm_compute; reflexivity|].
    split; vm_compute; discriminate.
  - apply (Hres (JArr [Samples.jazzNight])). vm_compute. left.
Defined.

(** The sample run: of two candidates with one address the first is kept,
    and of 25 accepted candidates with distinct addresses the first 10. *)
Lemma dedupe_then_cap_witness :
  validateAndFilterEvents (H := RefRuntime.runtime) (JArr [Samples.jazzNight; Samples.jazzNightAgain])
    Samples.opts = [eventOf Samples.jazzNight]
  /\ validateAndFilterEvents (H := RefRuntime.runtime) (JArr Samples.twentyFive) Samples.opts
     = List.map eventOf (take 10 Samples.twentyFive)
  /\ List.length (validateAndFilterEvents (H := RefRuntime.runtime) (JArr Samples.twentyFive) Samples.opts)
     = 10%nat.
Proof.
  split.
  - destruct (@dedupe_then_cap RefRuntime.runtime Samples.opts [Samples.jazzNight; Samples.jazzNightAgain])
      as (_ & _ & _ & _ & _ & _ & Hpair & _).
    apply (Hpair Samples.jazzNight Samples.jazzNightAgain);
      vm_compute; reflexivity.
  - destruct (@dedupe_then_cap RefRuntime.runtime Samples.opts Samples.twentyFive)
      as (_ & _ & _ & _ & _ & _ & _ & Hcap).
    apply Hcap.
    + vm_compute. reflexivity.
    + vm_compute. reflexivity.
    + apply (bool_decide_unpack _). vm_compute. exact I.
Defined.

(** ** Genres *)

Section GenreFacts.

Lemma known_genres_trimmed k :
  In k KNOWN_GENRES ->
  trim k = k /\ truthy k = true /\ truthy (toLowerCase (trim k)) = true.
Proof.
  unfold KNOWN_GENRES. simpl.
  intros Hk.
  repeat (destruct Hk as [<- | Hk]; [repeat split; reflexivity|]).
  destruct Hk.
Qed.

Lemma elem_selected (gs : list string) x :
  x ∈ (list_to_set (List.filter truthy (List.map trim gs)) : gset string) <->
  truthy x = true /\ exists s, In s gs /\ trim s = x.
Proof.
  rewrite elem_of_list_to_set, list_elem_of_In, filter_In, in_map_iff.
  split.
  - intros [(s & Hs & Hin) Ht]. split; [exact Ht|]. exists s. auto.
  - intros [Ht (s & Hin & Hs)]. split; [|exact Ht]. exists s. auto.
Qed.

(** The sentinel check says yes exactly when every known genre is, after
    trimming, among the selected ones. *)
Lemma isAllGenresSelection_iff (gs : list string) :
  isAllGenresSelection (Some gs) = true <->
  forall k, In k KNOWN_GENRES -> exists s, In s gs /\ trim s = k.
Proof.
  destruct gs as [|g gs].
  - simpl. split; [discriminate|].
    intros Hall. destruct (Hall "Jazz") as (s & [] & _).
    unfold KNOWN_GENRES. simpl. auto.
  - unfold isAllGenresSelection. rewrite forallb_forall. split.
    + intros Hall k Hk. specialize (Hall k Hk).
      apply bool_decide_eq_true, elem_selected in Hall as [_ Hs]. exact Hs.
    + intros Hall k Hk. apply bool_decide_eq_true, elem_selected.
      split; [apply known_genres_trimmed, Hk | apply Hall, Hk].
Qed.

Lemma elem_preferred (b : Brief) x :
  x ∈ preferredGenresOf b <->
  truthy x = true
  /\ exists p, In p (default [] (genres b)) /\ x = toLowerCase (trim p).
Proof.
  unfold preferredGenresOf.
  rewrite elem_of_list_to_set, list_elem_of_In, filter_In, in_map_iff.
  split.
  - intros [(p & Hp & Hin) Ht]. split; [exact Ht|]. exists p.
    rewrite <- trim_toLowerCase. auto.
  - intros [Ht (p & Hin & ->)]. split; [|exact Ht]. exists p.
    rewrite trim_toLowerCase. auto.
Qed.



Lemma applyGenreFilter_all (b : Brief) :
  isAllGenresSelection (genres b) = true -> applyGenreFilterOf b = false.
Proof.
  intros Hall. unfold applyGenreFilterOf. rewrite Hall. apply andb_false_r.
Qed.


End GenreFacts.

Section GenreClaims.
Context `{Runtime}.

Lemma no_filter_outcome (opts : ValidateOpts) :
  isAllGenresSelection (genres (brief opts)) = true ->
  forall item,
    genreAccepted opts item = true
    /\ validateCandidate opts item
       = if fieldsPresent item && dateInWindow opts item && grounded opts item
         then Some (eventOf item) else None.
Proof.
  intros Hall item.
  assert (Hg : genreAccepted opts item = true).
  { unfold genreAccepted. rewrite (applyGenreFilter_all _ Hall). reflexivity. }
  split; [exact Hg|].
  rewrite validateCandidate_steps. unfold accepted.
  rewrite Hg, andb_true_r. reflexivity.
Qed.


(** C10.  The all-genres sentinel.  The check answers no for a missing
    and for an empty genre list.  It answers yes for every list that
    contains, after trimming, each of the 12 known genres, also when the
    list has further labels; for such a selection the prompt shows any
    genre and asks for no genre filtering, and the validator applies no
    genre filter. *)
Theorem all_genres_sentinel :
  isAllGenresSelection None = false
  /\ isAllGenresSelection (Some []) = false
  /\ forall gs,
      (forall k, In k KNOWN_GENRES -> exists s, In s gs /\ trim s = k) ->
      isAllGenresSelection (Some gs) = true
      /\ (forall b, genres b = Some gs ->
            applyGenreFilterOf b = false
            /\ promptPreferredGenres b = "any genre"
            /\ promptGenreRule b = "- genre: no filtering required." +:+ nl)
      /\ (forall opts item, genres (brief opts) = Some gs ->
            genreAccepted opts item = true
            /\ validateCandidate opts item
               = if fieldsPresent item && dateInWindow opts item && grounded opts item
                 then Some (eventOf item) else None).
Proof.
  split; [reflexivity|]. split; [reflexivity|].
  intros gs Hsup.
  assert (Hall : isAllGenresSelection (Some gs) = true)
    by (apply isAllGenresSelection_iff, Hsup).
  split; [exact Hall|]. split.
  - intros b Hb. rewrite <- Hb in Hall. split; [|split].
    + apply applyGenreFilter_all, Hall.
    + unfold promptPreferredGenres. rewrite Hall, orb_true_r. reflexivity.
    + unfold promptGenreRule. rewrite Hall. reflexivity.
  - intros opts item Hb. apply no_filter_outcome. rewrite Hb. exact Hall.
Qed.

End GenreClaims.


(** The sample run: a selection holding every known genre, padded with
    blanks, next to two unknown labels. *)
Lemma all_genres_sentinel_witness :
  isAllGenresSelection (genres Samples.supersetBrief) = true
  /\ promptPreferredGenres Samples.supersetBrief = "any genre"
  /\ validateCandidate (H := RefRuntime.runtime) (Samples.optsFor Samples.supersetBrief) Samples.metalNight
     = Some (eventOf Samples.metalNight).
Proof.
  destruct (@all_genres_sentinel RefRuntime.runtime) as (_ & _ & Hsup).
  assert (Hall : forall k, In k KNOWN_GENRES ->
                   exists s, In s ("Klezmer"
                                     :: List.map (fun g => " " +:+ g +:+ "  ") KNOWN_GENRES
                                     ++ ["Ska"])%list
                             /\ trim s = k).
  { intros k Hk. exists (" " +:+ k +:+ "  "). split.
    - right. apply in_or_app. left. apply in_map_iff. exists k. auto.
    - unfold KNOWN_GENRES in Hk. simpl in Hk.
      repeat (destruct Hk as [<- | Hk]; [reflexivity|]). destruct Hk. }
  destruct (Hsup _ Hall) as (Htrue & Hprompt & Hvalid).
  split; [exact Htrue|]. split.
  - apply (Hprompt Samples.supersetBrief eq_refl).
  - rewrite (proj2 (Hvalid (Samples.optsFor Samples.supersetBrief) Samples.metalNight
                      eq_refl)).
    vm_compute. reflexivity.
Defined.

(** ** Code fences *)

Section FenceFacts.
Local Arguments String.append !_ _ / : simpl nomatch.






Lemma startsWith_append (p s : string) : startsWith (p +:+ s) p = true.
Proof.
  unfold startsWith. induction p as [|c p IH]; simpl; [destruct s; reflexivity|].
  destruct (Ascii.ascii_dec c c); [exact IH | contradiction].
Qed.





End FenceFacts.

(** ** Response parsing *)

Section ParsingFacts.
Context `{Runtime}.


(** With a successful reply of the gateway the handler answers 200 with
    the events read from the content: nothing thrown while reading it
    reaches the outer [catch]. *)
Lemma afterAi_ok (w : World) (tick : nat) (headerId traceId : option string)
    (b : Brief) (sources : list SourceDoc) (window : TimeWindow)
    (st : nat) (content finish : option string) :
  statusOk st = true ->
  run w tick (afterAi headerId traceId b sources window (AiHttp st content finish))
  = (mkResponse 200
       (EventsBody
          (eventsFromContent
             (if truthyOpt content then default EmptyString content else "[]")
             (mkOpts b (urls (buildAllowedUrlSets sources))
                (hosts (buildAllowedUrlSets sources))
                (tw_start window) (tw_end window)))
          traceId (clock w tick) (briefParamsOf b)
          (mkDiag (List.length sources) finish)),
     [EClock]).
Proof. intros Hok. unfold afterAi. rewrite Hok. reflexivity. Qed.

End ParsingFacts.




(** ** Runs of the handler *)

Section RunFacts.

Lemma run_bind {A B : Type} (w : World) (p : Prog A) (f : A -> Prog B) (tick : nat) :
  run w tick (bind p f)
  = let '(a, tr1) := run w tick p in
    let '(b, tr2) := run w (tick + ticksOf tr1) (f a) in
    (b, (tr1 ++ tr2)%list).
Proof.
  revert tick.
  induction p as [a | name k IH | k IH | query k IH | prompt k IH]; intros tick; simpl.
  - unfold ticksOf. simpl. rewrite Nat.add_0_r.
    destruct (run w tick (f a)). reflexivity.
  - rewrite IH. destruct (run w tick (k (env w name))) as [a tr1].
    change (ticksOf (EEnv name :: tr1)) with (ticksOf tr1).
    destruct (run w (tick + ticksOf tr1) (f a)). reflexivity.
  - rewrite IH. destruct (run w (S tick) (k (clock w tick))) as [a tr1].
    change (ticksOf (EClock :: tr1)) with (S (ticksOf tr1)).
    rewrite Nat.add_succ_r.
    change (S tick + ticksOf tr1)%nat with (S (tick + ticksOf tr1)).
    destruct (run w (S (tick + ticksOf tr1)) (f a)). reflexivity.
  - rewrite IH. destruct (run w tick (k (search w query))) as [a tr1].
    change (ticksOf (ESearch query :: tr1)) with (ticksOf tr1).
    destruct (run w (tick + ticksOf tr1) (f a)). reflexivity.
  - rewrite IH. destruct (run w tick (k (ai w prompt))) as [a tr1].
    change (ticksOf (EAi prompt :: tr1)) with (ticksOf tr1).
    destruct (run w (tick + ticksOf tr1) (f a)). reflexivity.
Qed.

Lemma searchOnly_app (t1 t2 : list Effect) :
  searchOnly t1 -> searchOnly t2 -> searchOnly (t1 ++ t2).
Proof.
  unfold searchOnly, ticksOf, noAiCall. intros [H1 H2] [H3 H4].
  rewrite List.filter_app, length_app, forallb_app, H1, H2, H3, H4. auto.
Qed.

Lemma firecrawlSearch_searchOnly (w : World) (tick : nat) (query : string) :
  searchOnly (snd (run w tick (firecrawlSearch query))).
Proof.
  unfold firecrawlSearch. simpl.
  destruct (truthyOpt (env w "FIRECRAWL_API_KEY")); simpl; [|split; reflexivity].
  destruct (search w query) as [|st data]; simpl; [split; reflexivity|].
  destruct (statusOk st); simpl; split; reflexivity.
Qed.

Lemma mapProg_searchOnly (w : World) (tick : nat) (queries : list string) :
  searchOnly (snd (run w tick (mapProg firecrawlSearch queries))).
Proof.
  induction queries as [|query queries IH].
  - split; reflexivity.
  - cbn [mapProg]. rewrite run_bind.
    pose proof (firecrawlSearch_searchOnly w tick query) as Hq.
    destruct (run w tick (firecrawlSearch query)) as [docs tr1].
    cbn [snd] in Hq. destruct Hq as [Hticks Hai].
    rewrite Hticks, Nat.add_0_r, run_bind.
    destruct (run w tick (mapProg firecrawlSearch queries)) as [rest tr2].
    cbn [snd] in IH. cbn [run snd].
    apply searchOnly_app; [split; assumption|].
    rewrite app_nil_r. exact IH.
Qed.

Context `{Runtime}.

(** Building the queries reads the clock once, for the year. *)
Lemma run_buildSearchQueries (w : World) (tick : nat) (b : Brief) :
  run w tick (buildSearchQueries b)
  = (queriesIn (getFullYear (clock w tick)) b, [EClock]).
Proof. reflexivity. Qed.

(** The search stage reads the clock once, first, and then only
    searches. *)
Lemma gatherSources_trace (w : World) (tick : nat) (b : Brief) :
  exists searching,
    snd (run w tick (gatherSources b)) = EClock :: searching
    /\ searchOnly searching.
Proof.
  unfold gatherSources. rewrite run_bind, run_buildSearchQueries.
  change (ticksOf [EClock]) with 1%nat.
  destruct (queriesIn (getFullYear (clock w tick)) b) as [|query queries].
  - exists []. split; [reflexivity | split; reflexivity].
  - rewrite run_bind.
    pose proof (mapProg_searchOnly w (tick + 1) (query :: queries)) as Hm.
    destruct (run w (tick + 1) (mapProg firecrawlSearch (query :: queries)))
      as [results tr].
    cbn [snd run] in *. rewrite app_nil_r.
    exists tr. split; [reflexivity | exact Hm].
Qed.

Lemma gatherSources_ticks (w : World) (tick : nat) (b : Brief) :
  ticksOf (snd (run w tick (gatherSources b))) = 1%nat
  /\ noAiCall (snd (run w tick (gatherSources b))) = true.
Proof.
  destruct (gatherSources_trace w tick b) as (searching & -> & Hticks & Hai).
  split.
  - change (ticksOf (EClock :: searching)) with (S (ticksOf searching)).
    rewrite Hticks. reflexivity.
  - exact Hai.
Qed.

End RunFacts.

Section HandlerClaims.
Context `{Runtime}.
Local Opaque gatherSources.

(** C7.  Zero-source short circuit.  For a request that carries a brief,
    in a deployment whose model gateway is configured: when the search
    stage, which reads the clock once for the year of its queries, gathers
    no source document, the handler reads the clock once more, for the
    time stamp, and answers with status 200, an empty event list and the
    diagnostic source count 0, and the run contains no call of the
    model. *)
Theorem zero_sources_short_circuit
    (w : World) (req : Request) (rb : RequestBody) (b : Brief) :
  String.eqb (method req) "OPTIONS" = false ->
  json req = Returned rb ->
  rb_brief rb = Some b ->
  truthyOpt (env w "LOVABLE_API_KEY") = true ->
  fst (run w 0 (gatherSources b)) = [] ->
  fst (run w 0 (handler req))
  = mkResponse 200
      (EventsBody [] (orElse (headerTraceId req) (rb_traceId rb)) (clock w 1)
         (briefParamsOf b) (mkDiag 0 None))
  /\ noAiCall (snd (run w 0 (handler req))) = true
  /\ ticksOf (snd (run w 0 (handler req))) = 2%nat.
Proof.
  intros Hm Hj Hb Hkey Hnone.
  unfold handler. rewrite Hm, Hj, Hb. simpl. rewrite Hkey. simpl.
  rewrite run_bind.
  pose proof (gatherSources_ticks w 0 b) as [Hticks Hai].
  destruct (run w 0 (gatherSources b)) as [sources tr].
  simpl in Hnone, Hticks, Hai. subst sources. rewrite Hticks. simpl.
  split; [reflexivity|].
  split.
  - unfold noAiCall in *. rewrite forallb_app, Hai. reflexivity.
  - change (ticksOf (EEnv "LOVABLE_API_KEY" :: tr ++ [EClock]))
      with (ticksOf (tr ++ [EClock])).
    unfold ticksOf in *. rewrite List.filter_app, length_app, Hticks. reflexivity.
Qed.

End HandlerClaims.

(** The sample deployment has no key for the search provider, so nothing
    is gathered. *)
Lemma zero_sources_short_circuit_witness :
  fst (run SampleRuns.quietWorld 0
         (handler (H := RefRuntime.runtime) SampleRuns.request))
  = mkResponse 200
      (EventsBody [] (Some "trace-1") (Samples.now + 1)
         (mkParams [] ["Jazz"] ["barby"] "Next 7 days") (mkDiag 0 None))
  /\ noAiCall (snd (run SampleRuns.quietWorld 0
                      (handler (H := RefRuntime.runtime) SampleRuns.request)))
     = true
  /\ ticksOf (snd (run SampleRuns.quietWorld 0
                     (handler (H := RefRuntime.runtime) SampleRuns.request)))
     = 2%nat.
Proof.
  apply (@zero_sources_short_circuit RefRuntime.runtime SampleRuns.quietWorld
           SampleRuns.request (mkRequestBody (Some Samples.jazzBrief) None)
           Samples.jazzBrief);
    vm_compute; reflexivity.
Defined.

(** ** Search queries *)

Section QueryFacts.

Lemma queriesOf_from (year : Z) (ids : list string) (queries : list string) :
  fold_left
    (fun queries venueId =>
       match primaryDomain venueId with
       | None => queries
       | Some domain => (queries ++ [queryFor domain year])%list
       end)
    ids queries
  = (queries ++ omap (queryOfVenue year) ids)%list.
Proof.
  revert queries. induction ids as [|v ids IH]; intros queries; simpl.
  - rewrite app_nil_r. reflexivity.
  - rewrite IH. unfold queryOfVenue at 2.
    destruct (primaryDomain v); simpl.
    + rewrite <- app_assoc. reflexivity.
    + reflexivity.
Qed.

Lemma queriesOf_omap (year : Z) (ids : list string) :
  queriesOf year ids = omap (queryOfVenue year) ids.
Proof. unfold queriesOf. rewrite queriesOf_from. reflexivity. Qed.

Lemma assoc_In {V : Type} (key : string) (table : list (string * V)) (v : V) :
  assoc key table = Some v -> In (key, v) table.
Proof.
  induction table as [|[k x] table IH]; simpl; [discriminate|].
  destruct (String.eqb k key) eqn:E.
  - apply String.eqb_eq in E. intros [= ->]. left. congruence.
  - intros Hv. right. apply IH, Hv.
Qed.

Lemma primaryDomain_known (v : string) :
  knownVenue v -> exists d, primaryDomain v = Some d.
Proof.
  unfold knownVenue, VENUE_DOMAINS. simpl. intros Hv.
  repeat (destruct Hv as [<- | Hv]; [eexists; reflexivity|]).
  destruct Hv.
Qed.

Lemma primaryDomain_unknown (v : string) :
  ~ knownVenue v -> primaryDomain v = None.
Proof.
  intros Hv. unfold primaryDomain.
  destruct (assoc v VENUE_DOMAINS) as [ds|] eqn:E; [|reflexivity].
  exfalso. apply Hv. apply assoc_In in E.
  unfold knownVenue. apply in_map_iff. exists (v, ds). auto.
Qed.

Lemma omap_length_known (year : Z) (ids : list string) :
  Forall knownVenue ids ->
  List.length (omap (queryOfVenue year) ids) = List.length ids.
Proof.
  induction 1 as [|v ids Hv _ IH]; [reflexivity|].
  change (omap (queryOfVenue year) (v :: ids))
    with (match queryOfVenue year v with
          | Some y => y :: omap (queryOfVenue year) ids
          | None => omap (queryOfVenue year) ids
          end).
  unfold queryOfVenue at 1.
  destruct (primaryDomain_known v Hv) as [d ->].
  cbn [List.length]. rewrite IH. reflexivity.
Qed.

End QueryFacts.

(** C8 as stated fails for a selected venue identifier without a domain:
    the identifier liebling-haus, which a venue list of the front end
    has, is selected alone and no query is built. *)
Lemma search_queries_counterexample :
  venueIdsOf Samples.unlistedVenue = ["liebling-haus"]
  /\ queriesOf 2026 (venueIdsOf Samples.unlistedVenue) = []
  /\ List.length (queriesOf 2026 (venueIdsOf Samples.unlistedVenue))
     <> List.length (venueIdsOf Samples.unlistedVenue)
  /\ run SampleRuns.quietWorld 0
       (buildSearchQueries (H := RefRuntime.runtime) Samples.unlistedVenue)
     = ([], [EClock]).
Proof.
  split; [reflexivity|]. split; [reflexivity|].
  split; [vm_compute; discriminate | reflexivity].
Qed.

Section QueryClaims.
Context `{Runtime}.

(** C8, amended.  Building the queries reads the clock once and nothing
    else; the year is the year of that reading in the local time of the
    runtime.  The identifiers are the selected ones, or the 12 known
    venues when none is selected.  The loop builds, in order, one query for
    each identifier that has a domain, made of the venue's primary domain,
    the qualifier Tel Aviv events and the year, and none for an identifier
    without a domain; so identifiers of the domain table give exactly one
    query each.  The result is that list with repeated queries dropped
    after their first occurrence, cut after 6 entries: the query at index
    i of the result, for i below 6, is the query of the list that does not
    occur before and that exactly i distinct queries precede, and there is
    a query at index i whenever the list has such a query; so nothing
    after a repetition is lost. *)
Theorem search_queries (w : World) (tick : nat) (b : Brief) :
  let ids := venueIdsOf b in
  let year := getFullYear (clock w tick) in
  let queries := fst (run w tick (buildSearchQueries b)) in
  snd (run w tick (buildSearchQueries b)) = [EClock]
  /\ year = YearFromTime (clock w tick + LocalTZA (clock w tick))
  /\ (~ nonEmptyList (venues b) = true -> ids = List.map fst VENUE_DOMAINS)
  /\ (forall vs, nonEmptyList (venues b) = true -> venues b = Some vs -> ids = vs)
  /\ queriesOf year ids = omap (queryOfVenue year) ids
  /\ (forall v, knownVenue v ->
        exists d ds,
          assoc v VENUE_DOMAINS = Some (d :: ds)
          /\ queryOfVenue year v = Some ("site:" +:+ d +:+ " Tel Aviv events " +:+ ofZ year))
  /\ (forall v, ~ knownVenue v -> queryOfVenue year v = None)
  /\ (Forall knownVenue ids ->
      List.length (queriesOf year ids) = List.length ids)
  /\ queries = take 6 (uniqueBy (fun q => q) ∅ (queriesOf year ids))
  /\ (List.length queries <= 6)%nat
  /\ NoDup queries
  /\ sublist queries (queriesOf year ids)
  /\ (forall i q,
        queries !! i = Some q
        <-> (i < 6)%nat
            /\ exists before after,
                 queriesOf year ids = (before ++ q :: after)%list
                 /\ (q ∉ before)
                 /\ size (keysOf (fun q => q) before) = i).
Proof.
  intros ids year queries. subst ids year queries.
  rewrite run_buildSearchQueries. cbn [fst snd].
  set (year := getFullYear (clock w tick)).
  split; [reflexivity|]. split; [reflexivity|].
  split.
  { unfold venueIdsOf, nonEmptyList. destruct (venues b) as [[|v vs]|]; intros Hn;
      try reflexivity. exfalso. apply Hn. reflexivity. }
  split.
  { unfold venueIdsOf, nonEmptyList. intros vs Hn Hv. rewrite Hv in *.
    destruct vs; [discriminate Hn | reflexivity]. }
  split; [apply queriesOf_omap|].
  split.
  { unfold knownVenue, VENUE_DOMAINS, queryOfVenue. simpl. intros v Hv.
    repeat (destruct Hv as [<- | Hv]; [do 2 eexists; split; reflexivity|]).
    destruct Hv. }
  split.
  { intros v Hv. unfold queryOfVenue. rewrite (primaryDomain_unknown v Hv). reflexivity. }
  split.
  { intros Hall. rewrite queriesOf_omap. apply omap_length_known, Hall. }
  split; [reflexivity|].
  unfold queriesIn.
  split; [rewrite length_take; lia|].
  split.
  { apply (sublist_NoDup _ (uniqueBy (fun q => q) ∅ (queriesOf year (venueIdsOf b))));
      [|apply sublist_take].
    rewrite <- (map_id (uniqueBy (fun q => q) ∅ (queriesOf year (venueIdsOf b)))).
    apply (uniqueBy_NoDup (fun q : string => q)). }
  split; [etransitivity; [apply sublist_take | apply uniqueBy_sublist]|].
  intros i q. rewrite (uniqueBy_take_lookup (fun q : string => q)).
  split.
  - intros [Hi (l1 & l2 & E & Hl1 & Hsz)]. split; [exact Hi|].
    exists l1, l2. split; [exact E|]. split; [|exact Hsz].
    intros Hin. exact (Hl1 q Hin eq_refl).
  - intros [Hi (l1 & l2 & E & Hl1 & Hsz)]. split; [exact Hi|].
    exists l1, l2. split; [exact E|]. split; [|exact Hsz].
    intros y Hy ->. exact (Hl1 Hy).
Qed.

End QueryClaims.

(** A selection that names Barby twice, a venue without a domain, and
    Teder: two queries; and the default selection: the first six venues. *)
Lemma search_queries_witness :
  venueIdsOf Samples.mixedVenues = ["barby"; "liebling-haus"; "teder"; "barby"]
  /\ run SampleRuns.quietWorld 0
       (buildSearchQueries (H := RefRuntime.runtime) Samples.mixedVenues)
     = (["site:barby.co.il Tel Aviv events 2026"; "site:teder.fm Tel Aviv events 2026"],
        [EClock])
  /\ queryOfVenue 2026 "liebling-haus" = None
  /\ List.length (queriesOf 2026 (venueIdsOf Samples.anyVenue)) = 12%nat
  /\ List.length
       (fst (run SampleRuns.quietWorld 0
               (buildSearchQueries (H := RefRuntime.runtime) Samples.anyVenue)))
     = 6%nat.
Proof.
  destruct (@search_queries RefRuntime.runtime SampleRuns.quietWorld 0
              Samples.mixedVenues)
    as (Htrace & _ & _ & Hsel & _ & _ & Hunknown & _ & Hbuild & _).
  destruct (@search_queries RefRuntime.runtime SampleRuns.quietWorld 0
              Samples.anyVenue)
    as (_ & _ & Hdefault & _ & _ & _ & _ & Hknown & Hbuild' & _).
  split; [apply Hsel; reflexivity|].
  split.
  { rewrite (surjective_pairing (run _ _ _)), Htrace, Hbuild.
    vm_compute. reflexivity. }
  split.
  { apply (Hunknown "liebling-haus"). unfold knownVenue. simpl.
    intros Hv. repeat (destruct Hv as [Hv | Hv]; [discriminate Hv|]). destruct Hv. }
  split.
  { change 2026%Z with (getFullYear (H := RefRuntime.runtime)
                         (clock SampleRuns.quietWorld 0)).
    rewrite Hknown.
    - rewrite Hdefault; [reflexivity | discriminate].
    - rewrite Hdefault; [|discriminate]. apply Forall_forall. intros v Hv.
      apply list_elem_of_In. exact Hv. }
  rewrite Hbuild'. vm_compute. reflexivity.
Defined.

(** ** Digest Composer *)

Section DigestFacts.
Local Arguments String.append !_ _ / : simpl nomatch.




End DigestFacts.


(** ** Time values *)

Section TimeFacts.
Local Open Scope Z_scope.

Lemma DaysInYear_cases y : DaysInYear y = 365 \/ DaysInYear y = 366.
Proof.
  unfold DaysInYear.
  destruct (y mod 4 =? 0), (y mod 100 =? 0), (y mod 400 =? 0); simpl; auto.
Qed.

Lemma DayFromYear_succ y : DayFromYear (y + 1) = DayFromYear y + DaysInYear y.
Proof.
  unfold DayFromYear, DaysInYear.
  destruct (Z.eqb_spec (y mod 4) 0) as [H4|H4];
    destruct (Z.eqb_spec (y mod 100) 0) as [H100|H100];
    destruct (Z.eqb_spec (y mod 400) 0) as [H400|H400]; simpl;
    Z.div_mod_to_equations; lia.
Qed.

Lemma DayFromYear_mono a b : a <= b -> DayFromYear a <= DayFromYear b.
Proof.
  intros Hab. replace b with (a + (b - a)) by lia.
  assert (Hk : 0 <= b - a) by lia. revert Hk.
  generalize (b - a) as k. apply natlike_ind.
  - rewrite Z.add_0_r. lia.
  - intros k Hk IH. replace (a + Z.succ k) with ((a + k) + 1) by lia.
    rewrite DayFromYear_succ.
    destruct (DaysInYear_cases (a + k)); lia.
Qed.

Lemma yearOfDay_bounds d :
  DayFromYear (yearOfDay d) <= d < DayFromYear (yearOfDay d + 1).
Proof.
  unfold yearOfDay.
  set (y0 := 1970 + d * 400 / 146097).
  assert (Hlo : DayFromYear (y0 - 1) <= d).
  { subst y0. unfold DayFromYear. Z.div_mod_to_equations. lia. }
  assert (Hhi : d < DayFromYear (y0 + 2)).
  { subst y0. unfold DayFromYear. Z.div_mod_to_equations. lia. }
  destruct (Z.ltb_spec d (DayFromYear y0)) as [H1|H1].
  - replace (y0 - 1 + 1) with y0 by lia. lia.
  - destruct (Z.leb_spec (DayFromYear (y0 + 1)) d) as [H2|H2].
    + replace (y0 + 1 + 1) with (y0 + 2) by lia. lia.
    + lia.
Qed.

Lemma yearOfDay_unique d y :
  DayFromYear y <= d < DayFromYear (y + 1) -> yearOfDay d = y.
Proof.
  intros Hy. pose proof (yearOfDay_bounds d) as Hb.
  destruct (Z.lt_trichotomy (yearOfDay d) y) as [Hlt | [Heq | Hgt]]; [|exact Heq|].
  - pose proof (DayFromYear_mono (yearOfDay d + 1) y ltac:(lia)). lia.
  - pose proof (DayFromYear_mono (y + 1) (yearOfDay d) ltac:(lia)). lia.
Qed.


Lemma leapOf_cases y :
  (leapOf y = 0 /\ DaysInYear y = 365) \/ (leapOf y = 1 /\ DaysInYear y = 366).
Proof.
  unfold leapOf. destruct (DaysInYear_cases y) as [-> | ->]; simpl; auto.
Qed.

Lemma monthOfDayInYear_bounds dwy leap :
  0 <= leap <= 1 -> 0 <= dwy < 365 + leap ->
  let m := monthOfDayInYear dwy leap in
  0 <= m <= 11 /\ monthStart m leap <= dwy < monthStart (m + 1) leap.
Proof.
  intros Hl Hd. unfold monthOfDayInYear.
  repeat match goal with
         | |- context [?a <? ?b] => destruct (Z.ltb_spec a b)
         end; simpl; lia.
Qed.

Lemma monthOfDayInYear_unique dwy leap m :
  0 <= leap <= 1 -> 0 <= m <= 11 ->
  monthStart m leap <= dwy < monthStart (m + 1) leap ->
  monthOfDayInYear dwy leap = m.
Proof.
  intros Hl Hm Hd.
  assert (Hcases : m = 0 \/ m = 1 \/ m = 2 \/ m = 3 \/ m = 4 \/ m = 5 \/ m = 6
                   \/ m = 7 \/ m = 8 \/ m = 9 \/ m = 10 \/ m = 11) by lia.
  unfold monthOfDayInYear.
  repeat (destruct Hcases as [-> | Hcases]; [simpl in Hd;
    repeat match goal with
           | |- context [?a <? ?b] => destruct (Z.ltb_spec a b)
           end; lia|]).
  subst m. simpl in Hd.
  repeat match goal with
         | |- context [?a <? ?b] => destruct (Z.ltb_spec a b)
         end; lia.
Qed.

(** The calendar position of a time value. *)
Lemma calendar_position t :
  let y := YearFromTime t in
  let m := MonthFromTime t in
  let leap := InLeapYear t in
  0 <= leap <= 1
  /\ DayFromYear (y + 1) = DayFromYear y + 365 + leap
  /\ 0 <= m <= 11
  /\ DayFromYear y + monthStart m leap <= Day t
     < DayFromYear y + monthStart (m + 1) leap
  /\ DateFromTime t = Day t - (DayFromYear y + monthStart m leap) + 1.
Proof.
  intros y m leap.
  pose proof (yearOfDay_bounds (Day t)) as Hy. fold (YearFromTime t) in Hy. fold y in Hy.
  assert (Hleap : leap = leapOf y) by reflexivity.
  pose proof (DayFromYear_succ y) as Hs.
  destruct (leapOf_cases y) as [[Hl Hd] | [Hl Hd]]; rewrite Hl in Hleap;
    rewrite Hd in Hs.
  all: assert (Hdw : 0 <= DayWithinYear t < 365 + leap)
         by (unfold DayWithinYear; fold y; lia).
  all: pose proof (monthOfDayInYear_bounds (DayWithinYear t) leap ltac:(lia) Hdw) as Hm.
  all: fold (InLeapYear t) in Hm; change (monthOfDayInYear (DayWithinYear t) leap) with m in Hm.
  all: cbv zeta in Hm; unfold DateFromTime; fold m leap;
       unfold DayWithinYear in *; fold y in Hm |- *; repeat split; lia.
Qed.


Lemma time_split t :
  t = Day t * msPerDay + TimeWithinDay t /\ 0 <= TimeWithinDay t < msPerDay.
Proof. unfold Day, TimeWithinDay, msPerDay. Z.div_mod_to_equations. lia. Qed.

Lemma Day_MakeDate d r :
  0 <= r < msPerDay ->
  Day (MakeDate d r) = d /\ TimeWithinDay (MakeDate d r) = r.
Proof.
  unfold Day, TimeWithinDay, MakeDate, msPerDay. intros Hr.
  Z.div_mod_to_equations. lia.
Qed.

Lemma MakeDay_same_month t x :
  MakeDay (YearFromTime t) (MonthFromTime t) x = Day t - DateFromTime t + x.
Proof.
  destruct (calendar_position t) as (Hl & _ & Hm & _ & Hdate).
  unfold MakeDay. cbv zeta in *.
  replace (MonthFromTime t / 12) with 0 by (Z.div_mod_to_equations; lia).
  replace (MonthFromTime t mod 12) with (MonthFromTime t)
    by (Z.div_mod_to_equations; lia).
  replace (YearFromTime t + 0) with (YearFromTime t) by lia.
  fold (InLeapYear t). lia.
Qed.

Lemma MakeDay_month_end t :
  MakeDay (YearFromTime t) (MonthFromTime t + 1) 0
  = DayFromYear (YearFromTime t)
    + monthStart (MonthFromTime t + 1) (InLeapYear t) - 1.
Proof.
  destruct (calendar_position t) as (Hl & Hnext & Hm & _ & _).
  unfold MakeDay. cbv zeta in *.
  destruct (Z.eq_dec (MonthFromTime t) 11) as [E | NE].
  - rewrite E. change ((11 + 1) / 12) with 1. change ((11 + 1) mod 12) with 0.
    rewrite Hnext. simpl. lia.
  - replace ((MonthFromTime t + 1) / 12) with 0 by (Z.div_mod_to_equations; lia).
    replace ((MonthFromTime t + 1) mod 12) with (MonthFromTime t + 1)
      by (Z.div_mod_to_equations; lia).
    replace (YearFromTime t + 0) with (YearFromTime t) by lia.
    fold (InLeapYear t). lia.
Qed.

Lemma monthStart_step m leap :
  0 <= leap <= 1 -> 0 <= m <= 11 ->
  monthStart m leap + 28 <= monthStart (m + 1) leap <= monthStart m leap + 31
  /\ 0 <= monthStart m leap /\ monthStart (m + 1) leap <= 365 + leap.
Proof.
  intros Hl Hm.
  assert (Hcases : m = 0 \/ m = 1 \/ m = 2 \/ m = 3 \/ m = 4 \/ m = 5 \/ m = 6
                   \/ m = 7 \/ m = 8 \/ m = 9 \/ m = 10 \/ m = 11) by lia.
  repeat (destruct Hcases as [-> | Hcases]; [simpl; lia|]).
  subst m. simpl. lia.
Qed.

Lemma setUTCDate_shift t k :
  Z.abs (t + k * msPerDay) <= maxTime ->
  setUTCDate (Some t) (DateFromTime t + k) = Some (t + k * msPerDay).
Proof.
  intros Hclip. unfold setUTCDate. rewrite MakeDay_same_month.
  destruct (time_split t) as [Ht _].
  replace (MakeDate (Day t - DateFromTime t + (DateFromTime t + k)) (TimeWithinDay t))
    with (t + k * msPerDay) by (unfold MakeDate; lia).
  unfold TimeClip. destruct (Z.leb_spec (Z.abs (t + k * msPerDay)) maxTime); [reflexivity|lia].
Qed.

Lemma year_after_epoch t : 0 <= t -> 1970 <= YearFromTime t.
Proof.
  intros Ht. unfold YearFromTime.
  pose proof (yearOfDay_bounds (Day t)) as Hb.
  assert (Hd : 0 <= Day t) by (unfold Day, msPerDay; Z.div_mod_to_equations; lia).
  destruct (Z.le_gt_cases 1970 (yearOfDay (Day t))) as [H|H]; [exact H|].
  pose proof (DayFromYear_mono (yearOfDay (Day t) + 1) 1970 ltac:(lia)) as Hm.
  change (DayFromYear 1970) with 0 in Hm. lia.
Qed.

End TimeFacts.

(** ** Time Window Resolver *)

Section WindowFacts.
Local Open Scope Z_scope.

Lemma clockRange_clip now k :
  clockRange now -> 0 <= k <= 31 * msPerDay -> Z.abs (now + k) <= maxTime.
Proof. unfold clockRange, maxTime, msPerDay. lia. Qed.

Lemma TimeClip_in_range t : Z.abs t <= maxTime -> TimeClip t = Some t.
Proof.
  intros Ht. unfold TimeClip.
  destruct (Z.leb_spec (Z.abs t) maxTime); [reflexivity | lia].
Qed.

Lemma WeekDay_range t : 0 <= WeekDay t <= 6.
Proof. unfold WeekDay. Z.div_mod_to_equations. lia. Qed.

(** The end of the window This weekend. *)
Lemma windowEnd_weekend now :
  clockRange now ->
  exists e,
    windowEnd now "This weekend" = Some e
    /\ now <= e
    /\ WeekDay e = 0
    /\ TimeWithinDay e = endOfDay
    /\ Day e = Day now + (7 - WeekDay now) mod 7
    /\ 0 <= Day e - Day now <= 6.
Proof.
  intros Hrange. unfold windowEnd.
  change (String.eqb "This weekend" "This weekend") with true. cbv iota zeta.
  pose proof (WeekDay_range now) as Hwd.
  rewrite Z.rem_mod_nonneg by lia.
  set (k := (7 - WeekDay now) mod 7).
  assert (Hk : 0 <= k <= 6) by (subst k; Z.div_mod_to_equations; lia).
  destruct (time_split now) as [Hsplit Htw].
  rewrite setUTCDate_shift
    by (apply clockRange_clip; [exact Hrange | unfold msPerDay; lia]).
  unfold setUTCHours.
  assert (Hday : Day (now + k * msPerDay) = Day now + k).
  { unfold Day, msPerDay in *. Z.div_mod_to_equations. lia. }
  rewrite Hday.
  assert (Hend : 0 <= endOfDay < msPerDay) by (unfold endOfDay, MakeTime, msPerDay; lia).
  destruct (Day_MakeDate (Day now + k) endOfDay Hend) as [Hd Ht].
  fold endOfDay.
  assert (Hle : now <= MakeDate (Day now + k) endOfDay)
    by (unfold MakeDate, endOfDay, MakeTime, msPerDay in *; lia).
  assert (Hmax : MakeDate (Day now + k) endOfDay <= now + 7 * msPerDay)
    by (unfold MakeDate, endOfDay, MakeTime, msPerDay in *; lia).
  rewrite TimeClip_in_range
    by (unfold clockRange, maxTime, msPerDay in *; lia).
  eexists. split; [reflexivity|].
  split; [exact Hle|]. split.
  { unfold WeekDay in *. rewrite Hd. subst k. Z.div_mod_to_equations. lia. }
  split; [exact Ht|]. split; [exact Hd|]. rewrite Hd. lia.
Qed.

(** The end of the default window: the last instant of the month. *)
Lemma windowEnd_month now normalized :
  clockRange now ->
  String.eqb normalized "This weekend" = false ->
  String.eqb normalized "Next 7 days" = false ->
  String.eqb normalized "Next 2 weeks" = false ->
  exists e,
    windowEnd now normalized = Some e
    /\ now <= e
    /\ TimeWithinDay e = endOfDay
    /\ YearFromTime e = YearFromTime now
    /\ MonthFromTime e = MonthFromTime now
    /\ (YearFromTime (e + 1) <> YearFromTime now
        \/ MonthFromTime (e + 1) <> MonthFromTime now).
Proof.
  intros Hrange H1 H2 H3. unfold windowEnd. rewrite H1, H2, H3. cbv zeta.
  assert (Hy : 1970 <= YearFromTime now)
    by (apply year_after_epoch; unfold clockRange in Hrange; lia).
  unfold Date_UTC.
  replace ((0 <=? YearFromTime now) && (YearFromTime now <=? 99)) with false
    by (symmetry; apply andb_false_iff; right; apply Z.leb_gt; lia).
  rewrite MakeDay_month_end. fold endOfDay.
  destruct (calendar_position now) as (Hl & Hnext & Hm & Hpos & _).
  cbv zeta in *.
  set (y := YearFromTime now) in *. set (m := MonthFromTime now) in *.
  set (leap := InLeapYear now) in *.
  destruct (monthStart_step m leap Hl Hm) as (Hstep & Hms & Hlast).
  set (last := DayFromYear y + monthStart (m + 1) leap - 1).
  assert (Hend : 0 <= endOfDay < msPerDay) by (unfold endOfDay, MakeTime, msPerDay; lia).
  destruct (Day_MakeDate last endOfDay Hend) as [Hd Ht].
  destruct (time_split now) as [Hsplit Htw].
  assert (Hle : now <= MakeDate last endOfDay)
    by (subst last; unfold MakeDate, endOfDay, MakeTime, msPerDay in *; lia).
  assert (Hmax : MakeDate last endOfDay <= now + 31 * msPerDay)
    by (subst last; unfold MakeDate, endOfDay, MakeTime, msPerDay in *; lia).
  rewrite TimeClip_in_range
    by (unfold clockRange, maxTime, msPerDay in *; lia).
  eexists. split; [reflexivity|]. split; [exact Hle|]. split; [exact Ht|].
  assert (Hyear : YearFromTime (MakeDate last endOfDay) = y).
  { unfold YearFromTime. rewrite Hd. apply yearOfDay_unique. subst last. lia. }
  assert (Hleap : InLeapYear (MakeDate last endOfDay) = leap).
  { unfold InLeapYear. rewrite Hyear. reflexivity. }
  split; [exact Hyear|]. split.
  { unfold MonthFromTime, DayWithinYear. rewrite Hleap, Hyear, Hd.
    apply monthOfDayInYear_unique; [exact Hl | exact Hm | subst last; lia]. }
  assert (Hd1 : Day (MakeDate last endOfDay + 1) = last + 1).
  { unfold Day, MakeDate, endOfDay, MakeTime, msPerDay. Z.div_mod_to_equations. lia. }
  destruct (Z.eq_dec m 11) as [E | NE].
  - left. unfold YearFromTime at 1. rewrite Hd1.
    rewrite (yearOfDay_unique (last + 1) (y + 1)); [lia|].
    subst last. rewrite E in *. simpl monthStart in *.
    pose proof (DayFromYear_succ (y + 1)) as Hs.
    destruct (DaysInYear_cases (y + 1)); lia.
  - right.
    assert (Hyear1 : YearFromTime (MakeDate last endOfDay + 1) = y).
    { unfold YearFromTime. rewrite Hd1. apply yearOfDay_unique. subst last.
      destruct (monthStart_step (m + 1) leap Hl ltac:(lia)) as (Hstep' & _ & Hlast').
      lia. }
    assert (Hleap1 : InLeapYear (MakeDate last endOfDay + 1) = leap).
    { unfold InLeapYear. rewrite Hyear1. reflexivity. }
    unfold MonthFromTime at 1, DayWithinYear. rewrite Hleap1, Hyear1, Hd1.
    rewrite (monthOfDayInYear_unique _ leap (m + 1)); [lia | exact Hl | lia |].
    subst last. destruct (monthStart_step (m + 1) leap Hl ltac:(lia)) as (Hstep' & _).
    lia.
Qed.

Lemma windowEnd_days now normalized k :
  clockRange now -> 0 <= k <= 14 ->
  ((normalized = "Next 7 days" /\ k = 7) \/ (normalized = "Next 2 weeks" /\ k = 14)) ->
  windowEnd now normalized = Some (now + k * msPerDay).
Proof.
  intros Hrange Hk Hcase. unfold windowEnd.
  destruct Hcase as [[-> ->] | [-> ->]]; cbn [String.eqb Ascii.eqb Bool.eqb];
    cbv iota; apply setUTCDate_shift, clockRange_clip;
    try exact Hrange; unfold msPerDay; lia.
Qed.

End WindowFacts.

(** C6.  The Time Window Resolver, for a clock reading [now] between the
    epoch and 31 days before the last representable instant, and every
    [eventWindow] string.  The resolver returns a window whose start is
    [now] itself and whose end [e] is not before it.  For This weekend, [e]
    is the last millisecond (23:59:59.999 UTC) of the first Sunday that is
    not before today, today itself when [now] is a Sunday.  For any string
    other than the three recognised windows (This month, the empty string
    and unknown values alike) the resolver does not fail, and [e] is the
    last millisecond of the calendar month of [now]: same year and month as
    [now], end of the day, and the next millisecond lies in another
    month. *)
Theorem time_window (now : Z) (eventWindow : string) :
  clockRange now ->
  exists e description,
    getTimeWindowRange now eventWindow
    = Some (mkWindow (Some now) (Some e) description)
    /\ (now <= e)%Z
    /\ (eventWindow = "This weekend" ->
        WeekDay e = 0%Z /\ TimeWithinDay e = endOfDay
        /\ (0 <= Day e - Day now <= 6)%Z
        /\ (WeekDay now = 0%Z -> Day e = Day now))
    /\ (eventWindow = "Next 7 days" -> e = (now + 7 * msPerDay)%Z)
    /\ (eventWindow = "Next 2 weeks" -> e = (now + 14 * msPerDay)%Z)
    /\ (eventWindow <> "This weekend" ->
        eventWindow <> "Next 7 days" ->
        eventWindow <> "Next 2 weeks" ->
        TimeWithinDay e = endOfDay
        /\ YearFromTime e = YearFromTime now
        /\ MonthFromTime e = MonthFromTime now
        /\ (YearFromTime (e + 1) <> YearFromTime now
            \/ MonthFromTime (e + 1) <> MonthFromTime now)).
Proof.
  intros Hrange. unfold getTimeWindowRange. cbv zeta.
  destruct (String.eqb_spec eventWindow "This weekend") as [-> | N1].
  { destruct (windowEnd_weekend now Hrange) as (e & He & Hle & Hwd & Htw & Hday & Hdiff).
    cbn [truthy]. rewrite He. exists e. eexists. split; [reflexivity|].
    split; [exact Hle|]. split.
    - intros _. repeat split; try assumption; try lia.
      intros Hsun. rewrite Hday, Hsun. change ((7 - 0) mod 7)%Z with 0%Z. lia.
    - repeat split; intros; try discriminate; congruence. }
  destruct (String.eqb_spec eventWindow "Next 7 days") as [-> | N2].
  { cbn [truthy].
    rewrite (windowEnd_days now "Next 7 days" 7 Hrange ltac:(lia) ltac:(auto)).
    eexists. eexists. split; [reflexivity|].
    split; [unfold msPerDay; lia|].
    repeat split; intros; try discriminate; try congruence. }
  destruct (String.eqb_spec eventWindow "Next 2 weeks") as [-> | N3].
  { cbn [truthy].
    rewrite (windowEnd_days now "Next 2 weeks" 14 Hrange ltac:(lia) ltac:(auto)).
    eexists. eexists. split; [reflexivity|].
    split; [unfold msPerDay; lia|].
    repeat split; intros; try discriminate; try congruence. }
  set (normalized := if truthy eventWindow then eventWindow else "This month").
  assert (Hn : String.eqb normalized "This weekend" = false
               /\ String.eqb normalized "Next 7 days" = false
               /\ String.eqb normalized "Next 2 weeks" = false).
  { subst normalized. destruct (truthy eventWindow).
    - repeat split; apply String.eqb_neq; assumption.
    - repeat split; reflexivity. }
  destruct Hn as (H1 & H2 & H3).
  destruct (windowEnd_month now normalized Hrange H1 H2 H3)
    as (e & He & Hle & Htw & Hy & Hm & Hnext).
  rewrite He. exists e. eexists. split; [reflexivity|].
  split; [exact Hle|].
  repeat split; try contradiction; try assumption.
Qed.

(** The sample clock, a Monday noon in November 2026: the weekend window
    ends on Sunday 8 November, an unknown window on 30 November. *)
Lemma time_window_witness :
  (exists e description,
      getTimeWindowRange Samples.now "This weekend"
      = Some (mkWindow (Some Samples.now) (Some e) description)
      /\ (Samples.now <= e)%Z /\ WeekDay e = 0%Z)
  /\ (exists e description,
        getTimeWindowRange Samples.now "Someday"
        = Some (mkWindow (Some Samples.now) (Some e) description)
        /\ (Samples.now <= e)%Z
        /\ MonthFromTime e = MonthFromTime Samples.now
        /\ TimeWithinDay e = endOfDay).
Proof.
  assert (Hrange : clockRange Samples.now) by (vm_compute; split; discriminate).
  split.
  - destruct (time_window Samples.now "This weekend" Hrange)
      as (e & d & Hget & Hle & Hweekend & _).
    exists e, d. split; [exact Hget|]. split; [exact Hle|].
    apply Hweekend. reflexivity.
  - destruct (time_window Samples.now "Someday" Hrange)
      as (e & d & Hget & Hle & _ & _ & _ & Hmonth).
    exists e, d. split; [exact Hget|]. split; [exact Hle|].
    destruct (Hmonth ltac:(discriminate) ltac:(discriminate) ltac:(discriminate))
      as (Htw & _ & Hm & _).
    split; assumption.
Defined.

(** * Further properties of the pipeline *)

(** ** URL extraction *)

Section ExtractFacts.
Local Arguments String.append !_ _ / : simpl nomatch.

Lemma prefix_split (p s : string) :
  String.prefix p s = true -> s = p +:+ sliceFrom (String.length p) s.
Proof.
  revert s. induction p as [|c p IH]; intros s.
  - intros _. destruct s; reflexivity.
  - destruct s as [|d s]; [discriminate|].
    cbn [String.prefix String.length sliceFrom String.append]. intros Hp.
    destruct (Ascii.ascii_dec c d) as [<- | _]; [|discriminate Hp].
    f_equal. apply IH, Hp.
Qed.

Lemma spaceLen_prefix_zero (p r : string) :
  spaceLen (p +:+ r) = 0%nat -> spaceLen p = 0%nat.
Proof.
  intros E. destruct (spaceLen p) as [|k] eqn:Ek; [reflexivity|].
  rewrite (spaceLen_append p r k Ek) in E. discriminate E.
Qed.

Lemma urlCharAt_prefix (c : ascii) (p r : string) :
  urlCharAt (String c p +:+ r) = true -> urlCharAt (String c p) = true.
Proof.
  cbn [String.append]. unfold urlCharAt.
  destruct (spaceLen (String c (p +:+ r))) as [|k] eqn:E.
  - change (String c (p +:+ r)) with (String c p +:+ r) in E.
    rewrite (spaceLen_prefix_zero _ _ E). auto.
  - cbn [Nat.ltb Nat.leb orb negb]. discriminate.
Qed.

Lemma takeUrlChars_split (s : string) :
  exists post,
    s = takeUrlChars s +:+ post
    /\ allUrlChars (takeUrlChars s) = true
    /\ stopsUrl post = true.
Proof.
  induction s as [|c s (post & Hs & Hall & Hstop)].
  - exists EmptyString. auto.
  - cbn [takeUrlChars]. destruct (urlCharAt (String c s)) eqn:Hc.
    + exists post. cbn [String.append allUrlChars]. rewrite Hall.
      split; [f_equal; exact Hs|]. split; [|exact Hstop].
      rewrite andb_true_r. rewrite Hs in Hc. apply (urlCharAt_prefix c _ post), Hc.
    + exists (String c s). unfold stopsUrl. rewrite Hc. auto.
Qed.

(** A match at the start of a text: its shape and what follows it. *)
Lemma matchUrlAt_shape (s m : string) :
  matchUrlAt s = Some m ->
  exists body post,
    s = m +:+ post
    /\ (m = "http://" +:+ body \/ m = "https://" +:+ body)
    /\ truthy body = true /\ allUrlChars body = true /\ stopsUrl post = true.
Proof.
  unfold matchUrlAt, startsWith.
  destruct (String.prefix "https://" s) eqn:Hs.
  - apply prefix_split in Hs. cbn [String.length] in Hs.
    destruct (takeUrlChars_split (sliceFrom 8 s)) as (post & Hrest & Hall & Hstop).
    destruct (takeUrlChars (sliceFrom 8 s)) as [|c body] eqn:Hbody; [discriminate|].
    intros [= <-]. exists (String c body), post.
    split; [|auto].
    rewrite Hs at 1. rewrite Hrest. rewrite <- append_assoc. reflexivity.
  - destruct (String.prefix "http://" s) eqn:Hp; [|discriminate].
    apply prefix_split in Hp. cbn [String.length] in Hp.
    destruct (takeUrlChars_split (sliceFrom 7 s)) as (post & Hrest & Hall & Hstop).
    destruct (takeUrlChars (sliceFrom 7 s)) as [|c body] eqn:Hbody; [discriminate|].
    intros [= <-]. exists (String c body), post.
    split; [|auto].
    rewrite Hp at 1. rewrite Hrest. rewrite <- append_assoc. reflexivity.
Qed.

Lemma scanUrls_occurs (s : string) :
  forall skip m,
    In m (scanUrls skip s) ->
    exists pre tail, s = pre +:+ tail /\ matchUrlAt tail = Some m.
Proof.
  induction s as [|c s IH]; intros skip m; simpl; [intros []|].
  destruct skip as [|k].
  - destruct (matchUrlAt (String c s)) as [m'|] eqn:Hm.
    + intros [<- | Hin].
      * exists EmptyString, (String c s). auto.
      * destruct (IH _ _ Hin) as (pre & tail & -> & Ht).
        exists (String c pre), tail. auto.
    + intros Hin. destruct (IH _ _ Hin) as (pre & tail & -> & Ht).
      exists (String c pre), tail. auto.
  - intros Hin. destruct (IH _ _ Hin) as (pre & tail & -> & Ht).
    exists (String c pre), tail. auto.
Qed.

End ExtractFacts.

(** X1.  URL extraction.  The extracted list has no repetition.  Each
    extracted URL occurs in the text, is http:// or https:// followed by at
    least one character, holds after the scheme no white space, closing
    parenthesis, bracket, brace, angle or quote, and is as long as possible:
    the text ends after it or goes on with such a character.  A match at the
    very start of the text is always extracted. *)
Theorem extractUrls_sound (text : string) :
  NoDup (extractUrls text)
  /\ (forall u, In u (extractUrls text) ->
        exists pre body post,
          text = pre +:+ u +:+ post
          /\ (u = "http://" +:+ body \/ u = "https://" +:+ body)
          /\ truthy body = true /\ allUrlChars body = true
          /\ stopsUrl post = true)
  /\ (forall m, matchUrlAt text = Some m -> In m (extractUrls text)).
Proof.
  unfold extractUrls. split; [|split].
  - rewrite <- (map_id (uniqueBy (fun u => u) ∅ (scanUrls 0 text))).
    apply (uniqueBy_NoDup (fun u : string => u)).
  - intros u Hin.
    apply list_elem_of_In in Hin.
    apply (fun h => elem_of_sublist _ _ _ h (uniqueBy_sublist _ _ _)) in Hin.
    apply list_elem_of_In, scanUrls_occurs in Hin as (pre & tail & -> & Hm).
    apply matchUrlAt_shape in Hm as (body & post & -> & Hshape & Hrest).
    exists pre, body, post. auto.
  - intros m Hm. apply list_elem_of_In.
    destruct text as [|c text]; [discriminate|].
    cbn [scanUrls]. rewrite Hm. cbn [uniqueBy].
    rewrite bool_decide_eq_false_2 by set_solver. left.
Qed.

(** The address in the text of the sample page: it is extracted, and it
    stops before the blank that follows it. *)
Lemma extractUrls_sound_witness :
  exists pre body post,
    markdown Samples.doc = pre +:+ "https://barby.co.il/events/jazz-night" +:+ post
    /\ ("https://barby.co.il/events/jazz-night" = "http://" +:+ body
        \/ "https://barby.co.il/events/jazz-night" = "https://" +:+ body)
    /\ truthy body = true /\ allUrlChars body = true /\ stopsUrl post = true.
Proof.
  destruct (extractUrls_sound (markdown Samples.doc)) as (_ & Hsound & _).
  apply Hsound. vm_compute. left. reflexivity.
Defined.

(** ** Grounding Index *)

Section AllowListFacts.
Context `{Runtime}.

Lemma addHost_elem (hs : gset string) (u h : string) :
  h ∈ addHost hs u <-> h ∈ hs \/ URL_host u = Some h.
Proof.
  unfold addHost. destruct (URL_host u) as [h'|].
  - rewrite elem_of_union, elem_of_singleton. split.
    + intros [-> | Hin]; auto.
    + intros [Hin | [= ->]]; auto.
  - split; [auto | intros [Hin | [=]]; exact Hin].
Qed.

Lemma addUrls_elem (us : list string) (acc : AllowList) :
  let r := fold_left
             (fun a u => mkAllow ({[ u ]} ∪ urls a) (addHost (hosts a) u)) us acc in
  (forall x, x ∈ urls r <-> x ∈ urls acc \/ In x us)
  /\ (forall h, h ∈ hosts r <->
                h ∈ hosts acc \/ exists u, In u us /\ URL_host u = Some h).
Proof.
  revert acc. induction us as [|u us IH]; intros acc; simpl.
  - split; intros x; split; auto.
    + intros [Hx | []]. exact Hx.
    + intros [Hx | (u & [] & _)]. exact Hx.
  - destruct (IH (mkAllow ({[ u ]} ∪ urls acc) (addHost (hosts acc) u))) as [Hu Hh].
    cbv zeta in Hu, Hh. split.
    + intros x. rewrite Hu. cbn [urls]. rewrite elem_of_union, elem_of_singleton.
      split; [intros [[-> | Hx] | Hx] | intros [Hx | [-> | Hx]]]; auto.
    + intros h. rewrite Hh. cbn [hosts]. rewrite addHost_elem. split.
      * intros [[Hx | Hx] | (v & Hv & Hx)]; eauto.
      * intros [Hx | (v & [<- | Hv] & Hx)]; eauto.
Qed.

Lemma buildAllowedUrlSets_from (sources : list SourceDoc) (acc : AllowList) :
  let r := fold_left
             (fun acc s =>
                let acc1 :=
                  mkAllow ({[ url s ]} ∪ urls acc) (addHost (hosts acc) (url s)) in
                fold_left
                  (fun a u => mkAllow ({[ u ]} ∪ urls a) (addHost (hosts a) u))
                  (extractUrls (markdown s)) acc1)
             sources acc in
  (forall x, x ∈ urls r <->
             x ∈ urls acc
             \/ exists s, In s sources /\ (x = url s \/ In x (extractUrls (markdown s))))
  /\ (forall h, h ∈ hosts r <->
                h ∈ hosts acc
                \/ exists s u, In s sources
                               /\ (u = url s \/ In u (extractUrls (markdown s)))
                               /\ URL_host u = Some h).
Proof.
  revert acc. induction sources as [|s sources IH]; intros acc; simpl.
  - split; intros x; split; auto.
    + intros [Hx | (s & [] & _)]. exact Hx.
    + intros [Hx | (s & u & [] & _)]. exact Hx.
  - set (acc1 := mkAllow ({[ url s ]} ∪ urls acc) (addHost (hosts acc) (url s))).
    set (acc2 := fold_left _ (extractUrls (markdown s)) acc1).
    destruct (IH acc2) as [Hu Hh]. cbv zeta in Hu, Hh.
    destruct (addUrls_elem (extractUrls (markdown s)) acc1) as [Hu1 Hh1].
    cbv zeta in Hu1, Hh1. fold acc2 in Hu1, Hh1. split.
    + intros x. rewrite Hu, Hu1. subst acc1. cbn [urls].
      rewrite elem_of_union, elem_of_singleton. split.
      * intros [[[-> | Hx] | Hx] | (s' & Hs' & Hx)]; eauto 6.
      * intros [Hx | (s' & [<- | Hs'] & [-> | Hx])]; eauto 6.
    + intros h. rewrite Hh, Hh1. subst acc1. cbn [hosts]. rewrite addHost_elem.
      split.
      * intros [[[Hx | Hx] | (u & Hu' & Hx)] | (s' & u & Hs' & Hu' & Hx)]; eauto 8.
      * intros [Hx | (s' & u & [<- | Hs'] & [-> | Hu'] & Hx)]; eauto 8.
Qed.

Lemma allowList_urls (sources : list SourceDoc) (x : string) :
  x ∈ urls (buildAllowedUrlSets sources) <-> exists s, In s sources /\ mentionedBy s x.
Proof.
  destruct (buildAllowedUrlSets_from sources (mkAllow ∅ ∅)) as [Hu _].
  cbv zeta in Hu. fold (buildAllowedUrlSets sources) in Hu.
  rewrite Hu. cbn [urls]. unfold mentionedBy.
  split; [intros [Hx | Hx] | auto]; [set_solver | exact Hx].
Qed.

Lemma allowList_hosts (sources : list SourceDoc) (h : string) :
  h ∈ hosts (buildAllowedUrlSets sources) <->
  exists s u, In s sources /\ mentionedBy s u /\ URL_host u = Some h.
Proof.
  destruct (buildAllowedUrlSets_from sources (mkAllow ∅ ∅)) as [_ Hh].
  cbv zeta in Hh. fold (buildAllowedUrlSets sources) in Hh.
  rewrite Hh. cbn [hosts]. unfold mentionedBy.
  split; [intros [Hx | Hx] | auto]; [set_solver | exact Hx].
Qed.

(** X2.  The allow-list of a set of documents.  A string is an allowed URL
    exactly when it is the URL of a document or is extracted from the text
    of one; a string is an allowed host exactly when it is the host of an
    allowed URL that parses.  URLs that do not parse add no host and
    nothing else is lost or added. *)
Theorem buildAllowedUrlSets_members (sources : list SourceDoc) :
  let allow := buildAllowedUrlSets sources in
  (forall x, x ∈ urls allow <->
             exists s, In s sources /\ (x = url s \/ In x (extractUrls (markdown s))))
  /\ (forall h, h ∈ hosts allow <->
                exists u, u ∈ urls allow /\ URL_host u = Some h).
Proof.
  intros allow. subst allow. split.
  - intros x. apply allowList_urls.
  - intros h. rewrite allowList_hosts. split.
    + intros (s & u & Hs & Hu & Hparse). exists u.
      split; [apply allowList_urls; eauto | exact Hparse].
    + intros (u & (s & Hs & Hu)%allowList_urls & Hparse). eauto.
Qed.

End AllowListFacts.

(** ** Validated events *)

Section ValidatedFacts.
Context `{Runtime}.

Lemma trim_clean (s : string) : truthy (trim s) = true -> cleanString (trim s).
Proof. intros Ht. split; [exact Ht | apply trim_idempotent]. Qed.

Lemma stringArrayField_clean (v : option JSON) :
  Forall cleanString (stringArrayField v).
Proof.
  unfold stringArrayField. destruct v as [[]|]; try constructor.
  apply Forall_forall. intros g Hg.
  apply list_elem_of_In, filter_In in Hg as [Hg Ht].
  apply in_map_iff in Hg as (g' & <- & _). apply trim_clean, Ht.
Qed.

Lemma accepted_wellFormed (opts : ValidateOpts) (item : JSON) :
  accepted opts item = true -> wellFormedEvent (eventOf item).
Proof.
  unfold accepted, fieldsPresent. intros Hacc.
  repeat (apply andb_true_iff in Hacc as [Hacc ?]).
  unfold wellFormedEvent, eventOf in *. cbn [event_name date venue event_url
                                             ev_artists ev_genres] in *.
  assert (Hfield : forall k, truthy (stringField (getProp item k)) = true ->
                             cleanString (stringField (getProp item k))).
  { intros k. unfold stringField. destruct (getProp item k) as [[]|]; try discriminate.
    apply trim_clean. }
  repeat split; try (apply Hfield; assumption); try apply stringArrayField_clean;
    try (apply Hfield; assumption).
  all: try (destruct (Hfield _ ltac:(eassumption)); assumption).
Qed.

Lemma validated_origin (raw : JSON) (opts : ValidateOpts) (e : Event) :
  In e (validateAndFilterEvents raw opts) ->
  exists item, accepted opts item = true /\ e = eventOf item.
Proof.
  intros He.
  destruct raw as [| | | |items|]; try (destruct He; fail).
  apply list_elem_of_In, validate_origin in He as (item & _ & Hacc & ->). eauto.
Qed.

Lemma validated_shape (raw : JSON) (opts : ValidateOpts) :
  (List.length (validateAndFilterEvents raw opts) <= 10)%nat
  /\ NoDup (List.map event_url (validateAndFilterEvents raw opts)).
Proof.
  destruct raw as [| | | |items|]; try (split; [cbn; lia | constructor]).
  rewrite validate_unfold. split.
  - rewrite length_take. lia.
  - rewrite <- firstn_map.
    apply (sublist_NoDup _ (List.map event_url
                              (uniqueBy event_url ∅
                                 (omap (validateCandidate opts) items))));
      [apply uniqueBy_NoDup | apply sublist_take].
Qed.

(** X3.  The guarantees of a validated event.  Every event that the
    validator returns has a non-empty name, date, venue and address, none
    with surrounding white space, and its artists and genres are non-empty
    strings without surrounding white space. *)
Theorem validated_events_wellFormed (raw : JSON) (opts : ValidateOpts) :
  Forall wellFormedEvent (validateAndFilterEvents raw opts).
Proof.
  apply Forall_forall. intros e (item & Hacc & ->)%list_elem_of_In%validated_origin.
  apply (accepted_wellFormed opts), Hacc.
Qed.

Lemma onlyStrings_JStr (gs : list string) : onlyStrings (List.map JStr gs) = gs.
Proof.
  unfold onlyStrings. induction gs as [|g gs IH]; [reflexivity|].
  cbn [List.map]. change (omap ?f (JStr g :: ?l)) with (g :: omap f l).
  f_equal. exact IH.
Qed.

Lemma clean_list_fixed (gs : list string) :
  Forall cleanString gs -> List.filter truthy (List.map trim gs) = gs.
Proof.
  induction 1 as [|g gs [Ht Hc] _ IH]; [reflexivity|].
  cbn [List.map List.filter]. rewrite Hc, Ht, IH. reflexivity.
Qed.

(** Reading back a well-formed event gives the event itself. *)
Lemma eventOf_eventToJSON (e : Event) :
  wellFormedEvent e -> eventOf (eventToJSON e) = e.
Proof.
  intros ([_ Hn] & [_ Hd] & [_ Hv] & [_ Hu] & Ha & Hg).
  destruct e as [n a g d v u]. unfold eventOf, eventToJSON.
  cbn [event_name ev_artists ev_genres date venue event_url] in *.
  cbn [getProp lookupLast String.eqb Ascii.eqb Bool.eqb stringField stringArrayField].
  rewrite !onlyStrings_JStr, Hn, Hd, Hv, Hu, (clean_list_fixed a Ha),
    (clean_list_fixed g Hg).
  reflexivity.
Qed.

Lemma accepted_eventToJSON (opts : ValidateOpts) (item : JSON) :
  accepted opts item = true -> accepted opts (eventToJSON (eventOf item)) = true.
Proof.
  intros Hacc.
  pose proof (eventOf_eventToJSON _ (accepted_wellFormed opts item Hacc)) as Hback.
  unfold accepted, fieldsPresent, dateInWindow, grounded, genreAccepted in *.
  rewrite Hback.
  change (notAnObject (eventToJSON (eventOf item))) with false.
  destruct (notAnObject item); [discriminate Hacc | exact Hacc].
Qed.

(** X4.  Validation is idempotent.  When the events that the validator
    returned are handed to it again, as the objects it emitted and under
    the same options, it returns exactly the same list: nothing is
    re-trimmed, re-judged, dropped or reordered. *)
Theorem validation_idempotent (raw : JSON) (opts : ValidateOpts) :
  let out := validateAndFilterEvents raw opts in
  validateAndFilterEvents (JArr (List.map eventToJSON out)) opts = out.
Proof.
  intros out.
  assert (Hall : Forall (fun e => exists item,
                             accepted opts item = true /\ e = eventOf item) out).
  { apply Forall_forall. intros e He%list_elem_of_In.
    apply (validated_origin raw opts e He). }
  destruct (validated_shape raw opts) as [Hlen Hnd]. fold out in Hlen, Hnd.
  rewrite validate_unfold.
  assert (Hmap : omap (validateCandidate opts) (List.map eventToJSON out) = out).
  { clear Hnd Hlen. induction Hall as [|e out (item & Hacc & ->) _ IH]; [reflexivity|].
    cbn [List.map].
    change (omap ?f (?x :: ?l))
      with (match f x with Some y => y :: omap f l | None => omap f l end).
    rewrite validateCandidate_steps, (accepted_eventToJSON opts item Hacc).
    rewrite (eventOf_eventToJSON _ (accepted_wellFormed opts item Hacc)).
    f_equal. exact IH. }
  rewrite Hmap, uniqueBy_distinct.
  - apply firstn_all2. exact Hlen.
  - exact Hnd.
  - intros x _. set_solver.
Qed.

Lemma omap_app_validate (opts : ValidateOpts) (l1 l2 : list JSON) :
  omap (validateCandidate opts) (l1 ++ l2)%list
  = (omap (validateCandidate opts) l1 ++ omap (validateCandidate opts) l2)%list.
Proof.
  induction l1 as [|x l1 IH]; [reflexivity|].
  cbn [app].
  change (omap ?f (?x :: ?l))
    with (match f x with Some y => y :: omap f l | None => omap f l end).
  rewrite IH. destruct (validateCandidate opts x); reflexivity.
Qed.

(** X5.  A bad candidate never affects the others.  An element of the
    model's array that is no object with fields (null, a boolean, a number,
    a string, an array) is rejected, and removing any rejected element from
    the array, wherever it stands, leaves the validator's result
    unchanged. *)
Theorem rejected_candidates_are_inert (opts : ValidateOpts) :
  (forall item,
      match item with JObj _ => False | _ => True end ->
      validateCandidate opts item = None)
  /\ (forall before bad after,
        validateCandidate opts bad = None ->
        validateAndFilterEvents (JArr (before ++ bad :: after)%list) opts
        = validateAndFilterEvents (JArr (before ++ after)%list) opts).
Proof.
  split.
  - intros item Hitem. destruct item; try reflexivity; try contradiction.
  - intros before bad after Hbad.
    rewrite !validate_unfold, !omap_app_validate.
    change (omap ?f (bad :: ?l))
      with (match f bad with Some y => y :: omap f l | None => omap f l end).
    rewrite Hbad. reflexivity.
Qed.

End ValidatedFacts.

(** ** The search stage *)

Section GatherFacts.
Context `{Runtime}.

Lemma ticksOf_searchTrace (w : World) (query : string) :
  ticksOf (searchTrace w query) = 0%nat.
Proof.
  unfold searchTrace. destruct (negb (truthyOpt (env w "FIRECRAWL_API_KEY"))); reflexivity.
Qed.

Lemma run_firecrawlSearch (w : World) (tick : nat) (query : string) :
  run w tick (firecrawlSearch query) = (searchDocs w query, searchTrace w query).
Proof.
  unfold firecrawlSearch, searchDocs, searchTrace. cbn [bind run].
  destruct (negb (truthyOpt (env w "FIRECRAWL_API_KEY"))); [reflexivity|].
  cbn [bind run].
  destruct (search w query) as [|st data]; [reflexivity|].
  destruct (negb (statusOk st)); reflexivity.
Qed.


Lemma run_mapProg (w : World) (tick : nat) (queries : list string) :
  run w tick (mapProg firecrawlSearch queries)
  = (List.map (searchDocs w) queries, concat (List.map (searchTrace w) queries)).
Proof.
  induction queries as [|query queries IH]; [reflexivity|].
  cbn [mapProg]. rewrite run_bind, run_firecrawlSearch, ticksOf_searchTrace, Nat.add_0_r.
  rewrite run_bind, IH. cbn [run List.map concat]. rewrite app_nil_r. reflexivity.
Qed.

Lemma run_gatherSources (w : World) (tick : nat) (b : Brief) :
  let queries := queriesIn (getFullYear (clock w tick)) b in
  run w tick (gatherSources b)
  = (take 8 (uniqueBy url ∅ (concat (List.map (searchDocs w) queries))),
     EClock :: concat (List.map (searchTrace w) queries)).
Proof.
  intros queries. unfold gatherSources.
  rewrite run_bind, run_buildSearchQueries. fold queries.
  destruct queries as [|query queries]; [reflexivity|].
  rewrite run_bind, run_mapProg. cbn [run]. rewrite app_nil_r. reflexivity.
Qed.

Lemma searchDocs_fromProvider (w : World) (query : string) (s : SourceDoc) :
  In s (searchDocs w query) ->
  truthyOpt (env w "FIRECRAWL_API_KEY") = true /\ fromProvider w query s.
Proof.
  unfold searchDocs, fromProvider.
  destruct (truthyOpt (env w "FIRECRAWL_API_KEY")); cbn [negb]; [|intros []].
  destruct (search w query) as [|st data]; [intros []|].
  destruct (statusOk st) eqn:Hok; cbn [negb]; [|intros []].
  destruct data as [items|]; [|intros []].
  intros (it & Hit & Hin)%list_elem_of_In%list_elem_of_omap.
  split; [reflexivity|]. exists st, items, it.
  split; [reflexivity|]. split; [exact Hok|].
  split; [apply list_elem_of_In, Hit | exact Hin].
Qed.





Lemma gathered_sublist (w : World) (tick : nat) (b : Brief) :
  sublist (fst (run w tick (gatherSources b)))
    (concat (List.map (searchDocs w) (queriesIn (getFullYear (clock w tick)) b))).
Proof.
  rewrite run_gatherSources. cbn [fst].
  etransitivity; [apply sublist_take | apply uniqueBy_sublist].
Qed.

Lemma gathered_origin (w : World) (tick : nat) (b : Brief) (s : SourceDoc) :
  In s (fst (run w tick (gatherSources b))) ->
  exists query it,
    In query (queriesIn (getFullYear (clock w tick)) b) /\ fromProvider w query s
    /\ toSourceDoc it = Some s.
Proof.
  intros Hs. apply list_elem_of_In in Hs.
  apply (fun h => elem_of_sublist _ _ _ h (gathered_sublist w tick b)) in Hs.
  apply list_elem_of_In, in_concat in Hs as (l & (q & <- & Hq)%in_map_iff & Hs).
  pose proof (searchDocs_fromProvider _ _ _ Hs) as (_ & Hp).
  pose proof Hp as (st & items & it & _ & _ & _ & Hdoc). eauto.
Qed.

Lemma gathered_length (w : World) (tick : nat) (b : Brief) :
  (List.length (fst (run w tick (gatherSources b))) <= 8)%nat.
Proof. rewrite run_gatherSources. cbn [fst]. rewrite length_take. lia. Qed.



End GatherFacts.

(** ** The handler, end to end *)

Section PipelineFacts.
Context `{Runtime}.

Lemma run_afterAi (w : World) (tick : nat) (headerId traceId : option string)
    (b : Brief) (sources : list SourceDoc) (window : TimeWindow) (reply : AiReply) :
  (exists st content finish,
      reply = AiHttp st content finish /\ statusOk st = true
      /\ run w tick (afterAi headerId traceId b sources window reply)
         = (mkResponse 200
              (EventsBody
                 (eventsFromContent
                    (if truthyOpt content then default EmptyString content else "[]")
                    (mkOpts b (urls (buildAllowedUrlSets sources))
                       (hosts (buildAllowedUrlSets sources))
                       (tw_start window) (tw_end window)))
                 traceId (clock w tick) (briefParamsOf b)
                 (mkDiag (List.length sources) finish)),
            [EClock]))
  \/ (statusOfReply reply <> 200%nat
      /\ exists message id,
          run w tick (afterAi headerId traceId b sources window reply)
          = (mkResponse (statusOfReply reply) (ErrorBody message id), [])).
Proof.
  destruct reply as [message | st content finish].
  - right. split; [discriminate|]. eauto.
  - destruct (statusOk st) eqn:Hok.
    + left. exists st, content, finish. split; [reflexivity|]. split; [exact Hok|].
      apply afterAi_ok, Hok.
    + right. unfold statusOfReply, afterAi. rewrite Hok. cbn [negb].
      destruct (st =? 429)%nat; [split; [discriminate|]; eauto|].
      destruct (st =? 402)%nat; split; try discriminate; eauto.
Qed.

(** The runs of the handler after the search stage. *)
Lemma run_afterGather (w : World) (tick : nat) (headerId traceId : option string)
    (b : Brief) (sources : list SourceDoc) :
  (sources = []
   /\ run w tick (afterGather headerId traceId b sources)
      = (mkResponse 200
           (EventsBody [] traceId (clock w tick) (briefParamsOf b) (mkDiag 0 None)),
         [EClock]))
  \/ (sources <> []
      /\ exists trace,
          run w tick (afterGather headerId traceId b sources)
          = (mkResponse 500 (ErrorBody "Invalid time value" headerId), trace)
          /\ (trace = [EClock] \/ trace = [EClock; EClock]))
  \/ (sources <> []
      /\ exists prompt window,
          buildPrompt (clock w tick) b sources = Some prompt
          /\ getTimeWindowRange (clock w (S tick)) (windowOf b) = Some window
          /\ run w tick (afterGather headerId traceId b sources)
             = (fst (run w (S (S tick))
                       (afterAi headerId traceId b sources window (ai w prompt))),
                EClock :: EClock :: EAi prompt
                :: snd (run w (S (S tick))
                          (afterAi headerId traceId b sources window (ai w prompt))))).
Proof.
  destruct sources as [|s sources]; [left; split; reflexivity|].
  right. unfold afterGather. cbn [bind run].
  destruct (buildPrompt (clock w tick) b (s :: sources)) as [prompt|].
  - cbn [bind run].
    destruct (getTimeWindowRange (clock w (S tick)) (windowOf b)) as [window|].
    + right. split; [discriminate|]. exists prompt, window.
      split; [reflexivity|]. split; [reflexivity|].
      cbn [bind run].
      destruct (run w (S (S tick))
                  (afterAi headerId traceId b (s :: sources) window (ai w prompt))).
      reflexivity.
    + left. split; [discriminate|]. eexists. split; [reflexivity|]. auto.
  - left. split; [discriminate|]. eexists. split; [reflexivity|]. auto.
Qed.

(** The runs of the handler that get past the checks of the request. *)
Lemma run_handler (w : World) (req : Request) :
  (snd (run w 0 (handler req)) = []
   /\ exists r, fst (run w 0 (handler req)) = r
       /\ (r = mkResponse 200 Preflight
           \/ (exists message id, r = mkResponse 500 (ErrorBody message id))
           \/ (exists id, r = mkResponse 400 (ErrorBody "Brief is required" id))))
  \/ (truthyOpt (env w "LOVABLE_API_KEY") = false
      /\ String.eqb (method req) "OPTIONS" = false
      /\ (exists rb b, json req = Returned rb /\ rb_brief rb = Some b)
      /\ exists id,
          run w 0 (handler req)
          = (mkResponse 500 (ErrorBody "AI service not configured" id),
             [EEnv "LOVABLE_API_KEY"]))
  \/ (exists rb b,
         String.eqb (method req) "OPTIONS" = false
         /\ json req = Returned rb /\ rb_brief rb = Some b
         /\ truthyOpt (env w "LOVABLE_API_KEY") = true
         /\ let sources := fst (run w 0 (gatherSources b)) in
            let rest :=
              run w 1 (afterGather (headerTraceId req)
                         (orElse (headerTraceId req) (rb_traceId rb)) b sources) in
            run w 0 (handler req)
            = (fst rest,
               (EEnv "LOVABLE_API_KEY" :: snd (run w 0 (gatherSources b))
                  ++ snd rest)%list)).
Proof.
  unfold handler.
  destruct (String.eqb (method req) "OPTIONS") eqn:Hm.
  { left. split; [reflexivity|]. eexists. split; [reflexivity|]. left. reflexivity. }
  destruct (json req) as [rb | message] eqn:Hj.
  2: { left. split; [reflexivity|]. eexists. split; [reflexivity|].
       right. left. eauto. }
  destruct (rb_brief rb) as [b|] eqn:Hb.
  2: { left. split; [reflexivity|]. eexists. split; [reflexivity|].
       right. right. eauto. }
  cbn [bind run].
  destruct (truthyOpt (env w "LOVABLE_API_KEY")) eqn:Hkey; cbn [negb].
  - right. right. exists rb, b.
    do 4 (split; [first [reflexivity | assumption]|]).
    cbv zeta. rewrite run_bind.
    pose proof (gatherSources_ticks w 0 b) as [Hticks _].
    destruct (run w 0 (gatherSources b)) as [sources tr].
    cbn [fst snd] in *. rewrite Hticks. cbn [Nat.add].
    destruct (run w 1 (afterGather _ _ b sources)). reflexivity.
  - right. left. split; [reflexivity|]. split; [reflexivity|].
    split; [exists rb, b; split; [reflexivity | exact Hb]|].
    eexists. reflexivity.
Qed.

End PipelineFacts.

Section HandlerFacts.
Context `{Runtime}.

Lemma eventsFromContent_validated (content : string) (opts : ValidateOpts) :
  eventsFromContent content opts = []
  \/ exists raw, eventsFromContent content opts = validateAndFilterEvents raw opts.
Proof.
  unfold eventsFromContent, parseAndValidate.
  destruct (JSON_parse (cleanContent content)) as [raw|]; eauto.
Qed.

(** The answers of the handler that carry events. *)
Lemma handler_events (w : World) (req : Request)
    (events : list Event) (id : option string) (discoveredAt : Z)
    (params : BriefParams) (diag : Diagnostics) :
  body (fst (run w 0 (handler req)))
  = EventsBody events id discoveredAt params diag ->
  exists rb b,
    String.eqb (method req) "OPTIONS" = false
    /\ json req = Returned rb /\ rb_brief rb = Some b
    /\ truthyOpt (env w "LOVABLE_API_KEY") = true
    /\ status (fst (run w 0 (handler req))) = 200%nat
    /\ params = briefParamsOf b
    /\ id = orElse (headerTraceId req) (rb_traceId rb)
    /\ let sources := fst (run w 0 (gatherSources b)) in
       sourceCount diag = List.length sources
       /\ ((sources = [] /\ events = [] /\ aiFinishReason diag = None
            /\ noAiCall (snd (run w 0 (handler req))) = true)
           \/ (sources <> []
               /\ exists prompt window content,
                   In (EAi prompt) (snd (run w 0 (handler req)))
                   /\ events
                      = eventsFromContent content
                          (mkOpts b (urls (buildAllowedUrlSets sources))
                             (hosts (buildAllowedUrlSets sources))
                             (tw_start window) (tw_end window)))).
Proof.
  intros Hbody.
  destruct (run_handler w req)
    as [(_ & r & Hr & Hcase) | [(_ & _ & _ & id' & Hrun) | (rb & b & Hm & Hj & Hb & Hkey & Hrun)]].
  { rewrite Hr in Hbody.
    destruct Hcase as [-> | [(m & i & ->) | (i & ->)]]; discriminate Hbody. }
  { rewrite Hrun in Hbody. discriminate Hbody. }
  cbv zeta in Hrun. exists rb, b. do 4 (split; [assumption|]).
  rewrite Hrun in *. cbn [fst snd] in *.
  set (sources := fst (run w 0 (gatherSources b))) in *.
  pose proof (gatherSources_ticks w 0 b) as [_ HnoAi].
  destruct (run_afterGather w 1 (headerTraceId req)
              (orElse (headerTraceId req) (rb_traceId rb)) b sources)
    as [(Hnil & Hg) | [(Hne & tr & Hg & _) | (Hne & prompt & window & _ & _ & Hg)]];
    rewrite Hg in *; cbn [fst snd body status] in *.
  - injection Hbody as <- <- <- <- <-. cbn [sourceCount aiFinishReason].
    rewrite Hnil. do 4 (split; [reflexivity|]). left.
    do 3 (split; [reflexivity|]).
    unfold noAiCall in *. cbn [forallb isAiCall negb andb].
    rewrite forallb_app, HnoAi. reflexivity.
  - discriminate Hbody.
  - destruct (run_afterAi w 3 (headerTraceId req)
                (orElse (headerTraceId req) (rb_traceId rb)) b sources window
                (ai w prompt))
      as [(st & content & finish & _ & _ & Ha) | (_ & m & i & Ha)];
      rewrite Ha in *; cbn [fst snd body status] in *; [|discriminate Hbody].
    injection Hbody as <- <- <- <- <-. cbn [sourceCount aiFinishReason].
    do 4 (split; [reflexivity|]). right. split; [exact Hne|].
    exists prompt, window. eexists. split; [|reflexivity].
    right. apply in_or_app. right. right. right. left. reflexivity.
Qed.

(** X7.  Grounding, end to end.  In every world and for every request,
    each event of an answer of the handler has an address that parses, and
    the search provider returned, in this run, a result that carries that
    address or an address of the same host, as the address of the result
    or inside its text.  The model cannot add an address of a host that
    the search did not show. *)
Theorem handler_events_grounded (w : World) (req : Request)
    (events : list Event) (id : option string) (discoveredAt : Z)
    (params : BriefParams) (diag : Diagnostics) :
  body (fst (run w 0 (handler req)))
  = EventsBody events id discoveredAt params diag ->
  forall e, In e events ->
    exists host query s u,
      URL_host (event_url e) = Some host
      /\ fromProvider w query s /\ mentionedBy s u
      /\ (event_url e = u \/ URL_host u = Some host).
Proof.
  intros (rb & b & _ & _ & _ & _ & _ & _ & _ & _ & Hcase)%handler_events e He.
  destruct Hcase as [(_ & -> & _) | (_ & prompt & window & content & _ & ->)];
    [destruct He|].
  set (sources := fst (run w 0 (gatherSources b))) in *.
  set (opts := mkOpts _ _ _ _ _) in He.
  destruct (eventsFromContent_validated content opts) as [Hnil | (raw & Hraw)];
    [rewrite Hnil in He; destruct He|].
  rewrite Hraw in He. apply validated_origin in He as (item & Hacc & ->).
  unfold accepted in Hacc.
  apply andb_true_iff in Hacc as [Hacc _]. apply andb_true_iff in Hacc as [_ Hg].
  apply grounded_true in Hg as (host & Hhost & Hallowed).
  exists host. destruct Hallowed as [Hu | Hh]; cbn [allowedUrls allowedHosts opts] in *.
  - apply allowList_urls in Hu as (s & Hs & Hm).
    apply gathered_origin in Hs as (query & it & _ & Hp & _).
    exists query, s, (event_url (eventOf item)). auto.
  - apply allowList_hosts in Hh as (s & u & Hs & Hm & Hparse).
    apply gathered_origin in Hs as (query & it & _ & Hp & _).
    exists query, s, u. auto.
Qed.

(** X8.  The answers of the handler.  Every answer has status 200, 400,
    402, 429 or 500, and the status is 200 exactly when the body is not an
    error.  An answer with events belongs to a request that carries a
    brief; it has at most 10 events, with pairwise distinct addresses and
    well-formed fields, it reports at most 8 sources, and when it reports
    none it has no event and no finish reason. *)
Theorem handler_response_shape (w : World) (req : Request) :
  let r := fst (run w 0 (handler req)) in
  In (status r) [200; 400; 402; 429; 500]%nat
  /\ (status r = 200%nat <-> match body r with ErrorBody _ _ => False | _ => True end)
  /\ forall events id discoveredAt params diag,
       body r = EventsBody events id discoveredAt params diag ->
       (exists rb b, json req = Returned rb /\ rb_brief rb = Some b
                     /\ params = briefParamsOf b)
       /\ (List.length events <= 10)%nat
       /\ NoDup (List.map event_url events)
       /\ Forall wellFormedEvent events
       /\ (sourceCount diag <= 8)%nat
       /\ (sourceCount diag = 0%nat -> events = [] /\ aiFinishReason diag = None).
Proof.
  intros r. split; [|split].
  - subst r.
    destruct (run_handler w req)
      as [(_ & r & -> & Hcase) | [(_ & _ & _ & i & ->) | (rb & b & _ & _ & _ & _ & ->)]].
    + destruct Hcase as [-> | [(m & i & ->) | (i & ->)]]; cbn; tauto.
    + cbn; tauto.
    + cbn [fst].
      destruct (run_afterGather w 1 (headerTraceId req)
                  (orElse (headerTraceId req) (rb_traceId rb)) b
                  (fst (run w 0 (gatherSources b))))
        as [(_ & ->) | [(_ & tr & -> & _) | (_ & prompt & window & _ & _ & ->)]];
        try (cbn; tauto).
      cbn [fst].
      destruct (run_afterAi w 3 (headerTraceId req)
                  (orElse (headerTraceId req) (rb_traceId rb)) b
                  (fst (run w 0 (gatherSources b))) window (ai w prompt))
        as [(st & content & finish & _ & _ & ->) | (_ & m & i & ->)];
        [cbn; tauto|].
      cbn [fst status]. unfold statusOfReply.
      destruct (ai w prompt) as [|st c f]; [cbn; tauto|].
      destruct (statusOk st); [cbn; tauto|].
      destruct (st =? 429)%nat; [cbn; tauto|].
      destruct (st =? 402)%nat; cbn; tauto.
  - subst r.
    destruct (run_handler w req)
      as [(_ & r & -> & Hcase) | [(_ & _ & _ & i & ->) | (rb & b & _ & _ & _ & _ & ->)]].
    + destruct Hcase as [-> | [(m & i & ->) | (i & ->)]]; cbn; split;
        try tauto; try discriminate.
    + cbn. split; [discriminate | tauto].
    + cbn [fst].
      destruct (run_afterGather w 1 (headerTraceId req)
                  (orElse (headerTraceId req) (rb_traceId rb)) b
                  (fst (run w 0 (gatherSources b))))
        as [(_ & ->) | [(_ & tr & -> & _) | (_ & prompt & window & _ & _ & ->)]].
      * cbn. tauto.
      * cbn. split; [discriminate | tauto].
      * cbn [fst].
        destruct (run_afterAi w 3 (headerTraceId req)
                    (orElse (headerTraceId req) (rb_traceId rb)) b
                    (fst (run w 0 (gatherSources b))) window (ai w prompt))
          as [(st & content & finish & _ & _ & ->) | (Hne & m & i & ->)].
        -- cbn. tauto.
        -- cbn [fst status body]. tauto.
  - intros events id discoveredAt params diag Hbody.
    apply handler_events in Hbody
        as (rb & b & _ & Hj & Hb & _ & _ & Hp & _ & Hcount & Hcase).
    split; [eauto|].
    assert (Hshape : (List.length events <= 10)%nat
                     /\ NoDup (List.map event_url events)
                     /\ Forall wellFormedEvent events).
    { destruct Hcase as [(_ & -> & _) | (_ & prompt & window & content & _ & ->)].
      - split; [cbn; lia|]. split; constructor.
      - match goal with |- context [eventsFromContent content ?o] =>
          destruct (eventsFromContent_validated content o) as [-> | (raw & ->)];
          [split; [cbn; lia|]; split; constructor|];
          destruct (validated_shape raw o) as [Hlen Hnd];
          split; [exact Hlen|]; split; [exact Hnd|];
          apply Forall_forall; intros e (item & Hacc & ->)%list_elem_of_In%validated_origin;
          apply (accepted_wellFormed o), Hacc
        end. }
    destruct Hshape as (Hlen & Hnd & Hwf).
    do 3 (split; [assumption|]).
    split; [rewrite Hcount; apply gathered_length|].
    intros Hzero. rewrite Hcount in Hzero.
    destruct Hcase as [(_ & -> & -> & _) | (Hne & _)]; [auto|].
    destruct (fst (run w 0 (gatherSources b))); [congruence | discriminate Hzero].
Qed.

End HandlerFacts.

Section EffectFacts.
Context `{Runtime}.

Lemma noAiCall_In (trace : list Effect) (prompt : string) :
  noAiCall trace = true -> ~ In (EAi prompt) trace.
Proof.
  unfold noAiCall. intros Hall Hin.
  rewrite forallb_forall in Hall. specialize (Hall _ Hin). discriminate Hall.
Qed.

Lemma afterGather_trace (w : World) (tick : nat) (headerId traceId : option string)
    (b : Brief) (sources : list SourceDoc) :
  let rest := run w tick (afterGather headerId traceId b sources) in
  List.filter isSearchCall (snd rest) = []
  /\ (List.length (List.filter isAiCall (snd rest)) <= 1)%nat
  /\ (ticksOf (snd rest) <= 3)%nat
  /\ forall prompt, In (EAi prompt) (snd rest) ->
       sources <> [] /\ status (fst rest) = statusOfReply (ai w prompt)
       /\ (status (fst rest) = 200%nat -> ticksOf (snd rest) = 3%nat).
Proof.
  intros rest. subst rest.
  destruct (run_afterGather w tick headerId traceId b sources)
    as [(_ & ->) | [(_ & tr & -> & Htr) | (Hne & prompt & window & _ & _ & ->)]];
    cbn [fst snd].
  - split; [reflexivity|]. split; [cbn; lia|]. split; [cbn; lia|].
    intros p [[=] | []].
  - destruct Htr as [-> | ->];
      (split; [reflexivity|]; split; [cbn; lia|]; split; [cbn; lia|]);
      intros p Hin; cbn in Hin; intuition discriminate.
  - destruct (run_afterAi w (S (S tick)) headerId traceId b sources window (ai w prompt))
      as [(st & content & finish & Hreply & Hok & ->) | (Hfail & m & i & ->)];
      cbn [fst snd].
    + split; [reflexivity|]. split; [cbn; lia|]. split; [cbn; lia|].
      intros p Hin. split; [exact Hne|].
      cbn in Hin. destruct Hin as [[=] | [[=] | [[= <-] | [[=] | []]]]].
      rewrite Hreply. cbn. rewrite Hok. split; reflexivity.
    + split; [reflexivity|]. split; [cbn; lia|]. split; [cbn; lia|].
      intros p Hin. split; [exact Hne|].
      cbn in Hin. destruct Hin as [[=] | [[=] | [[= <-] | []]]].
      split; [reflexivity|]. cbn [status]. intros H200. contradiction.
Qed.


(** X10.  The status follows the gateway.  When the handler called the
    model, the status of its answer is the one derived from the reply of
    the gateway: 200 for a successful reply, 429 and 402 passed on, 500 for
    any other failure and for a call that throws.  When it did not call the
    model, the status is 200, 400 or 500 and the answer carries no
    event. *)
Theorem handler_status_follows_gateway (w : World) (req : Request) :
  let r := fst (run w 0 (handler req)) in
  let trace := snd (run w 0 (handler req)) in
  (forall prompt, In (EAi prompt) trace -> status r = statusOfReply (ai w prompt))
  /\ (noAiCall trace = true ->
      In (status r) [200; 400; 500]%nat
      /\ forall events id discoveredAt params diag,
           body r = EventsBody events id discoveredAt params diag -> events = []).
Proof.
  intros r trace. split.
  - subst r trace.
    destruct (run_handler w req)
      as [(-> & _) | [(_ & _ & _ & i & ->) | (rb & b & _ & _ & _ & _ & ->)]].
    { intros ? []. }
    { intros ? [[=] | []]. }
    cbn [fst snd]. intros prompt [[=] | [Hin | Hin]%in_app_or].
    + exfalso. destruct (gatherSources_ticks w 0 b) as [_ Hn].
      exact (noAiCall_In _ _ Hn Hin).
    + destruct (afterGather_trace w 1 (headerTraceId req)
                  (orElse (headerTraceId req) (rb_traceId rb)) b
                  (fst (run w 0 (gatherSources b)))) as (_ & _ & _ & Hai).
      apply Hai in Hin as (_ & Hst & _). exact Hst.
  - intros HnoAi. split.
    + subst r trace.
      destruct (run_handler w req)
        as [(_ & r & -> & Hcase) | [(_ & _ & _ & i & ->) | (rb & b & _ & _ & _ & _ & Hrun)]].
      * destruct Hcase as [-> | [(m & i & ->) | (i & ->)]]; cbn; tauto.
      * cbn; tauto.
      * cbv zeta in Hrun. rewrite Hrun in *. cbn [fst snd] in *.
        destruct (run_afterGather w 1 (headerTraceId req)
                    (orElse (headerTraceId req) (rb_traceId rb)) b
                    (fst (run w 0 (gatherSources b))))
          as [(_ & Hg) | [(_ & tr & Hg & _) | (_ & prompt & window & _ & _ & Hg)]];
          rewrite Hg in *; cbn [fst snd] in *; try (cbn; tauto).
        exfalso. apply (noAiCall_In _ prompt HnoAi).
        right. apply in_or_app. right. right. right. left. reflexivity.
    + intros events id discoveredAt params diag Hbody.
      apply handler_events in Hbody
          as (rb & b & _ & _ & _ & _ & _ & _ & _ & _ & Hcase).
      destruct Hcase as [(_ & -> & _) | (_ & prompt & window & content & Hin & _)];
        [reflexivity|].
      exfalso. exact (noAiCall_In _ _ HnoAi Hin).
Qed.

End EffectFacts.

(** In the sample run, dropping the fabricated candidate changes nothing. *)
Lemma rejected_candidates_are_inert_witness :
  validateCandidate (H := RefRuntime.runtime) Samples.opts JNull = None
  /\ validateAndFilterEvents (H := RefRuntime.runtime)
       (JArr [Samples.jazzNight; Samples.fabricated]) Samples.opts
     = validateAndFilterEvents (H := RefRuntime.runtime)
         (JArr [Samples.jazzNight]) Samples.opts.
Proof.
  destruct (@rejected_candidates_are_inert RefRuntime.runtime Samples.opts)
    as [Hshape Hdrop].
  split.
  - apply (Hshape JNull). exact I.
  - apply (Hdrop [Samples.jazzNight] Samples.fabricated []).
    vm_compute. reflexivity.
Defined.


(** The answer of the sample deployment reports one source and one event. *)
Lemma handler_response_shape_witness :
  (exists rb b, json SampleRuns.request = Returned rb /\ rb_brief rb = Some b
                /\ mkParams [] ["Jazz"] ["barby"] "Next 7 days" = briefParamsOf b)
  /\ (List.length [SampleAnswers.jazzEvent] <= 10)%nat
  /\ NoDup (List.map event_url [SampleAnswers.jazzEvent])
  /\ Forall wellFormedEvent [SampleAnswers.jazzEvent]
  /\ (sourceCount (mkDiag 1 (Some "stop")) <= 8)%nat
  /\ (sourceCount (mkDiag 1 (Some "stop")) = 0%nat ->
      [SampleAnswers.jazzEvent] = [] /\ aiFinishReason (mkDiag 1 (Some "stop")) = None).
Proof.
  destruct (@handler_response_shape RefRuntime.runtime SamplePipeline.liveWorld
              SampleRuns.request) as (_ & _ & Hbody).
  apply (Hbody [SampleAnswers.jazzEvent] (Some "trace-1") (Samples.now + 3)%Z).
  vm_compute. reflexivity.
Defined.


(** In the sample deployment the event of the answer carries an address
    that the text of the gathered page shows. *)
Lemma handler_events_grounded_witness :
  exists host query s u,
    @URL_host RefRuntime.runtime (event_url SampleAnswers.jazzEvent) = Some host
    /\ fromProvider SamplePipeline.liveWorld query s /\ mentionedBy s u
    /\ (event_url SampleAnswers.jazzEvent = u
        \/ @URL_host RefRuntime.runtime u = Some host).
Proof.
  apply (@handler_events_grounded RefRuntime.runtime SamplePipeline.liveWorld
           SampleRuns.request [SampleAnswers.jazzEvent] (Some "trace-1")
           (Samples.now + 3) (mkParams [] ["Jazz"] ["barby"] "Next 7 days")
           (mkDiag 1 (Some "stop"))).
  - vm_compute. reflexivity.
  - left. reflexivity.
Defined.

(** With a rate-limited gateway the sample request is answered 429. *)
Lemma handler_status_follows_gateway_witness :
  status (fst (run SamplePipeline.busyWorld 0
                 (handler (H := RefRuntime.runtime) SampleRuns.request)))
  = 429%nat.
Proof.
  destruct (@handler_status_follows_gateway RefRuntime.runtime SamplePipeline.busyWorld
              SampleRuns.request) as [Hstatus _].
  apply (Hstatus SampleAnswers.prompt).
  vm_compute. do 6 right. left. reflexivity.
Defined.

(** ** The genre rule of the prompt and the genre filter of the validator *)

Section GenreRuleFacts.

Lemma preferred_none_iff (b : Brief) :
  (0 <? size (preferredGenresOf b))%nat = false <->
  forall g, In g (default [] (genres b)) -> truthy (trim g) = false.
Proof.
  rewrite Nat.ltb_ge, Nat.le_0_r, size_empty_iff. split.
  - intros Hempty g Hg. destruct (truthy (trim g)) eqn:Ht; [|reflexivity].
    exfalso. apply (not_elem_of_empty (C := gset string) (toLowerCase (trim g))).
    rewrite <- Hempty. apply elem_preferred. rewrite truthy_toLowerCase. eauto.
  - intros Hblank. apply elem_of_equiv_empty. intros x Hx.
    apply elem_preferred in Hx as (Ht & p & Hp & ->).
    rewrite truthy_toLowerCase, (Hblank p Hp) in Ht. discriminate Ht.
Qed.

Lemma blank_selection_not_all (gs : list string) :
  (forall g, In g gs -> truthy (trim g) = false) ->
  isAllGenresSelection (Some gs) = false.
Proof.
  intros Hblank. destruct (isAllGenresSelection (Some gs)) eqn:Hall; [|reflexivity].
  rewrite isAllGenresSelection_iff in Hall.
  destruct (Hall "Jazz") as (s & Hs & Htrim); [unfold KNOWN_GENRES; cbn; auto|].
  specialize (Hblank s Hs). rewrite Htrim in Hblank. discriminate Hblank.
Qed.

(** X11.  Prompt and validator on genres.  The prompt carries one of two
    genre rules.  Whenever the validator filters by genre, the prompt has
    demanded a preferred genre; whenever the prompt waives the genre, the
    validator does not filter and the prompt lists the preference as any
    genre.  The two disagree, the prompt demanding a genre that the
    validator does not check, exactly for a non-empty selection all of
    whose entries are blank. *)
Theorem genre_rule_agreement (b : Brief) :
  let demands := "- genre MUST include at least one of preferred_genres." +:+ nl in
  let waives := "- genre: no filtering required." +:+ nl in
  (promptGenreRule b = demands \/ promptGenreRule b = waives)
  /\ (applyGenreFilterOf b = true -> promptGenreRule b = demands)
  /\ (promptGenreRule b = waives ->
      applyGenreFilterOf b = false /\ promptPreferredGenres b = "any genre")
  /\ (promptGenreRule b = demands /\ applyGenreFilterOf b = false <->
      exists gs, genres b = Some gs /\ gs <> []
                 /\ forall g, In g gs -> truthy (trim g) = false).
Proof.
  intros demands waives.
  assert (Hdiff : demands <> waives) by discriminate.
  unfold promptGenreRule, promptPreferredGenres, applyGenreFilterOf.
  fold demands waives.
  pose proof (preferred_none_iff b) as Hnone.
  destruct (genres b) as [[|g gs]|] eqn:Hg.
  - cbn [isAllGenresSelection nonEmptyList negb orb andb].
    assert (Hzero : (0 <? size (preferredGenresOf b))%nat = false)
      by (apply Hnone; intros g []).
    rewrite Hzero. cbn [andb].
    split; [auto|]. split; [discriminate|]. split; [auto|].
    split; [intros [Hd _]; congruence | intros (gs & [= <-] & Hne & _); congruence].
  - cbn [nonEmptyList negb orb].
    destruct (isAllGenresSelection (Some (g :: gs))) eqn:Hall; cbn [negb orb].
    + rewrite andb_false_r. split; [auto|]. split; [discriminate|].
      split; [auto|].
      split; [intros [Hd _]; congruence|].
      intros (gs' & [= <-] & _ & Hblank).
      rewrite (blank_selection_not_all _ Hblank) in Hall. discriminate Hall.
    + rewrite andb_true_r. split; [auto|]. split; [auto|].
      split; [intros Hw; congruence|].
      rewrite Hnone. cbn [default]. split.
      * intros [_ Hblank]. exists (g :: gs). split; [reflexivity|]. split; [discriminate|].
        exact Hblank.
      * intros (gs' & [= <-] & _ & Hblank). auto.
  - cbn [isAllGenresSelection nonEmptyList negb orb andb].
    assert (Hzero : (0 <? size (preferredGenresOf b))%nat = false)
      by (apply Hnone; intros g []).
    rewrite Hzero. cbn [andb].
    split; [auto|]. split; [discriminate|]. split; [auto|].
    split; [intros [Hd _]; congruence | intros (gs & [=] & _)].
Qed.

End GenreRuleFacts.

(** A selection of two blank entries: the prompt demands a genre, the
    validator checks none. *)
Lemma genre_rule_agreement_witness :
  promptGenreRule (mkBrief None (Some ["  "; EmptyString]) None None)
  = "- genre MUST include at least one of preferred_genres." +:+ nl
  /\ applyGenreFilterOf (mkBrief None (Some ["  "; EmptyString]) None None) = false.
Proof.
  apply (genre_rule_agreement (mkBrief None (Some ["  "; EmptyString]) None None)).
  exists ["  "; EmptyString]. split; [reflexivity|]. split; [discriminate|].
  intros g [<- | [<- | []]]; reflexivity.
Defined.

(** ** Digest delivery *)

Section DeliveryFacts.

Lemma run_sendWhatsApp (w : SendDigest.World) (to message : string) :
  SendDigest.run w (SendDigest.sendWhatsApp to message)
  = let reads := [SendDigest.EEnv "TWILIO_ACCOUNT_SID";
                  SendDigest.EEnv "TWILIO_AUTH_TOKEN";
                  SendDigest.EEnv "TWILIO_WHATSAPP_FROM"] in
    if SendDigest.twilioConfigured w then
      let accountSid := default EmptyString (SendDigest.env w "TWILIO_ACCOUNT_SID") in
      let authToken := default EmptyString (SendDigest.env w "TWILIO_AUTH_TOKEN") in
      let from :=
        SendDigest.toWhatsApp
          (default EmptyString (SendDigest.env w "TWILIO_WHATSAPP_FROM")) in
      (match SendDigest.twilio w accountSid authToken from
               (SendDigest.toWhatsApp to) message with
       | SendDigest.TwilioThrows m => SendDigest.failed m
       | SendDigest.TwilioHttp st (Thrown m) => SendDigest.failed m
       | SendDigest.TwilioHttp st (Returned errorMessage) =>
           if statusOk st then SendDigest.mkResult true None
           else SendDigest.mkResult false
                  (if truthyOpt errorMessage then errorMessage
                   else Some "Failed to send WhatsApp message")
       end,
       (reads ++ [SendDigest.ETwilio accountSid authToken from
                    (SendDigest.toWhatsApp to) message])%list)
    else (SendDigest.failed "Twilio credentials not configured", reads).
Proof.
  unfold SendDigest.sendWhatsApp, SendDigest.twilioConfigured.
  cbn [SendDigest.andThen SendDigest.run].
  destruct (truthyOpt (SendDigest.env w "TWILIO_ACCOUNT_SID")); cbn [negb orb andb];
    [|reflexivity].
  destruct (truthyOpt (SendDigest.env w "TWILIO_AUTH_TOKEN")); cbn [negb orb andb];
    [|reflexivity].
  destruct (truthyOpt (SendDigest.env w "TWILIO_WHATSAPP_FROM")); cbn [negb orb andb];
    [|reflexivity].
  cbn [SendDigest.andThen SendDigest.run].
  destruct (SendDigest.twilio w _ _ _ _ _) as [m | st [errorMessage | m]];
    try reflexivity.
  destruct (statusOk st); reflexivity.
Qed.

Lemma run_sendEmail (w : SendDigest.World) (to subject html : string) :
  SendDigest.run w (SendDigest.sendEmail to subject html)
  = if truthyOpt (SendDigest.env w "RESEND_API_KEY") then
      let apiKey := default EmptyString (SendDigest.env w "RESEND_API_KEY") in
      (match SendDigest.resend w apiKey to subject html with
       | SendDigest.ResendThrows m => SendDigest.failed m
       | SendDigest.ResendResult (Some m) => SendDigest.mkResult false m
       | SendDigest.ResendResult None => SendDigest.mkResult true None
       end,
       [SendDigest.EEnv "RESEND_API_KEY"; SendDigest.EResend apiKey to subject html])
    else (SendDigest.failed "Resend API key not configured",
          [SendDigest.EEnv "RESEND_API_KEY"]).
Proof.
  unfold SendDigest.sendEmail. cbn [SendDigest.andThen SendDigest.run].
  destruct (truthyOpt (SendDigest.env w "RESEND_API_KEY")); cbn [negb]; [|reflexivity].
  cbn [SendDigest.andThen SendDigest.run].
  destruct (SendDigest.resend w _ _ _ _) as [m | [m|]]; reflexivity.
Qed.

Lemma run_andThen {A B : Type} (w : SendDigest.World) (p : SendDigest.Delivery A)
    (f : A -> SendDigest.Delivery B) :
  SendDigest.run w (SendDigest.andThen p f)
  = (fst (SendDigest.run w (f (fst (SendDigest.run w p)))),
     (snd (SendDigest.run w p)
        ++ snd (SendDigest.run w (f (fst (SendDigest.run w p)))))%list).
Proof.
  induction p as [a | name k IH | sid token from to body k IH | key to subject html k IH];
    cbn [SendDigest.andThen SendDigest.run].
  - cbn [fst snd app]. destruct (SendDigest.run w (f a)). reflexivity.
  - rewrite IH. destruct (SendDigest.run w (k _)) as [a tr]. cbn [fst snd].
    destruct (SendDigest.run w (f a)). reflexivity.
  - rewrite IH. destruct (SendDigest.run w (k _)) as [a tr]. cbn [fst snd].
    destruct (SendDigest.run w (f a)). reflexivity.
  - rewrite IH. destruct (SendDigest.run w (k _)) as [a tr]. cbn [fst snd].
    destruct (SendDigest.run w (f a)). reflexivity.
Qed.

Lemma run_digest_handler (w : SendDigest.World) (req : SendDigest.Request)
    (dr : SendDigest.DigestRequest) :
  String.eqb (SendDigest.method req) "OPTIONS" = false ->
  SendDigest.json req = Returned dr ->
  exists result,
    (result, snd (SendDigest.run w (SendDigest.handler req)))
    = (if String.eqb (SendDigest.deliveryMethod dr) "whatsapp" then
         SendDigest.run w
           (SendDigest.sendWhatsApp (SendDigest.deliveryContact dr)
              (formatWhatsAppMessage (SendDigest.briefName dr) (SendDigest.events dr)))
       else
         SendDigest.run w
           (SendDigest.sendEmail (SendDigest.deliveryContact dr)
              (SendDigest.subjectOf (SendDigest.briefName dr)
                 (List.length (SendDigest.events dr)))
              (formatEmailHtml (SendDigest.briefName dr) (SendDigest.events dr))))
    /\ fst (SendDigest.run w (SendDigest.handler req))
       = if SendDigest.success result then
           SendDigest.mkResponse 200
             (SendDigest.SentBody (SendDigest.deliveryMethod dr)
                (List.length (SendDigest.events dr))
                (orElse (SendDigest.headerTraceId req) (SendDigest.traceId dr)))
         else
           SendDigest.mkResponse 500
             (SendDigest.ErrorBody (SendDigest.error result)
                (orElse (SendDigest.headerTraceId req) (SendDigest.traceId dr))).
Proof.
  intros Hm Hj. unfold SendDigest.handler. rewrite Hm, Hj. cbv zeta.
  rewrite run_andThen. cbn [fst snd].
  set (send := if String.eqb (SendDigest.deliveryMethod dr) "whatsapp" then _ else _).
  exists (fst (SendDigest.run w send)). split.
  - subst send. destruct (String.eqb (SendDigest.deliveryMethod dr) "whatsapp").
    + destruct (SendDigest.run w _) as [result tr] eqn:Hrun. cbn [fst snd].
      destruct (SendDigest.success result); cbn [negb SendDigest.run snd];
        rewrite app_nil_r; reflexivity.
    + destruct (SendDigest.run w _) as [result tr] eqn:Hrun. cbn [fst snd].
      destruct (SendDigest.success result); cbn [negb SendDigest.run snd];
        rewrite app_nil_r; reflexivity.
  - destruct (SendDigest.success (fst (SendDigest.run w send))); reflexivity.
Qed.

(** The result of the send of a request's channel says success exactly
    when the provider accepts. *)
Lemma send_success_iff (w : SendDigest.World) (dr : SendDigest.DigestRequest) :
  SendDigest.success
    (fst (if String.eqb (SendDigest.deliveryMethod dr) "whatsapp" then
            SendDigest.run w
              (SendDigest.sendWhatsApp (SendDigest.deliveryContact dr)
                 (formatWhatsAppMessage (SendDigest.briefName dr) (SendDigest.events dr)))
          else
            SendDigest.run w
              (SendDigest.sendEmail (SendDigest.deliveryContact dr)
                 (SendDigest.subjectOf (SendDigest.briefName dr)
                    (List.length (SendDigest.events dr)))
                 (formatEmailHtml (SendDigest.briefName dr) (SendDigest.events dr)))))
  = true
  <-> SendDigest.accepts w dr.
Proof.
  unfold SendDigest.accepts.
  destruct (String.eqb (SendDigest.deliveryMethod dr) "whatsapp").
  - rewrite run_sendWhatsApp. cbv zeta.
    destruct (SendDigest.twilioConfigured w); cbn [fst];
      [|split; [discriminate | intros [[=] _]]].
    destruct (SendDigest.twilio w _ _ _ _ _) as [m | st [errorMessage | m]].
    + split; [discriminate | intros (_ & st & data & [=] & _)].
    + destruct (statusOk st) eqn:Hok; cbn [SendDigest.success].
      * split; [intros _; split; [reflexivity|]; eauto|reflexivity].
      * split; [discriminate|]. intros (_ & st' & data & [= <- <-] & Hok').
        congruence.
    + split; [discriminate | intros (_ & st' & data & [=] & _)].
  - rewrite run_sendEmail.
    destruct (truthyOpt (SendDigest.env w "RESEND_API_KEY")); cbn [fst];
      [|split; [discriminate | intros [[=] _]]].
    cbv zeta. destruct (SendDigest.resend w _ _ _ _) as [m | [m|]]; cbn.
    + split; [discriminate | intros [_ [=]]].
    + split; [discriminate | intros [_ [=]]].
    + split; auto.
Qed.

(** X12.  The answers of the digest function.  Every answer has status
    200 or 500, and 200 exactly when the body is not an error.  An answer
    that reports a sent digest echoes the delivery method of the request,
    counts all events of the request, also those beyond the display cap,
    and is given only when the provider of the channel accepted the
    digest.  A run makes at most one call of a provider. *)
Theorem digest_delivery_outcome (w : SendDigest.World) (req : SendDigest.Request) :
  let r := fst (SendDigest.run w (SendDigest.handler req)) in
  let trace := snd (SendDigest.run w (SendDigest.handler req)) in
  In (SendDigest.status r) [200; 500]%nat
  /\ (SendDigest.status r = 200%nat <->
      match SendDigest.body r with SendDigest.ErrorBody _ _ => False | _ => True end)
  /\ (forall method n id,
        SendDigest.body r = SendDigest.SentBody method n id ->
        exists dr,
          SendDigest.json req = Returned dr
          /\ method = SendDigest.deliveryMethod dr
          /\ n = List.length (SendDigest.events dr)
          /\ id = orElse (SendDigest.headerTraceId req) (SendDigest.traceId dr)
          /\ SendDigest.accepts w dr)
  /\ (List.length (List.filter SendDigest.isNetworkCall trace) <= 1)%nat.
Proof.
  intros r trace. subst r trace.
  destruct (String.eqb (SendDigest.method req) "OPTIONS") eqn:Hm.
  { unfold SendDigest.handler. rewrite Hm. cbn.
    split; [auto|]. split; [tauto|]. split; [discriminate | lia]. }
  destruct (SendDigest.json req) as [dr | message] eqn:Hj.
  2: { unfold SendDigest.handler. rewrite Hm, Hj. cbn.
       split; [auto|]. split; [split; [discriminate | tauto]|].
       split; [discriminate | lia]. }
  destruct (run_digest_handler w req dr Hm Hj) as (result & Hsend & ->).
  pose proof (send_success_iff w dr) as Hiff. rewrite <- Hsend in Hiff. cbn [fst] in Hiff.
  split; [destruct (SendDigest.success result); cbn; auto|].
  split; [destruct (SendDigest.success result); cbn; split;
          try tauto; try discriminate|].
  split.
  - intros method n id Hbody.
    destruct (SendDigest.success result); cbn in Hbody; [|discriminate Hbody].
    injection Hbody as <- <- <-. exists dr. repeat split. apply Hiff. reflexivity.
  - assert (Htr : snd (SendDigest.run w (SendDigest.handler req))
                  = snd (result, snd (SendDigest.run w (SendDigest.handler req))))
      by reflexivity.
    rewrite Htr, Hsend.
    destruct (String.eqb (SendDigest.deliveryMethod dr) "whatsapp").
    + rewrite run_sendWhatsApp. cbv zeta.
      destruct (SendDigest.twilioConfigured w); cbn; lia.
    + rewrite run_sendEmail.
      destruct (truthyOpt (SendDigest.env w "RESEND_API_KEY")); cbn; lia.
Qed.

(** X13.  Delivery succeeds exactly when the provider accepts.  For a
    request with a readable body, the answer is 200 exactly when the
    channel of the request is configured and its provider accepted the
    digest: for the messaging channel a reply with a 2xx status and a
    readable body, for the mail channel a result without an error.  Any
    delivery method other than whatsapp is the mail channel. *)
Theorem digest_success_iff (w : SendDigest.World) (req : SendDigest.Request)
    (dr : SendDigest.DigestRequest) :
  String.eqb (SendDigest.method req) "OPTIONS" = false ->
  SendDigest.json req = Returned dr ->
  SendDigest.status (fst (SendDigest.run w (SendDigest.handler req))) = 200%nat
  <-> SendDigest.accepts w dr.
Proof.
  intros Hm Hj.
  destruct (run_digest_handler w req dr Hm Hj) as (result & Hsend & ->).
  pose proof (send_success_iff w dr) as Hiff. rewrite <- Hsend in Hiff. cbn [fst] in Hiff.
  rewrite <- Hiff. destruct (SendDigest.success result); cbn; split;
    try reflexivity; discriminate.
Qed.



End DeliveryFacts.

(** The sent digest of the sample deployment was accepted by the message
    provider. *)
Lemma digest_delivery_outcome_witness :
  exists dr,
    SendDigest.json (SampleDelivery.request "whatsapp") = Returned dr
    /\ "whatsapp" = SendDigest.deliveryMethod dr
    /\ 2%nat = List.length (SendDigest.events dr)
    /\ Some "trace-1"
       = orElse (SendDigest.headerTraceId (SampleDelivery.request "whatsapp"))
           (SendDigest.traceId dr)
    /\ SendDigest.accepts SampleDelivery.world dr.
Proof.
  destruct (digest_delivery_outcome SampleDelivery.world (SampleDelivery.request "whatsapp"))
    as (_ & _ & Hsent & _).
  apply (Hsent "whatsapp" 2%nat (Some "trace-1")).
  vm_compute. reflexivity.
Defined.

(** The sample deployment delivers by message and, lacking a key, not by
    mail. *)
Lemma digest_success_iff_witness :
  SendDigest.status
    (fst (SendDigest.run SampleDelivery.world
            (SendDigest.handler (SampleDelivery.request "whatsapp")))) = 200%nat
  /\ ~ SendDigest.accepts SampleDelivery.world (SampleDelivery.digest "email").
Proof.
  split.
  - apply (digest_success_iff SampleDelivery.world (SampleDelivery.request "whatsapp")
             (SampleDelivery.digest "whatsapp") eq_refl eq_refl).
    split; [reflexivity|]. exists 201%nat, None. split; reflexivity.
  - intros Hacc.
    apply (digest_success_iff SampleDelivery.world (SampleDelivery.request "email")
             (SampleDelivery.digest "email") eq_refl eq_refl) in Hacc.
    vm_compute in Hacc. discriminate Hacc.
Defined.


(** ** Orchestration of a brief *)

Section FlowFacts.

Lemma run_flow_andThen {A B : Type} (w : Flow.World) (p : Flow.Flow A)
    (f : A -> Flow.Flow B) (walls ticks : nat) :
  Flow.run w walls ticks (Flow.andThen p f)
  = let '(a, tr1, (walls1, ticks1)) := Flow.run w walls ticks p in
    let '(b, tr2, n) := Flow.run w walls1 ticks1 (f a) in
    (b, (tr1 ++ tr2)%list, n).
Proof.
  revert walls ticks.
  induction p as [a | k IH | name k IH | u key k IH | token k IH | bid uid k IH | k IH
                 | k IH | k IH | ep bearer tid payload k IH
                 | ep bearer tid dm dc bn events k IH];
    intros walls ticks; cbn [Flow.andThen Flow.run].
  - destruct (Flow.run w walls ticks (f a)) as [[b tr] n]. reflexivity.
  - rewrite IH. destruct (Flow.run w walls ticks (k _)) as [[a tr1] [walls1 ticks1]].
    destruct (Flow.run w walls1 ticks1 (f a)) as [[b tr2] n]. reflexivity.
  - rewrite IH. destruct (Flow.run w walls ticks (k _)) as [[a tr1] [walls1 ticks1]].
    destruct (Flow.run w walls1 ticks1 (f a)) as [[b tr2] n]. reflexivity.
  - rewrite IH. destruct (Flow.run w walls ticks (k _)) as [[a tr1] [walls1 ticks1]].
    destruct (Flow.run w walls1 ticks1 (f a)) as [[b tr2] n]. reflexivity.
  - rewrite IH. destruct (Flow.run w walls ticks (k _)) as [[a tr1] [walls1 ticks1]].
    destruct (Flow.run w walls1 ticks1 (f a)) as [[b tr2] n]. reflexivity.
  - rewrite IH. destruct (Flow.run w walls ticks (k _)) as [[a tr1] [walls1 ticks1]].
    destruct (Flow.run w walls1 ticks1 (f a)) as [[b tr2] n]. reflexivity.
  - rewrite IH. destruct (Flow.run w walls ticks (k _)) as [[a tr1] [walls1 ticks1]].
    destruct (Flow.run w walls1 ticks1 (f a)) as [[b tr2] n]. reflexivity.
  - rewrite IH. destruct (Flow.run w (S walls) ticks (k _)) as [[a tr1] [walls1 ticks1]].
    destruct (Flow.run w walls1 ticks1 (f a)) as [[b tr2] n]. reflexivity.
  - rewrite IH. destruct (Flow.run w walls (S ticks) (k _)) as [[a tr1] [walls1 ticks1]].
    destruct (Flow.run w walls1 ticks1 (f a)) as [[b tr2] n]. reflexivity.
  - rewrite IH. destruct (Flow.run w walls ticks (k _)) as [[a tr1] [walls1 ticks1]].
    destruct (Flow.run w walls1 ticks1 (f a)) as [[b tr2] n]. reflexivity.
  - rewrite IH. destruct (Flow.run w walls ticks (k _)) as [[a tr1] [walls1 ticks1]].
    destruct (Flow.run w walls1 ticks1 (f a)) as [[b tr2] n]. reflexivity.
Qed.

Lemma run_mapEvents (w : Flow.World) (walls ticks idx : nat) (es : list Event) :
  Flow.run w walls ticks (Flow.mapEvents idx es)
  = (mappedFrom w ticks idx es, repeat Flow.EDateNow (List.length es),
     (walls, (ticks + List.length es)%nat)).
Proof.
  revert ticks idx. induction es as [|e es IH]; intros ticks idx.
  - cbn. rewrite Nat.add_0_r. reflexivity.
  - cbn [Flow.mapEvents Flow.andThen Flow.run]. rewrite run_flow_andThen, IH.
    cbn [Flow.run mappedFrom List.length repeat]. rewrite app_nil_r.
    rewrite Nat.add_succ_r. reflexivity.
Qed.

(** The run of the discovery step. *)
Lemma run_discoverEvents (w : Flow.World) (walls ticks : nat)
    (supabaseUrl key : option string) (traceId : string) (b : Flow.StoredBrief) :
  let payload :=
    Flow.mkDiscoveryBrief (Flow.sb_venues b) (Flow.sb_genres b) (Flow.sb_artists b)
      (Flow.schedule b) in
  let call :=
    Flow.EDiscover (Flow.templ supabaseUrl +:+ "/functions/v1/fetch-events-ai")
      ("Bearer " +:+ Flow.templ key) traceId payload in
  (exists st text discovered,
      Flow.discovery w traceId payload = Flow.DiscoveryHttp st text (Returned discovered)
      /\ statusOk st = true
      /\ Flow.run w walls ticks (Flow.discoverEvents supabaseUrl key traceId b)
         = (Returned (mappedFrom w ticks 0 discovered),
            call :: repeat Flow.EDateNow (List.length discovered),
            (walls, (ticks + List.length discovered)%nat)))
  \/ (exists message,
        Flow.run w walls ticks (Flow.discoverEvents supabaseUrl key traceId b)
        = (Thrown message, [call], (walls, ticks))).
Proof.
  intros payload call. unfold Flow.discoverEvents. fold payload.
  cbn [Flow.andThen Flow.run].
  destruct (Flow.discovery w traceId payload) as [m | st text events] eqn:Hreply.
  - right. exists m. reflexivity.
  - destruct (statusOk st) eqn:Hok; cbn [negb].
    + destruct events as [discovered | m].
      * left. exists st, text, discovered. split; [reflexivity|]. split; [exact Hok|].
        rewrite run_flow_andThen, run_mapEvents. cbn [Flow.run]. rewrite app_nil_r.
        reflexivity.
      * right. exists m. reflexivity.
    + destruct text as [errorText | m]; right; eexists; reflexivity.
Qed.

(** The run of the digest step. *)
Lemma run_postDigest (w : Flow.World) (walls ticks : nat)
    (supabaseUrl key : option string) (traceId : string) (b : Flow.StoredBrief)
    (events : list Flow.BriefEvent) :
  let call :=
    Flow.ESendDigest (Flow.templ supabaseUrl +:+ "/functions/v1/send-digest")
      ("Bearer " +:+ Flow.templ key) traceId (Flow.delivery_method b)
      (Flow.delivery_contact b) (Flow.name b) events in
  (exists st text data,
      Flow.digest w traceId (Flow.delivery_method b) (Flow.delivery_contact b)
        (Flow.name b) events = Flow.DigestHttp st text data
      /\ statusOk st = true
      /\ Flow.run w walls ticks (Flow.postDigest supabaseUrl key traceId b events)
         = (Returned data, [call], (walls, ticks)))
  \/ (exists message,
        Flow.run w walls ticks (Flow.postDigest supabaseUrl key traceId b events)
        = (Thrown message, [call], (walls, ticks))).
Proof.
  intros call. unfold Flow.postDigest. cbn [Flow.andThen Flow.run].
  destruct (Flow.digest w traceId _ _ _ events) as [m | st text data] eqn:Hreply.
  - right. exists m. reflexivity.
  - destruct (statusOk st) eqn:Hok; cbn [negb].
    + left. exists st, text, data. split; [reflexivity|]. split; [exact Hok|]. reflexivity.
    + destruct text as [errorText | m]; right; eexists; reflexivity.
Qed.

End FlowFacts.

Section TriggerFacts.

Lemma mappedFrom_length (w : Flow.World) (ticks idx : nat) (es : list Event) :
  List.length (mappedFrom w ticks idx es) = List.length es.
Proof.
  revert ticks idx. induction es as [|e es IH]; intros ticks idx; [reflexivity|].
  cbn [mappedFrom List.length]. rewrite IH. reflexivity.
Qed.

(** The runs of the pipeline of a brief: discovery fails; discovery
    succeeds and the digest fails; both succeed. *)
Lemma run_afterBrief (w : Flow.World) (walls ticks : nat)
    (supabaseUrl key : option string) (traceId : string) (b : Flow.StoredBrief) :
  let r := Flow.run w walls ticks (TriggerBrief.afterBrief supabaseUrl key traceId b) in
  (exists message,
      (forall discovered, ~ discovers w traceId b discovered)
      /\ fst r = (TriggerBrief.mkResponse 500 (TriggerBrief.ErrorBody message traceId),
                  [discoverCall supabaseUrl key traceId b]))
  \/ (exists discovered,
        discovers w traceId b discovered
        /\ let events := mappedFrom w ticks 0 discovered in
           let trace :=
             (discoverCall supabaseUrl key traceId b
              :: repeat Flow.EDateNow (List.length discovered)
              ++ [digestCall supabaseUrl key traceId b events])%list in
           (exists message,
               ~ digestAccepted w traceId b events
               /\ fst r
                  = (TriggerBrief.mkResponse 500
                       (TriggerBrief.ErrorBody message traceId), trace))
           \/ (digestAccepted w traceId b events
               /\ fst r
                  = (TriggerBrief.mkResponse 200
                       (TriggerBrief.TriggeredBody traceId (Flow.id b) (Flow.name b)
                          (List.length discovered) (Flow.delivery_method b)),
                     trace))).
Proof.
  intros r. subst r. unfold TriggerBrief.afterBrief. rewrite run_flow_andThen.
  destruct (run_discoverEvents w walls ticks supabaseUrl key traceId b)
    as [(st & text & discovered & Hreply & Hok & ->) | (message & Hrun)].
  - right. exists discovered. split; [exists st, text; auto|]. cbv zeta.
    rewrite run_flow_andThen.
    destruct (run_postDigest w walls (ticks + List.length discovered) supabaseUrl key
                traceId b (mappedFrom w ticks 0 discovered))
      as [(st' & text' & data & Hreply' & Hok' & ->) | (message & Hrun)].
    + right. split; [exists st', text', data; auto|].
      cbn [Flow.run fst]. rewrite mappedFrom_length, app_nil_r. reflexivity.
    + left. exists message. split.
      * intros (st' & text' & data & Hreply' & Hok').
        unfold Flow.postDigest in Hrun. cbn [Flow.andThen Flow.run] in Hrun.
        rewrite Hreply', Hok' in Hrun. cbn in Hrun. discriminate Hrun.
      * rewrite Hrun. cbn [Flow.run fst]. rewrite app_nil_r. reflexivity.
  - left. exists message. split.
    + intros discovered (st & text & Hreply & Hok).
      unfold Flow.discoverEvents in Hrun. cbn [Flow.andThen Flow.run] in Hrun.
      rewrite Hreply, Hok in Hrun. cbn [negb] in Hrun.
      rewrite run_flow_andThen, run_mapEvents in Hrun. cbn in Hrun. discriminate Hrun.
    + rewrite Hrun. cbn [Flow.run fst]. reflexivity.
Qed.

End TriggerFacts.

Section TriggerHandlerFacts.

Lemma replaceFirst_prefix (pattern replacement s : string) :
  String.prefix pattern s = true ->
  TriggerBrief.replaceFirst pattern replacement s
  = replacement +:+ sliceFrom (String.length pattern) s.
Proof. intros Hp. destruct s; cbn [TriggerBrief.replaceFirst]; rewrite Hp; reflexivity. Qed.

Lemma outcome_unit (o : Outcome unit) : (exists m, o = Thrown m) \/ o = Returned tt.
Proof. destruct o as [[]|m]; eauto. Qed.

(** The runs of the manual trigger: it stops before the pipeline with an
    error, having made a prefix of its four preparatory calls, or it runs
    the pipeline for a brief that the caller owns. *)
Lemma run_trigger (w : Flow.World) (req : TriggerBrief.Request) :
  String.eqb (TriggerBrief.method req) "OPTIONS" = false ->
  let url := Flow.env w "SUPABASE_URL" in
  let anon := Flow.env w "SUPABASE_ANON_KEY" in
  let service := Flow.env w "SUPABASE_SERVICE_ROLE_KEY" in
  let r := fst (Flow.run w 0 0 (TriggerBrief.handler req)) in
  ((forall userId briefId b, ~ ownedBrief w req userId briefId b)
   /\ exists code message calls,
       r = (TriggerBrief.mkResponse code (TriggerBrief.ErrorBody message (Flow.traceIds w)),
            (triggerPrelude ++ calls)%list)
       /\ In code [400; 401; 404; 500]%nat
       /\ (calls = []
           \/ exists authHeader,
               TriggerBrief.authorization req = Some authHeader
               /\ authHeader = "Bearer " +:+ sliceFrom 7 authHeader
               /\ (calls = [Flow.EClient url anon]
                   \/ calls = [Flow.EClient url anon; Flow.EClaims (sliceFrom 7 authHeader)]
                   \/ exists userId briefId,
                       Flow.claimsOf w (sliceFrom 7 authHeader)
                       = Flow.ClaimsResult false (Some userId)
                       /\ TriggerBrief.json req = Returned (Some briefId)
                       /\ (calls
                           = [Flow.EClient url anon;
                              Flow.EClaims (sliceFrom 7 authHeader);
                              Flow.EClient url service]
                           \/ calls
                              = [Flow.EClient url anon;
                                 Flow.EClaims (sliceFrom 7 authHeader);
                                 Flow.EClient url service;
                                 Flow.ESelectBrief briefId userId]))))
  \/ (exists userId briefId b authHeader,
        ownedBrief w req userId briefId b
        /\ TriggerBrief.authorization req = Some authHeader
        /\ r = (fst (fst (Flow.run w 0 0
                            (TriggerBrief.afterBrief url service (Flow.traceIds w) b))),
                (triggerPrelude
                 ++ [Flow.EClient url anon; Flow.EClaims (sliceFrom 7 authHeader);
                     Flow.EClient url service; Flow.ESelectBrief briefId userId]
                 ++ snd (fst (Flow.run w 0 0
                                (TriggerBrief.afterBrief url service (Flow.traceIds w)
                                   b))))%list)).
Proof.
  intros Hm url anon service r. subst r url anon service.
  unfold TriggerBrief.handler. rewrite Hm. cbn [Flow.andThen Flow.run].
  destruct (TriggerBrief.authorization req) as [authHeader|] eqn:Hauth.
  2: { left. split.
       - intros u i b (h & Ha & _). congruence.
       - exists 401%nat. eexists. exists []. cbn. auto 10. }
  destruct (startsWith authHeader "Bearer ") eqn:Hbearer; cbn [negb].
  2: { left. split.
       - intros u i b (h & Ha & Hh & _). assert (h = authHeader) by congruence. subst h.
         rewrite Hh, startsWith_append in Hbearer. discriminate Hbearer.
       - exists 401%nat. eexists. exists []. cbn. auto 10. }
  pose proof (prefix_split "Bearer " authHeader Hbearer) as Hsplit.
  change (String.length "Bearer ") with 7%nat in Hsplit.
  assert (Htoken : TriggerBrief.replaceFirst "Bearer " EmptyString authHeader
                   = sliceFrom 7 authHeader)
    by (rewrite (replaceFirst_prefix _ _ _ Hbearer); reflexivity).
  rewrite Htoken. clear Htoken.
  set (token := sliceFrom 7 authHeader) in *.
  cbn [Flow.andThen Flow.run].
  destruct (Flow.client w _ (Flow.env w "SUPABASE_ANON_KEY")) as [[]|m] eqn:Hclient.
  2: { left. split.
       - intros u i b (h & Ha & _ & Hc & _). congruence.
       - exists 500%nat, m. eexists. cbn. split; [reflexivity|].
         split; [auto 10|]. right. exists authHeader. auto. }
  cbn [Flow.andThen Flow.run].
  destruct (Flow.claimsOf w token) as [m | claimsError claims] eqn:Hclaims.
  { left. split.
    - intros u i b (h & Ha & _ & _ & Hc & _). assert (h = authHeader) by congruence.
      subst h. unfold token in *. congruence.
    - exists 500%nat, m. eexists. cbn. split; [reflexivity|].
      split; [auto 10|]. right. exists authHeader. auto 6. }
  destruct claims as [userId|].
  2: { left. split.
       - intros u i b (h & Ha & _ & _ & Hc & _). assert (h = authHeader) by congruence.
         subst h. unfold token in *. congruence.
       - exists 401%nat. eexists. eexists. cbn. split; [reflexivity|].
         split; [auto 10|]. right. exists authHeader. auto 6. }
  destruct claimsError.
  { left. split.
    - intros u i b (h & Ha & _ & _ & Hc & _). assert (h = authHeader) by congruence.
      subst h. unfold token in *. congruence.
    - exists 401%nat. eexists. eexists. cbn. split; [reflexivity|].
      split; [auto 10|]. right. exists authHeader. auto 6. }
  unfold TriggerBrief.afterClaims.
  destruct (TriggerBrief.json req) as [briefId | m] eqn:Hjson.
  2: { left. split.
       - intros u i b (h & _ & _ & _ & _ & Hj & _). congruence.
       - exists 500%nat, m. eexists. cbn. split; [reflexivity|].
         split; [auto 10|]. right. exists authHeader. auto 6. }
  destruct (truthyOpt briefId) eqn:Hid; cbn [negb].
  2: { left. split.
       - intros u i b (h & _ & _ & _ & _ & Hj & Ht & _).
         assert (briefId = Some i) by congruence. subst briefId.
         cbn in Hid. congruence.
       - exists 400%nat. eexists. eexists. cbn. split; [reflexivity|].
         split; [auto 10|]. right. exists authHeader. auto 6. }
  destruct briefId as [briefId|]; [|discriminate Hid].
  change (default EmptyString (Some briefId)) with briefId. cbn [truthyOpt] in Hid.
  cbn [Flow.andThen Flow.run].
  destruct (Flow.client w _ (Flow.env w "SUPABASE_SERVICE_ROLE_KEY")) as [[]|m]
    eqn:Hservice.
  2: { left. split.
       - intros u i b (h & _ & _ & _ & _ & _ & _ & Hc & _). congruence.
       - exists 500%nat, m. eexists. cbn. split; [reflexivity|].
         split; [auto 10|]. right. exists authHeader. split; [reflexivity|].
         split; [exact Hsplit|]. right. right. exists userId, briefId. auto. }
  cbn [Flow.andThen Flow.run].
  assert (Hsame : forall u i b, ownedBrief w req u i b -> u = userId /\ i = briefId
                                /\ Flow.briefOf w briefId userId
                                   = Flow.SelectResult false (Some b)).
  { intros u i b (h & Ha & _ & _ & Hc & Hj & _ & _ & Hb).
    assert (h = authHeader) by congruence. subst h. unfold token in *.
    assert (u = userId) by congruence. assert (i = briefId) by congruence.
    subst u i. auto. }
  destruct (Flow.briefOf w briefId userId) as [m | briefError brief] eqn:Hbrief.
  { left. split.
    - intros u i b (_ & _ & Hb)%Hsame. discriminate Hb.
    - exists 500%nat, m. eexists. cbn. split; [reflexivity|].
      split; [auto 10|]. right. exists authHeader. split; [reflexivity|].
      split; [exact Hsplit|]. right. right. exists userId, briefId. auto. }
  destruct brief as [b|].
  2: { left. split.
       - intros u i b (_ & _ & Hb)%Hsame. discriminate Hb.
       - exists 404%nat. eexists. eexists. cbn. split; [reflexivity|].
         split; [auto 10|]. right. exists authHeader. split; [reflexivity|].
         split; [exact Hsplit|]. right. right. exists userId, briefId. auto. }
  destruct briefError.
  { left. split.
    - intros u i b' (_ & _ & Hb)%Hsame. discriminate Hb.
    - exists 404%nat. eexists. eexists. cbn. split; [reflexivity|].
      split; [auto 10|]. right. exists authHeader. split; [reflexivity|].
      split; [exact Hsplit|]. right. right. exists userId, briefId. auto. }
  right. exists userId, briefId, b, authHeader. split.
  { exists authHeader. auto 10. }
  split; [reflexivity|].
  destruct (Flow.run w 0 0 (TriggerBrief.afterBrief _ _ (Flow.traceIds w) b))
    as [[r' tr'] n']. reflexivity.
Qed.

End TriggerHandlerFacts.

Section TriggerTheorems.

Lemma pair_fst_snd {A B : Type} (p : A * B) (x : A) (y : B) :
  p = (x, y) -> fst p = x /\ snd p = y.
Proof. intros ->. split; reflexivity. Qed.

Lemma In_repeat_DateNow (e : Flow.Effect) (n : nat) :
  In e (repeat Flow.EDateNow n) -> e = Flow.EDateNow.
Proof. intros Hin. exact (repeat_spec _ _ _ Hin). Qed.

(** The trace of the pipeline: each of its calls, and what allowed it. *)
Lemma afterBrief_calls (w : Flow.World) (walls ticks : nat)
    (supabaseUrl key : option string) (traceId : string) (b : Flow.StoredBrief)
    (e : Flow.Effect) :
  In e (snd (fst (Flow.run w walls ticks
                    (TriggerBrief.afterBrief supabaseUrl key traceId b)))) ->
  e = discoverCall supabaseUrl key traceId b
  \/ e = Flow.EDateNow
  \/ exists discovered,
      discovers w traceId b discovered
      /\ e = digestCall supabaseUrl key traceId b (mappedFrom w ticks 0 discovered).
Proof.
  destruct (run_afterBrief w walls ticks supabaseUrl key traceId b)
    as [(m & _ & ->) | (discovered & Hd & [(m & _ & ->) | (_ & ->)])]; cbn [fst snd].
  - intros [<- | []]. auto.
  - intros [<- | [Hin | [<- | []]]%in_app_or]; eauto using In_repeat_DateNow.
  - intros [<- | [Hin | [<- | []]]%in_app_or]; eauto using In_repeat_DateNow.
Qed.

(** X15.  Who may trigger a brief.  The manual trigger answers with status
    200, 400, 401, 404 or 500.  It calls no other service for a request
    without a bearer token; it looks up a brief only with the identifier
    of the request body and the user that the valid claims of the token
    name; and it calls the discovery or the digest function only for a
    stored brief of that user.  The discovery call carries the venues,
    genres, artists and schedule of that brief, and the digest call its
    delivery method, contact and name and the mapped events of a
    successful discovery, both under the trace identifier of the run. *)
Theorem trigger_authorization (w : Flow.World) (req : TriggerBrief.Request) :
  let r := fst (fst (Flow.run w 0 0 (TriggerBrief.handler req))) in
  let trace := snd (fst (Flow.run w 0 0 (TriggerBrief.handler req))) in
  let url := Flow.env w "SUPABASE_URL" in
  let service := Flow.env w "SUPABASE_SERVICE_ROLE_KEY" in
  In (TriggerBrief.status r) [200; 400; 401; 404; 500]%nat
  /\ (forall e, In e trace -> Flow.isRemote e = true ->
        exists authHeader,
          TriggerBrief.authorization req = Some authHeader
          /\ startsWith authHeader "Bearer " = true)
  /\ (forall briefId userId, In (Flow.ESelectBrief briefId userId) trace ->
        TriggerBrief.json req = Returned (Some briefId)
        /\ exists authHeader,
            TriggerBrief.authorization req = Some authHeader
            /\ authHeader = "Bearer " +:+ sliceFrom 7 authHeader
            /\ Flow.claimsOf w (sliceFrom 7 authHeader)
               = Flow.ClaimsResult false (Some userId))
  /\ (forall e, In e trace -> Flow.isDiscover e || Flow.isSendDigest e = true ->
        exists userId briefId b,
          ownedBrief w req userId briefId b
          /\ (e = discoverCall url service (Flow.traceIds w) b
              \/ exists discovered,
                  discovers w (Flow.traceIds w) b discovered
                  /\ e = digestCall url service (Flow.traceIds w) b
                           (mappedFrom w 0 0 discovered))).
Proof.
  intros r trace url service. subst r trace.
  destruct (String.eqb (TriggerBrief.method req) "OPTIONS") eqn:Hm.
  { unfold TriggerBrief.handler. rewrite Hm. cbn.
    split; [auto|]. split; [intros e []|]. split; [intros ? ? []|intros e []]. }
  destruct (run_trigger w req Hm)
    as [(_ & code & m & calls & Hrun & Hcode & Hcalls)
       | (userId & briefId & b & authHeader & Howned & Hauth & Hrun)];
    cbv zeta in Hrun.
  - apply pair_fst_snd in Hrun as [-> ->]. cbn [TriggerBrief.status].
    assert (Hshape : forall e, In e (triggerPrelude ++ calls)%list ->
                       Flow.isRemote e = true \/ Flow.isDiscover e = true
                       \/ Flow.isSendDigest e = true ->
                       (Flow.isDiscover e = false /\ Flow.isSendDigest e = false)
                       /\ exists authHeader,
                           TriggerBrief.authorization req = Some authHeader
                           /\ authHeader = "Bearer " +:+ sliceFrom 7 authHeader
                           /\ (e = Flow.EClaims (sliceFrom 7 authHeader)
                               \/ exists userId briefId,
                                   e = Flow.ESelectBrief briefId userId
                                   /\ Flow.claimsOf w (sliceFrom 7 authHeader)
                                      = Flow.ClaimsResult false (Some userId)
                                   /\ TriggerBrief.json req = Returned (Some briefId))).
    { intros e [Hin | Hin]%in_app_or Hkind.
      { cbn in Hin. destruct Hin as [<- | [<- | [<- | [<- | []]]]];
          cbn in Hkind; intuition discriminate. }
      destruct Hcalls as [-> | (h & Hh & Hsplit & Hcalls)]; [destruct Hin|].
      destruct Hcalls as [-> | [-> | (u & i & Hc & Hj & [-> | ->])]]; cbn in Hin.
      - destruct Hin as [<- | []]. cbn in Hkind. intuition discriminate.
      - destruct Hin as [<- | [<- | []]]; cbn in Hkind; [intuition discriminate|].
        split; [auto|]. exists h. auto.
      - destruct Hin as [<- | [<- | [<- | []]]]; cbn in Hkind;
          try (intuition discriminate).
        split; [auto|]. exists h. auto.
      - destruct Hin as [<- | [<- | [<- | [<- | []]]]]; cbn in Hkind;
          try (intuition discriminate).
        + split; [auto|]. exists h. auto.
        + split; [auto|]. exists h. split; [exact Hh|]. split; [exact Hsplit|].
          right. exists u, i. auto. }
    split; [right; exact Hcode|]. split; [|split].
    + intros e Hin Hremote.
      destruct (Hshape e Hin (or_introl Hremote)) as (_ & h & Hh & Hsplit & _).
      exists h. split; [exact Hh|]. rewrite Hsplit. apply startsWith_append.
    + intros i u Hin.
      destruct (Hshape _ Hin (or_introl eq_refl))
        as (_ & h & Hh & Hsplit & [[=] | (u' & i' & [= <- <-] & Hc & Hj)]).
      split; [exact Hj|]. exists h. auto.
    + intros e Hin Hkind. exfalso.
      apply orb_true_iff in Hkind.
      destruct (Hshape e Hin (or_intror Hkind)) as ((Hd & Hs) & _).
      destruct Hkind; congruence.
  - pose proof (run_afterBrief w 0 0 (Flow.env w "SUPABASE_URL")
                  (Flow.env w "SUPABASE_SERVICE_ROLE_KEY") (Flow.traceIds w) b) as Hpipe.
    pose proof (afterBrief_calls w 0 0 (Flow.env w "SUPABASE_URL")
                  (Flow.env w "SUPABASE_SERVICE_ROLE_KEY") (Flow.traceIds w) b) as Hcalls.
    cbv zeta in Hpipe.
    apply pair_fst_snd in Hrun as [-> ->].
    set (pipe := Flow.run w 0 0 (TriggerBrief.afterBrief _ _ (Flow.traceIds w) b)) in *.
    pose proof Howned as (h & Hh & Hsplit & _ & Hclaims & Hjson & _ & _ & Hbrief).
    assert (h = authHeader) by congruence. subst h.
    split.
    { destruct Hpipe as [(m & _ & [-> _]%pair_fst_snd)
                        | (discovered & Hd & [(m & _ & [-> _]%pair_fst_snd)
                                             | (_ & [-> _]%pair_fst_snd)])];
        cbn; auto 10. }
    split; [|split].
    + intros e _ _. exists authHeader. split; [exact Hauth|].
      rewrite Hsplit. apply startsWith_append.
    + intros i u [Hin | [Hin | Hin]%in_app_or]%in_app_or.
      * cbn in Hin. intuition discriminate.
      * cbn in Hin. destruct Hin as [[=] | [[=] | [[=] | [[= <- <-] | []]]]].
        split; [exact Hjson|]. exists authHeader. auto.
      * apply Hcalls in Hin as [[=] | [[=] | (d & _ & [=])]].
    + intros e [Hin | [Hin | Hin]%in_app_or]%in_app_or Hkind.
      * cbn in Hin. destruct Hin as [<- | [<- | [<- | [<- | []]]]]; discriminate Hkind.
      * cbn in Hin. destruct Hin as [<- | [<- | [<- | [<- | []]]]]; discriminate Hkind.
      * exists userId, briefId, b. split; [exact Howned|].
        apply Hcalls in Hin as [-> | [-> | Hin]]; auto.
        discriminate Hkind.
Qed.

Lemma ownedBrief_unique (w : Flow.World) (req : TriggerBrief.Request)
    (u u' i i' : string) (b b' : Flow.StoredBrief) :
  ownedBrief w req u i b -> ownedBrief w req u' i' b' -> u = u' /\ i = i' /\ b = b'.
Proof.
  intros (h & Hh & _ & _ & Hc & Hj & _ & _ & Hb) (h' & Hh' & _ & _ & Hc' & Hj' & _ & _ & Hb').
  assert (h = h') by congruence. subst h'.
  assert (u = u') by congruence. assert (i = i') by congruence. subst u' i'.
  split; [reflexivity|]. split; [reflexivity|]. congruence.
Qed.

(** X16.  When a trigger succeeds.  The manual trigger reports a sent
    digest exactly when the caller owns the brief, the discovery function
    answered successfully and the digest function accepted the digest of
    the mapped events; the report then names the brief and counts the
    discovered events.  In every other case of a request that is not a
    preflight the answer is an error that carries the trace identifier of
    the run, and a failed discovery sends no digest. *)
Theorem trigger_success_iff (w : Flow.World) (req : TriggerBrief.Request) :
  let r := fst (fst (Flow.run w 0 0 (TriggerBrief.handler req))) in
  let trace := snd (fst (Flow.run w 0 0 (TriggerBrief.handler req))) in
  (forall traceId briefId briefName n deliveryMethod,
      TriggerBrief.body r
      = TriggerBrief.TriggeredBody traceId briefId briefName n deliveryMethod
      <-> String.eqb (TriggerBrief.method req) "OPTIONS" = false
          /\ exists userId requested b discovered,
              ownedBrief w req userId requested b
              /\ discovers w (Flow.traceIds w) b discovered
              /\ digestAccepted w (Flow.traceIds w) b (mappedFrom w 0 0 discovered)
              /\ traceId = Flow.traceIds w /\ briefId = Flow.id b
              /\ briefName = Flow.name b /\ n = List.length discovered
              /\ deliveryMethod = Flow.delivery_method b)
  /\ (String.eqb (TriggerBrief.method req) "OPTIONS" = false ->
      (TriggerBrief.status r = 200%nat /\ exists i bn n dm,
            TriggerBrief.body r = TriggerBrief.TriggeredBody (Flow.traceIds w) i bn n dm)
      \/ (TriggerBrief.status r <> 200%nat /\ exists message,
            TriggerBrief.body r = TriggerBrief.ErrorBody message (Flow.traceIds w)))
  /\ (existsb Flow.isSendDigest trace = true -> existsb Flow.isDiscover trace = true
      /\ exists userId requested b discovered,
          ownedBrief w req userId requested b
          /\ discovers w (Flow.traceIds w) b discovered).
Proof.
  intros r trace. subst r trace.
  destruct (String.eqb (TriggerBrief.method req) "OPTIONS") eqn:Hm.
  { unfold TriggerBrief.handler. rewrite Hm. cbn.
    split; [|split; discriminate].
    intros. split; [discriminate | intros [[=] _]]. }
  destruct (run_trigger w req Hm)
    as [(Hnot & code & m & calls & Hrun & Hcode & Hcalls)
       | (userId & briefId & b & authHeader & Howned & Hauth & Hrun)];
    cbv zeta in Hrun.
  - apply pair_fst_snd in Hrun as [-> ->]. cbn [TriggerBrief.status TriggerBrief.body].
    split; [|split].
    + intros. split; [discriminate|].
      intros (_ & u & i & b & d & Ho & _). exfalso. exact (Hnot _ _ _ Ho).
    + intros _. right. split; [|eauto].
      cbn in Hcode. intuition (subst; discriminate).
    + intros Hsend. exfalso.
      apply existsb_exists in Hsend as (e & [Hin | Hin]%in_app_or & He).
      * cbn in Hin. destruct Hin as [<- | [<- | [<- | [<- | []]]]]; discriminate He.
      * destruct Hcalls as [-> | (h & _ & _ & [-> | [-> | (u & i & _ & _ & [-> | ->])]])];
          cbn in Hin; intuition (subst; discriminate).
  - pose proof (run_afterBrief w 0 0 (Flow.env w "SUPABASE_URL")
                  (Flow.env w "SUPABASE_SERVICE_ROLE_KEY") (Flow.traceIds w) b) as Hpipe.
    cbv zeta in Hpipe.
    apply pair_fst_snd in Hrun as [-> ->].
    set (pipe := Flow.run w 0 0 (TriggerBrief.afterBrief _ _ (Flow.traceIds w) b)) in *.
    destruct Hpipe
      as [(m & Hnone & [-> ->]%pair_fst_snd)
         | (discovered & Hd & [(m & Hnone & [-> ->]%pair_fst_snd)
                              | (Hacc & [-> ->]%pair_fst_snd)])];
      cbn [TriggerBrief.status TriggerBrief.body].
    + split; [|split].
      * intros. split; [discriminate|].
        intros (_ & u & i & b' & d & Ho & Hd & _). exfalso.
        destruct (ownedBrief_unique _ _ _ _ _ _ _ _ Howned Ho) as (_ & _ & <-).
        exact (Hnone _ Hd).
      * intros _. right. split; [discriminate | eauto].
      * intros Hsend. exfalso.
        apply existsb_exists in Hsend as (e & [Hin | [Hin | Hin]%in_app_or]%in_app_or & He);
          cbn in Hin; intuition (subst; discriminate).
    + assert (Hdisc : forall d, discovers w (Flow.traceIds w) b d -> d = discovered).
      { intros d (st & text & Hr & _). destruct Hd as (st' & text' & Hr' & _).
        congruence. }
      split; [|split].
      * intros. split; [discriminate|].
        intros (_ & u & i & b' & d & Ho & Hd' & Hacc & _). exfalso.
        destruct (ownedBrief_unique _ _ _ _ _ _ _ _ Howned Ho) as (_ & _ & <-).
        apply Hdisc in Hd'. subst d. exact (Hnone Hacc).
      * intros _. right. split; [discriminate | eauto].
      * intros _. split; [|eauto 6].
        apply existsb_exists. exists (discoverCall (Flow.env w "SUPABASE_URL")
                                        (Flow.env w "SUPABASE_SERVICE_ROLE_KEY")
                                        (Flow.traceIds w) b).
        split; [|reflexivity]. apply in_or_app. right. apply in_or_app. right.
        left. reflexivity.
    + assert (Hdisc : forall d, discovers w (Flow.traceIds w) b d -> d = discovered).
      { intros d (st & text & Hr & _). destruct Hd as (st' & text' & Hr' & _).
        congruence. }
      split; [|split].
      * intros tid bid bn k dm. split.
        -- intros [= <- <- <- <- <-]. split; [reflexivity|].
           exists userId, briefId, b, discovered. auto 10.
        -- intros (_ & u & i & b' & d & Ho & Hd' & _ & -> & -> & -> & -> & ->).
           destruct (ownedBrief_unique _ _ _ _ _ _ _ _ Howned Ho) as (_ & _ & <-).
           apply Hdisc in Hd'. subst d. reflexivity.
      * intros _. left. split; [reflexivity | eauto 6].
      * intros _. split; [|eauto 6].
        apply existsb_exists. exists (discoverCall (Flow.env w "SUPABASE_URL")
                                        (Flow.env w "SUPABASE_SERVICE_ROLE_KEY")
                                        (Flow.traceIds w) b).
        split; [|reflexivity]. apply in_or_app. right. apply in_or_app. right.
        left. reflexivity.
Qed.

End TriggerTheorems.

Section MappingFacts.
Local Arguments String.append !_ _ / : simpl nomatch.
















End MappingFacts.


(** The owner's request is answered with the count of the two discovered
    events; the same request without a token calls no other service. *)
Lemma trigger_success_iff_witness :
  TriggerBrief.body
    (fst (fst (Flow.run SampleTrigger.world 0 0
                 (TriggerBrief.handler SampleTrigger.request))))
  = TriggerBrief.TriggeredBody "manual_1793620800000_0a1b2c3d" "b1" "Weekend jazz" 2
      "whatsapp".
Proof.
  apply (trigger_success_iff SampleTrigger.world SampleTrigger.request).
  split; [reflexivity|].
  exists "u1", "b1", SampleTrigger.stored,
    [SampleAnswers.jazzEvent; SampleTrigger.second].
  split.
  { exists "Bearer tok". repeat split. }
  split; [exists 200%nat, (Returned EmptyString); split; reflexivity|].
  split; [exists 200%nat, (Returned EmptyString), (Returned tt); split; reflexivity|].
  repeat split.
Defined.

Lemma trigger_authorization_witness :
  forallb (fun e => negb (Flow.isRemote e))
    (snd (fst (Flow.run SampleTrigger.world 0 0
                 (TriggerBrief.handler SampleTrigger.anonymous)))) = true.
Proof.
  destruct (trigger_authorization SampleTrigger.world SampleTrigger.anonymous)
    as (_ & Hremote & _).
  apply forallb_forall. intros e He.
  destruct (Flow.isRemote e) eqn:Hr; [|reflexivity].
  destruct (Hremote e He Hr) as (h & [=] & _).
Defined.

(** ** The scheduled run *)

Section ScheduleFacts.
Import ProcessScheduledBriefs.
Context `{N : Numbers} (E : ExactNumbers).

Lemma run_shouldSendBrief (w : Flow.World) (walls ticks : nat) (sch : Flow.Schedule) :
  exists due,
    Flow.run w walls ticks (shouldSendBrief sch)
    = (due, [Flow.EIsraelTime], (S walls, ticks)).
Proof.
  unfold shouldSendBrief. cbn [Flow.andThen Flow.run].
  destruct (negb _); eexists; reflexivity.
Qed.

Lemma total_minutes (h m : Z) :
  (0 <= h < 2 ^ 32)%Z -> (0 <= m < 2 ^ 32)%Z ->
  add (mul (lit h) (lit 60)) (lit m) = lit (h * 60 + m).
Proof.
  intros Hh Hm.
  assert (H53 : (2 ^ 53 = 9007199254740992)%Z) by reflexivity.
  assert (H32 : (2 ^ 32 = 4294967296)%Z) by reflexivity.
  rewrite (lit_mul E), (lit_add E); try reflexivity; lia.
Qed.

(** The comparison of the check, once the two parts of the time are read
    as integers: the clock lies in the 10 minutes from the scheduled
    minute. *)
Lemma due_in_window (w : Flow.World) (walls ticks : nat)
    (sch : Flow.Schedule) (hh mm : string) (rest : list string) (h m : Z) :
  splitOn ":"%char (Flow.time sch) = hh :: mm :: rest ->
  Number hh = lit h -> Number mm = lit m ->
  (0 <= h < 2 ^ 32)%Z -> (0 <= m < 2 ^ 32)%Z ->
  let now := Flow.israelTime w walls in
  (Flow.getHours now <= 23)%nat -> (Flow.getMinutes now <= 59)%nat ->
  let current := (Z.of_nat (Flow.getHours now) * 60 + Z.of_nat (Flow.getMinutes now))%Z in
  let scheduled := (h * 60 + m)%Z in
  fst (fst (Flow.run w walls ticks (shouldSendBrief sch))) = true <->
  nth_error DAYS_OF_WEEK (Flow.getDay now) = Some (Flow.dayOfWeek sch)
  /\ (scheduled <= current < scheduled + 10)%Z.
Proof.
  intros Hsplit Hhh Hmm Hh Hm now Hhours Hminutes current scheduled.
  unfold shouldSendBrief. cbn [Flow.andThen Flow.run]. fold now.
  rewrite Hsplit. cbn [List.map nth_error]. unfold toNumber, default, from_option, id.
  rewrite Hhh, Hmm.
  assert (H53 : (2 ^ 53 = 9007199254740992)%Z) by reflexivity.
  assert (H32 : (2 ^ 32 = 4294967296)%Z) by reflexivity.
  rewrite !total_minutes by lia. fold current scheduled.
  rewrite (lit_add E) by (subst scheduled; lia).
  rewrite (lit_geb E), (lit_ltb E) by (subst current scheduled; lia).
  case_bool_decide as Hday; cbn [negb Flow.run fst].
  - rewrite andb_true_iff, Z.leb_le, Z.ltb_lt. split.
    + intros [H1 H2]. split; [congruence | lia].
    + intros [_ H1]. lia.
  - split; [discriminate|]. intros [Hd _]. congruence.
Qed.

(** X18.  When a brief is due.  For a schedule whose time has an hour
    part and a minute part that read as integers, checked against a wall
    clock with hours up to 23 and minutes up to 59, the brief is due
    exactly when the day of the schedule is the day of the wall clock and
    the minute of the day lies in the 10 minutes that start at the
    scheduled minute.  The check reads the wall clock once and nothing
    else. *)
Theorem shouldSendBrief_window (w : Flow.World) (walls ticks : nat)
    (sch : Flow.Schedule) (hh mm : string) (rest : list string) (h m : Z) :
  splitOn ":"%char (Flow.time sch) = hh :: mm :: rest ->
  Number hh = lit h -> Number mm = lit m ->
  (0 <= h < 2 ^ 32)%Z -> (0 <= m < 2 ^ 32)%Z ->
  let now := Flow.israelTime w walls in
  (Flow.getHours now <= 23)%nat -> (Flow.getMinutes now <= 59)%nat ->
  let current := (Z.of_nat (Flow.getHours now) * 60 + Z.of_nat (Flow.getMinutes now))%Z in
  let scheduled := (h * 60 + m)%Z in
  snd (Flow.run w walls ticks (shouldSendBrief sch)) = (S walls, ticks)
  /\ snd (fst (Flow.run w walls ticks (shouldSendBrief sch))) = [Flow.EIsraelTime]
  /\ (fst (fst (Flow.run w walls ticks (shouldSendBrief sch))) = true <->
      nth_error DAYS_OF_WEEK (Flow.getDay now) = Some (Flow.dayOfWeek sch)
      /\ (scheduled <= current < scheduled + 10)%Z).
Proof.
  intros Hsplit Hhh Hmm Hh Hm now Hhours Hminutes current scheduled.
  destruct (run_shouldSendBrief w walls ticks sch) as (due & Hrun).
  split; [rewrite Hrun; reflexivity|]. split; [rewrite Hrun; reflexivity|].
  exact (due_in_window w walls ticks sch hh mm rest h m
           Hsplit Hhh Hmm Hh Hm Hhours Hminutes).
Qed.

(** X19.  The schedule on a 10-minute grid.  When the check runs at
    minutes that are multiples of 10, as the cron of the scheduled run
    does, a brief is due at exactly one minute of its day: the first grid
    minute at or after its scheduled time.  A brief scheduled after 23:50
    is therefore never due. *)
Theorem schedule_on_the_grid (w : Flow.World) (walls ticks : nat)
    (sch : Flow.Schedule) (hh mm : string) (rest : list string) (h m : Z) :
  splitOn ":"%char (Flow.time sch) = hh :: mm :: rest ->
  Number hh = lit h -> Number mm = lit m ->
  (0 <= h < 2 ^ 32)%Z -> (0 <= m < 2 ^ 32)%Z ->
  let now := Flow.israelTime w walls in
  (Flow.getHours now <= 23)%nat -> (Flow.getMinutes now <= 59)%nat ->
  (Z.of_nat (Flow.getMinutes now) mod 10 = 0)%Z ->
  let current := (Z.of_nat (Flow.getHours now) * 60 + Z.of_nat (Flow.getMinutes now))%Z in
  let scheduled := (h * 60 + m)%Z in
  let due := fst (fst (Flow.run w walls ticks (shouldSendBrief sch))) in
  (due = true <->
   nth_error DAYS_OF_WEEK (Flow.getDay now) = Some (Flow.dayOfWeek sch)
   /\ current = ((scheduled + 9) / 10 * 10)%Z)
  /\ ((23 * 60 + 50 < scheduled)%Z -> due = false).
Proof.
  intros Hsplit Hhh Hmm Hh Hm now Hhours Hminutes Hgrid current scheduled due.
  pose proof (due_in_window w walls ticks sch hh mm rest h m
                Hsplit Hhh Hmm Hh Hm Hhours Hminutes) as Hdue.
  fold now current scheduled due in Hdue.
  assert (Hcur : (current mod 10 = 0)%Z).
  { subst current. revert Hgrid. generalize (Z.of_nat (Flow.getMinutes now)).
    generalize (Z.of_nat (Flow.getHours now)). intros a b Hb.
    Z.div_mod_to_equations. lia. }
  assert (Hfirst : (scheduled <= current < scheduled + 10
                    <-> current = (scheduled + 9) / 10 * 10)%Z).
  { revert Hcur. generalize current scheduled. intros c s Hc.
    Z.div_mod_to_equations. lia. }
  split.
  - rewrite Hdue, Hfirst. reflexivity.
  - intros Hlate. destruct due; [|reflexivity]. exfalso.
    destruct Hdue as [Hdue _]. destruct (Hdue eq_refl) as [_ Hwin].
    subst current. lia.
Qed.

Lemma splitOn_no_separator (s : string) :
  (forall c, In c (list_ascii_of_string s) -> c <> ":"%char) ->
  splitOn ":"%char s = [s].
Proof.
  induction s as [|c s IH]; intros Hno; [reflexivity|].
  cbn [splitOn]. destruct (Ascii.eqb c ":"%char) eqn:Hc.
  - apply Ascii.eqb_eq in Hc. exfalso. apply (Hno c); [left; reflexivity | exact Hc].
  - rewrite IH; [reflexivity|]. intros d Hd. apply Hno. right. exact Hd.
Qed.

(** X20.  Schedules that are never due.  Whatever the wall clock shows,
    a brief is not due when its day is not the name of the day of the
    wall clock, in the English spelling with a capital letter, and a brief
    whose time holds no colon is never due, at any time of any day. *)
Theorem never_due (w : Flow.World) (walls ticks : nat) (sch : Flow.Schedule) :
  let now := Flow.israelTime w walls in
  let due := fst (fst (Flow.run w walls ticks (shouldSendBrief sch))) in
  (nth_error DAYS_OF_WEEK (Flow.getDay now) <> Some (Flow.dayOfWeek sch) -> due = false)
  /\ (~ In (Flow.dayOfWeek sch) DAYS_OF_WEEK -> due = false)
  /\ ((forall c, In c (list_ascii_of_string (Flow.time sch)) -> c <> ":"%char) ->
      due = false).
Proof.
  intros now due. subst due. unfold shouldSendBrief. cbn [Flow.andThen Flow.run]. fold now.
  assert (Hday : nth_error DAYS_OF_WEEK (Flow.getDay now) <> Some (Flow.dayOfWeek sch) ->
                 negb (bool_decide (Some (Flow.dayOfWeek sch)
                                    = nth_error DAYS_OF_WEEK (Flow.getDay now))) = true).
  { intros Hne. rewrite bool_decide_eq_false_2; [reflexivity | congruence]. }
  split; [|split].
  - intros Hne. rewrite (Hday Hne). reflexivity.
  - intros Hnot. rewrite Hday; [reflexivity|].
    intros Hnth. apply Hnot. apply nth_error_In in Hnth. exact Hnth.
  - intros Hno. rewrite (splitOn_no_separator _ Hno).
    cbn [List.map nth_error]. unfold toNumber, default, from_option, id.
    rewrite (add_NaN E), (geb_NaN E).
    destruct (negb _); reflexivity.
Qed.

End ScheduleFacts.

Lemma RefNumbers_exact :
  @ProcessScheduledBriefs.ExactNumbers ProcessScheduledBriefs.RefNumbers.numbers.
Proof.
  constructor; cbn; unfold ProcessScheduledBriefs.RefNumbers.test,
    ProcessScheduledBriefs.RefNumbers.lift; intros.
  - reflexivity.
  - reflexivity.
  - rewrite Z.geb_leb. reflexivity.
  - reflexivity.
  - destruct x; reflexivity.
  - destruct x; reflexivity.
Qed.

(** The sample brief, scheduled for Thursday 09:30, is due on the sample
    wall clock, a Thursday at 09:30. *)
Lemma shouldSendBrief_window_witness :
  fst (fst (Flow.run SampleTrigger.world 0 0
              (ProcessScheduledBriefs.shouldSendBrief
                 (H := ProcessScheduledBriefs.RefNumbers.numbers)
                 (Flow.schedule SampleTrigger.stored)))) = true.
Proof.
  apply (shouldSendBrief_window RefNumbers_exact SampleTrigger.world 0 0
           (Flow.schedule SampleTrigger.stored) "09" "30" [] 9 30);
    try reflexivity; try (cbn; lia).
  split; [reflexivity | cbn; lia].
Defined.

(** On a Thursday at 23:50 a brief scheduled for Thursday 23:55 is not
    due; ten minutes later it is Friday. *)
Lemma schedule_on_the_grid_witness :
  fst (fst (Flow.run SampleSchedule.lateWorld 0 0
              (ProcessScheduledBriefs.shouldSendBrief
                 (H := ProcessScheduledBriefs.RefNumbers.numbers)
                 SampleSchedule.late))) = false.
Proof.
  apply (schedule_on_the_grid RefNumbers_exact SampleSchedule.lateWorld 0 0
           SampleSchedule.late "23" "55" [] 23 55);
    try reflexivity; cbn; lia.
Defined.

(** A time written with a dot is never due. *)
Lemma never_due_witness :
  fst (fst (Flow.run SampleTrigger.world 0 0
              (ProcessScheduledBriefs.shouldSendBrief
                 (H := ProcessScheduledBriefs.RefNumbers.numbers)
                 (Flow.mkSchedule "Thursday" "09.30" "Next 7 days")))) = false.
Proof.
  apply (never_due RefNumbers_exact SampleTrigger.world 0 0
           (Flow.mkSchedule "Thursday" "09.30" "Next 7 days")).
  intros c Hc. cbn in Hc. intuition (subst; discriminate).
Defined.

(** ** The summary of a scheduled run *)

Section BatchFacts.
Import ProcessScheduledBriefs.
Context `{N : Numbers}.







End BatchFacts.


(** ** The validator before and after grounding *)

Section RefinementFacts.
Context `{Runtime}.

Lemma old_validateCandidate_steps (opts : FetchEventsAi.ValidateOpts) (item : JSON) :
  FetchEventsAi.validateCandidate opts item
  = if fieldsPresent item
       && dateInWindow (mkOpts (FetchEventsAi.brief opts) ∅ ∅
                          (FetchEventsAi.start opts) (FetchEventsAi.end_ opts)) item
    then Some (eventOf item) else None.
Proof.
  unfold FetchEventsAi.validateCandidate, fieldsPresent, dateInWindow, eventOf.
  cbn [event_name date venue event_url start end_].
  destruct (notAnObject item); [reflexivity|]. cbn [negb andb].
  destruct (truthy (stringField (getProp item "event_name"))); cbn [negb orb andb];
    [|reflexivity].
  destruct (truthy (stringField (getProp item "date"))); cbn [negb orb andb];
    [|reflexivity].
  destruct (truthy (stringField (getProp item "venue"))); cbn [negb orb andb];
    [|reflexivity].
  destruct (truthy (stringField (getProp item "event_url"))); cbn [negb orb andb];
    [|reflexivity].
  destruct (isNaN (Date_parse (stringField (getProp item "date")))); cbn [negb andb];
    [reflexivity|].
  destruct (date_lt _ (FetchEventsAi.start opts) || date_gt _ (FetchEventsAi.end_ opts));
    reflexivity.
Qed.

Lemma old_collect_omap (opts : FetchEventsAi.ValidateOpts) (items : list JSON) :
  FetchEventsAi.collect opts items = omap (FetchEventsAi.validateCandidate opts) items.
Proof.
  unfold FetchEventsAi.collect.
  assert (Hgen : forall out,
             fold_left
               (fun out item =>
                  match FetchEventsAi.validateCandidate opts item with
                  | Some e => (out ++ [e])%list
                  | None => out
                  end) items out
             = (out ++ omap (FetchEventsAi.validateCandidate opts) items)%list).
  { induction items as [|item items IH]; intros out; simpl.
    - rewrite app_nil_r. reflexivity.
    - rewrite IH. destruct (FetchEventsAi.validateCandidate opts item); simpl.
      + rewrite <- app_assoc. reflexivity.
      + reflexivity. }
  apply (Hgen []).
Qed.

(** X22.  Grounding only removes.  The validator with grounding accepts
    a candidate exactly when the validator without it, given the same
    brief and window, accepts it and the candidate is moreover grounded
    and passes the genre filter, and both then build the same event.  So
    every event of the grounded result is an event that the earlier
    validator accepts, and when every candidate that the earlier validator
    accepts is grounded and passes the genre filter, the two results are
    equal.  The earlier validator also returns at most 10 events with
    pairwise distinct addresses. *)
Theorem grounding_only_removes (raw : JSON) (opts : ValidateOpts) :
  let old := FetchEventsAi.mkOpts (brief opts) (start opts) (end_ opts) in
  (forall item e,
      validateCandidate opts item = Some e <->
      FetchEventsAi.validateCandidate old item = Some e
      /\ grounded opts item = true /\ genreAccepted opts item = true)
  /\ (forall e, In e (validateAndFilterEvents raw opts) ->
        exists item, FetchEventsAi.validateCandidate old item = Some e)
  /\ ((forall items item,
          raw = JArr items -> In item items ->
          FetchEventsAi.validateCandidate old item <> None ->
          grounded opts item = true /\ genreAccepted opts item = true) ->
      validateAndFilterEvents raw opts = FetchEventsAi.validateAndFilterEvents raw old)
  /\ (List.length (FetchEventsAi.validateAndFilterEvents raw old) <= 10)%nat
  /\ NoDup (List.map event_url (FetchEventsAi.validateAndFilterEvents raw old)).
Proof.
  intros old.
  assert (Hstep : forall item e,
             validateCandidate opts item = Some e <->
             FetchEventsAi.validateCandidate old item = Some e
             /\ grounded opts item = true /\ genreAccepted opts item = true).
  { intros item e. rewrite validateCandidate_Some, old_validateCandidate_steps.
    unfold accepted. subst old. cbn [FetchEventsAi.brief FetchEventsAi.start
                                     FetchEventsAi.end_].
    change (dateInWindow (mkOpts (brief opts) ∅ ∅ (start opts) (end_ opts)) item)
      with (dateInWindow opts item).
    destruct (fieldsPresent item), (dateInWindow opts item), (grounded opts item),
      (genreAccepted opts item); cbn [andb];
      (split;
       [ intros [Ht ->]; try discriminate Ht; auto
       | intros (He & Hg & Hge); try discriminate He; try discriminate Hg;
         try discriminate Hge; injection He as <-; auto ]). }
  split; [exact Hstep|]. split; [|split; [|split]].
  - intros e (item & Hacc & ->)%validated_origin. exists item.
    apply (Hstep item (eventOf item)). apply validateCandidate_Some. auto.
  - intros Hall. destruct raw as [| | | |items|]; try reflexivity.
    rewrite validate_unfold. cbn [FetchEventsAi.validateAndFilterEvents].
    rewrite old_collect_omap. do 2 f_equal.
    specialize (Hall items).
    assert (Hin : forall item, In item items ->
                    validateCandidate opts item
                    = FetchEventsAi.validateCandidate old item).
    { intros item Hitem.
      destruct (FetchEventsAi.validateCandidate old item) as [e|] eqn:Hold.
      - apply Hstep. split; [exact Hold|]. apply (Hall item eq_refl Hitem). congruence.
      - destruct (validateCandidate opts item) as [e|] eqn:Hnew; [|reflexivity].
        apply Hstep in Hnew as [Hnew _]. congruence. }
    clear Hall. induction items as [|item items IH]; [reflexivity|].
    change (omap ?f (item :: items))
      with (match f item with Some y => y :: omap f items | None => omap f items end).
    rewrite (Hin item (or_introl eq_refl)), IH; [reflexivity|].
    intros i Hi. apply Hin. right. exact Hi.
  - destruct raw as [| | | |items|]; try (cbn; lia).
    cbn [FetchEventsAi.validateAndFilterEvents]. rewrite length_take. lia.
  - destruct raw as [| | | |items|]; try constructor.
    cbn [FetchEventsAi.validateAndFilterEvents]. rewrite <- firstn_map.
    apply (sublist_NoDup _ (List.map event_url
                              (uniqueBy event_url ∅ (FetchEventsAi.collect old items))));
      [apply uniqueBy_NoDup | apply sublist_take].
Qed.

End RefinementFacts.

(** The fabricated sample candidate passes the earlier validator and not
    the grounded one. *)
Lemma grounding_only_removes_witness :
  FetchEventsAi.validateCandidate (H := RefRuntime.runtime)
    (FetchEventsAi.mkOpts (brief Samples.opts) (start Samples.opts) (end_ Samples.opts))
    Samples.fabricated
  = Some (eventOf Samples.fabricated)
  /\ grounded (H := RefRuntime.runtime) Samples.opts Samples.fabricated = false.
Proof.
  split; [vm_compute; reflexivity|].
  destruct (grounded (H := RefRuntime.runtime) Samples.opts Samples.fabricated) eqn:Hg;
    [|reflexivity].
  exfalso.
  destruct (@grounding_only_removes RefRuntime.runtime (JArr [Samples.fabricated])
              Samples.opts) as (Hstep & _).
  assert (Hnew : validateCandidate (H := RefRuntime.runtime) Samples.opts
                   Samples.fabricated = Some (eventOf Samples.fabricated)).
  { apply Hstep. split; [vm_compute; reflexivity|]. split; [exact Hg|].
    vm_compute. reflexivity. }
  vm_compute in Hnew. discriminate Hnew.
Defined.

(** ** The discovery function in its clock range, and its events in a digest *)

Section CompositionFacts.
Context `{Runtime}.

Lemma windowEnd_defined (now : Z) (normalized : string) :
  clockRange now -> exists e, windowEnd now normalized = Some e /\ (now <= e)%Z.
Proof.
  intros Hrange.
  destruct (String.eqb normalized "This weekend") eqn:E1.
  { apply String.eqb_eq in E1 as ->.
    destruct (windowEnd_weekend now Hrange) as (e & He & Hle & _). eauto. }
  destruct (String.eqb normalized "Next 7 days") eqn:E2.
  { apply String.eqb_eq in E2 as ->.
    rewrite (windowEnd_days now "Next 7 days" 7 Hrange ltac:(lia) ltac:(auto)).
    eexists. split; [reflexivity | unfold msPerDay; lia]. }
  destruct (String.eqb normalized "Next 2 weeks") eqn:E3.
  { apply String.eqb_eq in E3 as ->.
    rewrite (windowEnd_days now "Next 2 weeks" 14 Hrange ltac:(lia) ltac:(auto)).
    eexists. split; [reflexivity | unfold msPerDay; lia]. }
  destruct (windowEnd_month now normalized Hrange E1 E2 E3) as (e & He & Hle & _).
  eauto.
Qed.

Lemma getTimeWindowRange_defined (now : Z) (eventWindow : string) :
  clockRange now -> exists window, getTimeWindowRange now eventWindow = Some window.
Proof.
  intros Hrange. unfold getTimeWindowRange. cbv zeta.
  destruct (windowEnd_defined now (if truthy eventWindow then eventWindow
                                   else "This month") Hrange) as (e & -> & _).
  eauto.
Qed.

Lemma buildPrompt_defined (now : Z) (b : Brief) (sources : list SourceDoc) :
  clockRange now -> exists prompt, buildPrompt now b sources = Some prompt.
Proof.
  intros Hrange. unfold buildPrompt.
  destruct (getTimeWindowRange_defined now (windowOf b) Hrange) as (window & ->).
  eauto.
Qed.

(** X23.  When discovery succeeds.  With the clock readings for the
    prompt and for the window (the second and the third of a run, after
    the one for the year) between the epoch and 31 days before the last
    representable instant, the discovery function never fails on a date:
    it answers 200 exactly for a preflight
    and for a request with a brief, in a deployment with a gateway key,
    for which either the search gathered nothing or the gateway answered
    the prompt built from the gathered sources with a 2xx status. *)
Theorem handler_success_iff (w : World) (req : Request) :
  clockRange (clock w 1) -> clockRange (clock w 2) ->
  status (fst (run w 0 (handler req))) = 200%nat
  <-> String.eqb (method req) "OPTIONS" = true
      \/ exists rb b,
          json req = Returned rb /\ rb_brief rb = Some b
          /\ truthyOpt (env w "LOVABLE_API_KEY") = true
          /\ let sources := fst (run w 0 (gatherSources b)) in
             sources = []
             \/ exists prompt,
                 buildPrompt (clock w 1) b sources = Some prompt
                 /\ statusOfReply (ai w prompt) = 200%nat.
Proof.
  intros Hr0 Hr1.
  destruct (String.eqb (method req) "OPTIONS") eqn:Hm.
  { unfold handler. rewrite Hm. cbn. split; auto. }
  destruct (json req) as [rb | message] eqn:Hj.
  2: { unfold handler. rewrite Hm, Hj. cbn.
       split; [discriminate | intros [[=] | (rb & b & [=] & _)]]. }
  destruct (rb_brief rb) as [b|] eqn:Hb.
  2: { unfold handler. rewrite Hm, Hj, Hb. cbn.
       split; [discriminate | intros [[=] | (rb' & b & [= <-] & Hb' & _)]].
       congruence. }
  destruct (truthyOpt (env w "LOVABLE_API_KEY")) eqn:Hkey.
  2: { unfold handler. rewrite Hm, Hj, Hb. cbn [bind run]. rewrite Hkey. cbn.
       split; [discriminate | intros [[=] | (rb' & b' & _ & _ & [=] & _)]]. }
  destruct (run_handler w req)
    as [(Hnil & _) | [(Hkey' & _) | (rb' & b' & _ & Hj' & Hb' & _ & Hrun)]].
  { exfalso. unfold handler in Hnil. rewrite Hm, Hj, Hb in Hnil.
    cbn [bind run] in Hnil. rewrite Hkey in Hnil. cbn [negb] in Hnil.
    rewrite run_bind in Hnil.
    destruct (run w 0 (gatherSources b)) as [s tr].
    destruct (run w (0 + ticksOf tr) (afterGather _ _ b s)). cbn in Hnil.
    discriminate Hnil. }
  { congruence. }
  assert (rb' = rb) by congruence. subst rb'.
  assert (b' = b) by congruence. subst b'. clear Hj' Hb'.
  cbv zeta in Hrun. rewrite Hrun. cbn [fst].
  set (sources := fst (run w 0 (gatherSources b))) in *.
  destruct (run_afterGather w 1 (headerTraceId req)
              (orElse (headerTraceId req) (rb_traceId rb)) b sources)
    as [(Hnone & ->) | [(Hne & tr & Hfail & Hshape) | (Hne & prompt & window & Hp & Hw & ->)]].
  - cbn. split; [intros _; right; exists rb, b; cbv zeta; auto 6 | reflexivity].
  - exfalso.
    destruct sources as [|s l]; [congruence|].
    unfold afterGather in Hfail. cbn [bind run] in Hfail.
    destruct (buildPrompt_defined (clock w 1) b (s :: l) Hr0) as (p & Hp).
    rewrite Hp in Hfail. cbn [bind run] in Hfail.
    destruct (getTimeWindowRange_defined (clock w 2) (windowOf b) Hr1) as (win & Hw).
    rewrite Hw in Hfail. cbn [bind run] in Hfail.
    destruct (run w 3 (afterAi _ _ b (s :: l) win (ai w p))) as [r' tr'].
    injection Hfail as _ Htr. destruct Hshape as [-> | ->]; discriminate Htr.
  - cbn [fst].
    destruct (run_afterAi w 3 (headerTraceId req)
                (orElse (headerTraceId req) (rb_traceId rb)) b sources window
                (ai w prompt))
      as [(st & content & finish & Hreply & Hok & ->) | (Hnot & m & i & ->)];
      cbn [fst status].
    + split; [|reflexivity]. intros _. right. exists rb, b.
      do 3 (split; [first [reflexivity | assumption]|]). right. exists prompt.
      split; [exact Hp|].
      rewrite Hreply. cbn. rewrite Hok. reflexivity.
    + split; [intros Hs; congruence|].
      intros [[=] | (rb' & b' & [= <-] & Hb' & _ & Hcase)].
      assert (b' = b) by congruence. subst b'. cbv zeta in Hcase.
      destruct Hcase as [Hnil | (p & Hp' & Hs)]; [exfalso; exact (Hne Hnil)|].
      fold sources in Hp'. assert (p = prompt) by congruence. subst p. exact Hs.
Qed.




End CompositionFacts.

(** The sample deployment, whose clock is in range, answers the sample
    request with 200. *)
Lemma handler_success_iff_witness :
  status (fst (run SamplePipeline.liveWorld 0
                 (handler (H := RefRuntime.runtime) SampleRuns.request)))
  = 200%nat.
Proof.
  apply (@handler_success_iff RefRuntime.runtime SamplePipeline.liveWorld
           SampleRuns.request).
  - vm_compute. split; discriminate.
  - vm_compute. split; discriminate.
  - right. exists (mkRequestBody (Some Samples.jazzBrief) None), Samples.jazzBrief.
    do 3 (split; [reflexivity|]). right. exists SampleAnswers.prompt.
    split; vm_compute; reflexivity.
Defined.

